(** * claude-code-history-exporter: the content-transformation pipeline

    A shallow embedding of the TypeScript sources

    - [src/content/html.ts]           ([unistToHtml], [nodeToElement]),
    - [src/content/markdown.ts]       ([createDetailsBlock], [createMetadataTableNodes]),
    - [src/app/claude-formatting.ts]  ([processAssistantContent], [createToolUseNodes]),
    - [src/app/chat-processing.ts]    ([mergeToolResults], [createChatEntryNodes]),
    - [src/claude-project/claude-project.ts] ([getChatStartTime], [sortChatFilesByTime]),
    - [src/app/export.ts]             ([buildMarkdownDocument], [exportProject], [exportChat]),
    - [src/jsonl.ts]                  ([parseJsonlFile], [writeJsonlFile], [streamJsonlFile]),
    - [src/app/cli.ts]                ([resolveInputPath], [main]),

    with [extractChatMetadata], [findChatFiles], [detectCurrentProject] and
    [formatTimestamp] beside the functions above, followed by the
    properties of the specification that are settled on it and by further
    properties of the code.

    Conventions.  JavaScript values are the inductive type [JS]; [undefined]
    is [None] at the places where a property is read.  Document nodes are
    plain objects ([Obj]), as they are at run time.  A function that can
    raise returns a [Result].  Strings are byte strings (UTF-8), and the
    length of a string is counted in UTF-16 code units.  The numbers that
    are added up are doubles. *)

From Stdlib Require Import String Ascii List ZArith Lia Bool DecimalString.
From Stdlib Require Import Sorting.Sorted Sorting.Permutation.
From Stdlib Require PrimFloat FloatOps.
From stdpp Require Import gmap strings.

Set Warnings "-register-all".

(* ================================================================== *)
(** * JavaScript values *)
(* ================================================================== *)

(** What [JSON.parse] can produce.  Numbers are only ever tested for
    truthiness and printed, and are kept as integers.  The members of an
    object are listed in property order and read by their first entry. *)
Inductive JS : Type :=
| JNull
| JBool (b : bool)
| JNum (n : Z)
| JStr (s : string)
| JArr (items : list JS)
| JObj (fields : list (string * JS)).

Abbreviation Obj := (list (string * JS)).

(** [o[k]] on an object's own members. *)
Fixpoint getProp (o : Obj) (k : string) : option JS :=
  match o with
  | [] => None
  | (k', v) :: rest => if String.eqb k' k then Some v else getProp rest k
  end.

(** [o[k] = v]: an existing member keeps its place. *)
Fixpoint setProp (o : Obj) (k : string) (v : JS) : Obj :=
  match o with
  | [] => [(k, v)]
  | (k', v') :: rest =>
      if String.eqb k' k then (k, v) :: rest else (k', v') :: setProp rest k v
  end.

(** [Object.assign(target, source)] for the sources that reach it: an
    object copies its members in order, [null], [undefined], numbers and
    booleans copy nothing. *)
Definition assign (target : Obj) (source : option JS) : Obj :=
  match source with
  | Some (JObj fields) => fold_left (fun o kv => setProp o (fst kv) (snd kv)) fields target
  | _ => target
  end.

(** [v.k] where [v] is not [null]: only objects carry the members read by
    the pipeline. *)
Definition member (v : JS) (k : string) : option JS :=
  match v with
  | JObj fields => getProp fields k
  | _ => None
  end.

(** [v?.k] *)
Definition optMember (v : option JS) (k : string) : option JS :=
  match v with
  | Some v => member v k
  | None => None
  end.

(** ToBoolean *)
Definition truthy (v : JS) : bool :=
  match v with
  | JNull => false
  | JBool b => b
  | JNum n => negb (Z.eqb n 0)
  | JStr s => negb (String.eqb s "")
  | JArr _ | JObj _ => true
  end.

Definition optTruthy (v : option JS) : bool :=
  match v with
  | Some v => truthy v
  | None => false
  end.

Definition strTruthy (s : option string) : bool :=
  match s with
  | Some s => negb (String.eqb s "")
  | None => false
  end.

Definition natToString (n : nat) : string :=
  NilZero.string_of_uint (Nat.to_uint n).

Definition join (sep : string) (parts : list string) : string :=
  match parts with
  | [] => ""
  | p :: rest => fold_left (fun acc q => acc +:+ sep +:+ q) rest p
  end.

(** ToString.  An array prints its elements separated by commas, [null]
    among them as the empty string. *)
Fixpoint ToString (v : JS) : string :=
  match v with
  | JNull => "null"
  | JBool true => "true"
  | JBool false => "false"
  | JNum n => NilZero.string_of_int (Z.to_int n)
  | JStr s => s
  | JArr items =>
      join "," ((fix each (xs : list JS) : list string :=
                   match xs with
                   | [] => []
                   | JNull :: r => "" :: each r
                   | x :: r => ToString x :: each r
                   end) items)
  | JObj _ => "[object Object]"
  end.

(** [`${v}`] for a value that may be [undefined]. *)
Definition optToString (v : option JS) : string :=
  match v with
  | Some v => ToString v
  | None => "undefined"
  end.

(* ================================================================== *)
(** * Exceptions *)
(* ================================================================== *)

(** The outcome of a call that may raise; [message] is [error.message]. *)
Inductive Result (A : Type) : Type :=
| Ok (value : A)
| Throw (message : string).
Arguments Ok {A} value.
Arguments Throw {A} message.

Definition bind {A B : Type} (c : Result A) (k : A -> Result B) : Result B :=
  match c with
  | Ok a => k a
  | Throw m => Throw m
  end.

Notation "'let*' x ':=' c 'in' k" := (bind c (fun x => k))
  (at level 10, x pattern, c at level 100, k at level 200).

(** Whether a computation returned. *)
Definition returns {A : Type} (c : Result A) : Prop := exists a, c = Ok a.

(* ================================================================== *)
(** * Strings *)
(* ================================================================== *)

Definition nl : string := String (ascii_of_nat 10) "".

(** [s.includes(sub)] *)
Definition includes (s sub : string) : bool :=
  match String.index 0 sub s with
  | Some _ => true
  | None => false
  end.

(** [s.split(sep)] for a one-character separator: never empty. *)
Fixpoint split (sep : ascii) (s : string) : list string :=
  match s with
  | EmptyString => [EmptyString]
  | String c rest =>
      if Ascii.eqb c sep then EmptyString :: split sep rest
      else match split sep rest with
           | [] => [String c EmptyString]
           | h :: t => String c h :: t
           end
  end.

Definition bytesOf (s : string) : list N :=
  map N_of_ascii (list_ascii_of_string s).

Definition stringOf (bs : list N) : string :=
  string_of_list_ascii (map ascii_of_N bs).

(** White space and line terminators of ECMAScript, in UTF-8: the ASCII
    ones, U+00A0, U+1680, U+2000..U+200A, U+2028, U+2029, U+202F, U+205F,
    U+3000 and U+FEFF. *)
Definition asciiSpace (b : N) : bool :=
  ((9 <=? b) && (b <=? 13) || (b =? 32))%N.

Fixpoint dropSpace (bs : list N) : list N :=
  match bs with
  | b :: r =>
      if asciiSpace b then dropSpace r
      else match b, r with
           | 194%N, 160%N :: r' => dropSpace r'
           | 225%N, 154%N :: 128%N :: r' => dropSpace r'
           | 226%N, 128%N :: c :: r' =>
               if ((128 <=? c) && (c <=? 138) || (c =? 168) || (c =? 169) || (c =? 175))%N
               then dropSpace r' else bs
           | 226%N, 129%N :: 159%N :: r' => dropSpace r'
           | 227%N, 128%N :: 128%N :: r' => dropSpace r'
           | 239%N, 187%N :: 191%N :: r' => dropSpace r'
           | _, _ => bs
           end
  | [] => []
  end.

(** The same on a reversed byte sequence, for the end of a string. *)
Fixpoint dropSpaceRev (bs : list N) : list N :=
  match bs with
  | b :: r =>
      if asciiSpace b then dropSpaceRev r
      else match b, r with
           | 160%N, 194%N :: r' => dropSpaceRev r'
           | 128%N, 154%N :: 225%N :: r' => dropSpaceRev r'
           | 159%N, 129%N :: 226%N :: r' => dropSpaceRev r'
           | 128%N, 128%N :: 227%N :: r' => dropSpaceRev r'
           | 191%N, 187%N :: 239%N :: r' => dropSpaceRev r'
           | c, 128%N :: 226%N :: r' =>
               if ((128 <=? c) && (c <=? 138) || (c =? 168) || (c =? 169) || (c =? 175))%N
               then dropSpaceRev r' else bs
           | _, _ => bs
           end
  | [] => []
  end.

(** [s.trim()] *)
Definition trim (s : string) : string :=
  stringOf (rev (dropSpaceRev (rev (dropSpace (bytesOf s))))).

(* ================================================================== *)
(** * unist-builder *)
(* ================================================================== *)

(** [u(type)], [u(type, x)] and [u(type, {...}, value)].  With two
    arguments a string becomes the node's [value], an array its
    [children], and anything else is copied onto the node with
    [Object.assign] (so an object overrides [type] itself). *)
Definition u1 (type : string) : Obj := [("type", JStr type)].

Definition u2 (type : string) (x : JS) : Obj :=
  match x with
  | JStr s => setProp (u1 type) "value" (JStr s)
  | JArr items => setProp (u1 type) "children" (JArr items)
  | _ => assign (u1 type) (Some x)
  end.

Definition u3 (type : string) (props : Obj) (value : JS) : Obj :=
  let node := assign (u1 type) (Some (JObj props)) in
  match value with
  | JArr items => setProp node "children" (JArr items)
  | JNull => node
  | v => setProp node "value" (JStr (ToString v))
  end.

(** An array of nodes, as a [children] member holds it. *)
Definition nodeArray (nodes : list Obj) : JS := JArr (map JObj nodes).

(** [node.type === t] *)
Definition hasType (node : Obj) (t : string) : bool :=
  match getProp node "type" with
  | Some (JStr s) => String.eqb s t
  | _ => false
  end.

(* ================================================================== *)
(** * src/content/html.ts *)
(* ================================================================== *)

(** The DOM nodes the converter builds. *)
Inductive Dom : Type :=
| DText (data : string)
| DElement (tag : string) (attrs : list (string * string)) (children : list Dom).

Definition quoteChar : ascii := ascii_of_nat 34.

(** HTML escaping of text ([attr = false]) and of attribute values. *)
Fixpoint escapeHtml (attr : bool) (s : string) : string :=
  match s with
  | EmptyString => ""
  | String c r =>
      if Ascii.eqb c "&" then "&amp;" +:+ escapeHtml attr r
      else if negb attr && Ascii.eqb c "<" then "&lt;" +:+ escapeHtml attr r
      else if negb attr && Ascii.eqb c ">" then "&gt;" +:+ escapeHtml attr r
      else if attr && Ascii.eqb c quoteChar then "&quot;" +:+ escapeHtml attr r
      else match r with
           | String c' r' =>
               if (N_of_ascii c =? 194)%N && (N_of_ascii c' =? 160)%N
               then "&nbsp;" +:+ escapeHtml attr r'
               else String c (escapeHtml attr r)
           | EmptyString => String c ""
           end
  end.

Definition serializeAttr (a : string * string) : string :=
  " " +:+ fst a +:+ "=" +:+ String quoteChar (escapeHtml true (snd a)) +:+ String quoteChar "".

(** [container.innerHTML]: the serialization of the children. *)
Fixpoint serialize (d : Dom) : string :=
  match d with
  | DText data => escapeHtml false data
  | DElement tag attrs children =>
      "<" +:+ tag +:+ String.concat "" (map serializeAttr attrs) +:+ ">"
      +:+ String.concat "" (map serialize children)
      +:+ "</" +:+ tag +:+ ">"
  end.

Definition innerHTML (children : list Dom) : string :=
  String.concat "" (map serialize children).

(** [String(node.value || "")] *)
Definition valueText (v : JS) : string :=
  if truthy v then ToString v else "".

(** [element.textContent = s] *)
Definition textContent (s : string) : list Dom :=
  if String.eqb s "" then [] else [DText s].

Definition appendChild (e : option Dom) (es : list Dom) : list Dom :=
  match e with
  | Some d => d :: es
  | None => es
  end.

Definition unsupportedNode (type : option JS) : string :=
  "Unsupported unist node type: " +:+ optToString type.

Definition nullTypeRead : string := "Cannot read properties of null (reading 'type')".
Definition childrenNotIterable : string := "node.children is not iterable".

(** The cases of [nodeToElement] for a node that is an object, given the
    outcome of converting its children. *)
Definition elementOf (fields : Obj) (childElements : Result (list Dom))
    : Result (option Dom) :=
  let isLiteral := getProp fields "value" in
  let isParent := getProp fields "children" in
  let container (tag : string) (attrs : list (string * string)) : Result (option Dom) :=
    match isParent, isLiteral with
    | Some _, _ => let* cs := childElements in Ok (Some (DElement tag attrs cs))
    | None, Some v => Ok (Some (DElement tag attrs (textContent (valueText v))))
    | None, None => Ok (Some (DElement tag attrs []))
    end in
  let literal (tag : string) : Result (option Dom) :=
    match isLiteral with
    | Some v => Ok (Some (DElement tag [] (textContent (valueText v))))
    | None => Ok (Some (DElement tag [] []))
    end in
  match getProp fields "type" with
  | Some (JStr t) =>
      if String.eqb t "text" then
        match isLiteral with
        | Some v => Ok (Some (DText (valueText v)))
        | None => Ok None
        end
      else if String.eqb t "strong" then container "strong" []
      else if String.eqb t "code" then literal "pre"
      else if String.eqb t "inlineCode" then literal "code"
      else if String.eqb t "link" then
        container "a" match getProp fields "url" with
                      | Some (JStr url) => [("href", url)]
                      | _ => []
                      end
      else Throw (unsupportedNode (Some (JStr t)))
  | other => Throw (unsupportedNode other)
  end.

(** [nodeToElement].  The loop over [node.children] of the "strong" and
    "link" cases is written over the members of the node, so that the
    recursion is structural: it converts the array held by the first
    member named "children".  A string iterates as its characters, which
    have no type; anything else is not iterable.  A node that is not an
    object reads [undefined] for its type, and [null] raises on that
    read. *)
Fixpoint nodeToElement (node : JS) : Result (option Dom) :=
  match node with
  | JNull => Throw nullTypeRead
  | JObj fields =>
      elementOf fields
        ((fix find (fs : list (string * JS)) : Result (list Dom) :=
            match fs with
            | [] => Ok []
            | (k, v) :: rest =>
                if String.eqb k "children" then
                  match v with
                  | JArr items =>
                      (fix each (xs : list JS) : Result (list Dom) :=
                         match xs with
                         | [] => Ok []
                         | x :: r =>
                             let* e := nodeToElement x in
                             let* es := each r in
                             Ok (appendChild e es)
                         end) items
                  | JStr s => if String.eqb s "" then Ok [] else Throw (unsupportedNode None)
                  | _ => Throw childrenNotIterable
                  end
                else find rest
            end) fields)
  | _ => Throw (unsupportedNode None)
  end.

(** The loop of [unistToHtml]: the elements appended to the container. *)
Fixpoint nodesToElements (nodes : list JS) : Result (list Dom) :=
  match nodes with
  | [] => Ok []
  | node :: rest =>
      let* e := nodeToElement node in
      let* es := nodesToElements rest in
      Ok (appendChild e es)
  end.

Definition unistToHtml (nodes : list Obj) : Result string :=
  let* elements := nodesToElements (map JObj nodes) in
  Ok (innerHTML elements).

(* ================================================================== *)
(** * src/claude-project/types.ts *)
(* ================================================================== *)

Inductive BlockType : Type := B_text | B_tool_use | B_tool_result | B_thinking.

(** [content] of a block: a string or an array of anything. *)
Inductive ResultContent : Type :=
| RString (s : string)
| RArray (items : list JS).

(** ContentBlockSchema; [input] is [z.any()]. *)
Record ContentBlock : Type := {
  b_type : BlockType;
  b_text : option string;
  b_thinking : option string;
  b_signature : option string;
  b_id : option string;
  b_name : option string;
  b_input : option JS;
  b_tool_use_id : option string;
  b_content : option ResultContent
}.

Inductive EntryType : Type := T_user | T_assistant.

(** [message.content]: a bare string or a list of blocks. *)
Inductive MessageContent : Type :=
| ContentString (s : string)
| ContentBlocks (blocks : list ContentBlock).

(** ChatMessageSchema, with the members the pipeline reads, and the
    [toolResults] annotation that [mergeToolResults] adds. *)
Record ChatMessage : Type := {
  cm_type : EntryType;
  cm_content : MessageContent;
  cm_sessionId : string;
  cm_uuid : string;
  cm_timestamp : string;
  cm_toolResults : option (gmap string string)
}.

Record SystemMessage : Type := {
  sys_content : string;
  sys_uuid : string;
  sys_timestamp : string
}.

Record SummaryMessage : Type := {
  sum_summary : string;
  sum_leafUuid : string
}.

(** ChatEntrySchema: the union of the three record shapes. *)
Inductive ChatEntry : Type :=
| Chat (m : ChatMessage)
| System (s : SystemMessage)
| Summary (s : SummaryMessage).

(** AppCliOptions *)
Record AppCliOptions : Type := {
  opt_output : option string;
  opt_chats : option (list string)
}.

(* ================================================================== *)
(** * The collaborators outside the pipeline *)
(* ================================================================== *)

(** The run-time platform and the libraries the pipeline calls: the file
    system, JSON and schema decoding of one line, [Date], remark, and the
    metadata extraction, which the pipeline uses verbatim as table input.
    [formatTimestamp] and [extractChatMetadata] are functions of the
    repository that read the local time zone and the usage counters; they
    raise nothing, and no property below depends on what they return.
    Every property below holds for all collaborators. *)
Record Ext : Type := {
  (** [Deno.readTextFile] *)
  readTextFile : string -> Result string;
  (** [ChatEntrySchema.parse(JSON.parse(line))]; [None] when either raises *)
  decodeEntry : string -> option ChatEntry;
  (** [new Date(s).getTime()]; [None] is NaN, the time of an invalid date *)
  dateTime : string -> option Z;
  (** [formatTimestamp] of claude-formatting.ts (local time zone) *)
  formatTimestamp : string -> string;
  (** [formatTimestamp(new Date())] *)
  exportDate : string;
  (** [remark().use(remarkGfm).parse(s).children] *)
  parseMarkdown : string -> list Obj;
  (** [remark().use(remarkGfm).stringify(u("root", nodes))] *)
  stringifyMarkdown : list Obj -> string;
  (** [JSON.stringify(v, null, 2)] *)
  JSON_stringify : JS -> string;
  (** [basename(path, ".jsonl")] *)
  basename : string -> string;
  (** [extractChatMetadata] of claude-project.ts *)
  extractChatMetadata : list ChatEntry -> list (string * string)
}.

Section Pipeline.

Variable ext : Ext.

(* ================================================================== *)
(** * src/content/markdown.ts *)
(* ================================================================== *)

Definition createDetailsBlock (summary contentNodes : list Obj) : Result (list Obj) :=
  let* summaryHtml := unistToHtml summary in
  let contentMarkdown := stringifyMarkdown ext contentNodes in
  let detailsHtml :=
    "<details><summary>" +:+ summaryHtml +:+ "</summary>" +:+ nl +:+ nl
    +:+ contentMarkdown +:+ nl +:+ nl +:+ "</details>" in
  Ok [u2 "html" (JStr detailsHtml)].

Definition tableCell (s : string) : Obj :=
  u2 "tableCell" (nodeArray [u2 "text" (JStr s)]).

Definition tableRow (key value : string) : Obj :=
  u2 "tableRow" (nodeArray [tableCell key; tableCell value]).

Definition createMetadataTableNodes (metadata : list (string * string)) : list Obj :=
  if (length metadata =? 0)%nat then []
  else
    let rows := map (fun kv => tableRow (fst kv) (snd kv)) metadata in
    let headerRow := tableRow "Property" "Value" in
    [u3 "table" [("align", JArr [JStr "left"; JStr "left"])] (nodeArray (headerRow :: rows))].

(* ================================================================== *)
(** * src/app/claude-formatting.ts *)
(* ================================================================== *)

(** ** processAssistantContent *)

(** The variables of the walk. *)
Record Walk : Type := {
  visibleNodes : list Obj;
  collapsedNodes : list Obj;
  paragraphCount : nat;
  shouldCollapse : bool
}.

Definition walkStart : Walk :=
  {| visibleNodes := []; collapsedNodes := []; paragraphCount := 0; shouldCollapse := false |}.

Definition pushVisible (w : Walk) (node : Obj) : Walk :=
  {| visibleNodes := visibleNodes w ++ [node]; collapsedNodes := collapsedNodes w;
     paragraphCount := paragraphCount w; shouldCollapse := shouldCollapse w |}.

Definition pushCollapsed (w : Walk) (node : Obj) : Walk :=
  {| visibleNodes := visibleNodes w; collapsedNodes := collapsedNodes w ++ [node];
     paragraphCount := paragraphCount w; shouldCollapse := true |}.

Definition countParagraph (w : Walk) : Walk :=
  {| visibleNodes := visibleNodes w; collapsedNodes := collapsedNodes w;
     paragraphCount := S (paragraphCount w); shouldCollapse := shouldCollapse w |}.

(** One iteration of the loop over [contentNodes]. *)
Definition walkStep (w : Walk) (node : Obj) : Walk :=
  if shouldCollapse w then pushCollapsed w node
  else if hasType node "paragraph" then
    let w := countParagraph w in
    if (paragraphCount w <=? 3)%nat then pushVisible w node else pushCollapsed w node
  else if hasType node "heading" then pushCollapsed w node
  else if (3 <=? paragraphCount w)%nat then pushCollapsed w node
  else pushVisible w node.

Definition walk (contentNodes : list Obj) : Walk :=
  fold_left walkStep contentNodes walkStart.

(** The callback of [collapsedNodes.some]. *)
Definition isDetailsHtml (node : Obj) : bool :=
  hasType node "html" &&
  match getProp node "value" with
  | Some (JStr value) => includes value "<details>"
  | _ => false
  end.

Definition processAssistantContent (contentNodes : list Obj) : Result (list Obj) :=
  if (length contentNodes =? 0)%nat then Ok []
  else
    let w := walk contentNodes in
    let result := visibleNodes w in
    if (0 <? length (collapsedNodes w))%nat then
      let collapsedMarkdown := trim (stringifyMarkdown ext (collapsedNodes w)) in
      let hasDetailsBlocks := existsb isDetailsHtml (collapsedNodes w) in
      if hasDetailsBlocks then Ok (result ++ [u2 "html" (JStr collapsedMarkdown)])
      else
        let summary := [u2 "text" (JStr "More...")] in
        let* detailsContent := createDetailsBlock summary (collapsedNodes w) in
        Ok (result ++ detailsContent)
    else Ok result.

(** ** createToolUseNodes *)

(** The second argument of [createToolSummary]. *)
Inductive Description : Type :=
| DescString (s : string)
| DescNodes (nodes : list Obj).

Definition createToolSummary (toolName : string) (description : option Description) : list Obj :=
  let content := [u2 "text" (JStr "🔧 "); u2 "strong" (nodeArray [u2 "text" (JStr toolName)])] in
  match description with
  | Some (DescString s) =>
      if String.eqb s "" then content else content ++ [u2 "text" (JStr (": " +:+ s))]
  | Some (DescNodes nodes) => content ++ [u2 "text" (JStr ": ")] ++ nodes
  | None => content
  end.

(** [createCodeNode(content, language)]; [content] is whatever truthy
    value the [command] parameter holds, and [includes] exists on strings
    and arrays only. *)
Definition createCodeNode (content : JS) (language : string) : Result Obj :=
  let lang := if String.eqb language "" then JNull else JStr language in
  match content with
  | JStr s =>
      Ok (if includes s nl then u3 "code" [("lang", lang)] (JStr s) else u2 "inlineCode" (JStr s))
  | JArr items =>
      Ok (if existsb (fun x => match x with JStr e => String.eqb e nl | _ => false end) items
          then u3 "code" [("lang", lang)] (JArr items) else u2 "inlineCode" (JArr items))
  | _ => Throw "content.includes is not a function"
  end.

(** [block.input.file_path.split("/").pop() || ""] *)
Definition fileNameOf (file_path : JS) : Result string :=
  match file_path with
  | JStr s => Ok (List.last (split "/" s) "")
  | _ => Throw "block.input.file_path.split is not a function"
  end.

(** The [length] of a string counts UTF-16 code units.  On the bytes of its
    UTF-8 form that is one unit for every byte that starts a character (a
    byte that is not a continuation byte [10xxxxxx]) and a second unit for
    the first byte of a four-byte sequence, a character outside the basic
    plane. *)
Fixpoint utf16Length (s : string) : nat :=
  match s with
  | EmptyString => O
  | String c rest =>
      let byte := nat_of_ascii c in
      ((if Nat.ltb byte 128 || Nat.leb 192 byte then 1 else 0)
       + (if Nat.leb 240 byte then 1 else 0) + utf16Length rest)%nat
  end.

(** [v?.length] *)
Definition lengthOf (v : option JS) : option JS :=
  match v with
  | Some (JArr items) => Some (JNum (Z.of_nat (length items)))
  | Some (JStr s) => Some (JNum (Z.of_nat (utf16Length s)))
  | Some (JObj fields) => getProp fields "length"
  | _ => None
  end.

Definition statusIs (t : JS) (status : string) : bool :=
  match member t "status" with
  | Some (JStr s) => String.eqb s status
  | _ => false
  end.

Definition taskSummary (t : JS) : string :=
  (if statusIs t "completed" then "✅"
   else if statusIs t "in_progress" then "🔄" else "⏳")
  +:+ " " +:+ optToString (member t "content").

Definition backslashBreak : string := String (ascii_of_nat 92) nl.

Definition fileDescription (toolName verb : string) (file_path : JS)
    : Result (list Obj * list Obj) :=
  let* fileName := fileNameOf file_path in
  Ok (createToolSummary toolName
        (Some (DescNodes [u2 "text" (JStr verb); u2 "inlineCode" (JStr fileName)])), []).

(** The summary of the tool and the nodes shown outside the disclosure
    block so far (lines 108 to 186 of claude-formatting.ts). *)
Definition describeTool (toolName : string) (input : option JS) : Result (list Obj * list Obj) :=
  let on (name key : string) := String.eqb toolName name && optTruthy (optMember input key) in
  let get (key : string) := match optMember input key with Some v => v | None => JNull end in
  if on "TodoWrite" "todos" then
    match get "todos" with
    | JArr todos =>
        if existsb (fun t => match t with JNull => true | _ => false end) todos
        then Throw "Cannot read properties of null (reading 'status')"
        else
          let count (status : string) :=
            natToString (length (List.filter (fun t => statusIs t status) todos)) in
          let summary := createToolSummary toolName (Some (DescString (
            "Updated todo list (" +:+ count "completed" +:+ " completed, "
            +:+ count "in_progress" +:+ " in progress, "
            +:+ count "pending" +:+ " pending)"))) in
          let tasksText :=
            "**Tasks:**" +:+ backslashBreak +:+ join backslashBreak (map taskSummary todos) in
          Ok (summary, parseMarkdown ext tasksText)
    | _ => Throw "todos.filter is not a function"
    end
  else if on "Read" "file_path" then fileDescription toolName "Read file " (get "file_path")
  else if on "Write" "file_path" then fileDescription toolName "Created file " (get "file_path")
  else if on "Edit" "file_path" then fileDescription toolName "Edited file " (get "file_path")
  else if on "MultiEdit" "file_path" then
    let* fileName := fileNameOf (get "file_path") in
    let editCount :=
      match lengthOf (optMember input "edits") with
      | Some n => if truthy n then n else JNum 0
      | None => JNum 0
      end in
    Ok (createToolSummary toolName (Some (DescNodes
          [u2 "text" (JStr ("Made " +:+ ToString editCount +:+ " edits to "));
           u2 "inlineCode" (JStr fileName)])), [])
  else if on "Bash" "command" then
    let* code := createCodeNode (get "command") "bash" in
    Ok (createToolSummary toolName (Some (DescNodes [code])), [])
  else if on "Glob" "pattern" then
    Ok (createToolSummary toolName (Some (DescNodes
          [u2 "text" (JStr "Search pattern "); u2 "inlineCode" (get "pattern")])), [])
  else if on "Grep" "pattern" then
    Ok (createToolSummary toolName (Some (DescNodes
          [u2 "text" (JStr "Search for "); u2 "inlineCode" (get "pattern")])), [])
  else Ok (createToolSummary toolName None, []).

(** [Object.keys(v).length > 0] for a truthy [v] *)
Definition hasKeys (v : JS) : bool :=
  match v with
  | JObj fields => (0 <? length fields)%nat
  | JArr items => (0 <? length items)%nat
  | JStr _ => true
  | _ => false
  end.

Definition strongParagraph (label : string) : Obj :=
  u2 "paragraph" (nodeArray [u2 "strong" (nodeArray [u2 "text" (JStr label)])]).

Definition plainCode (value : string) : Obj := u3 "code" [("lang", JNull)] (JStr value).

(** "Add raw parameters" *)
Definition parameterParts (input : option JS) : list Obj :=
  match input with
  | Some v =>
      if truthy v && hasKeys v
      then [strongParagraph "Parameters:"; u3 "code" [("lang", JStr "json")] (JStr (JSON_stringify ext v))]
      else []
  | None => []
  end.

Definition openResultParagraph : Obj :=
  u2 "paragraph" (nodeArray [u2 "text" (JStr "📋 "); u2 "strong" (nodeArray [u2 "text" (JStr "Result:")])]).

Definition toolNameOf (block : ContentBlock) : string :=
  match b_name block with
  | Some name => if String.eqb name "" then "unknown_tool" else name
  | None => "unknown_tool"
  end.

Definition createToolUseNodes (block : ContentBlock) (result : option string) : Result (list Obj) :=
  let toolName := toolNameOf block in
  let* described := describeTool toolName (b_input block) in
  let summary := fst described in
  let nodes := snd described in
  let collapsibleParts := parameterParts (b_input block) in
  let '(nodes, collapsibleParts) :=
    match result with
    | Some result =>
        if String.eqb result "" then (nodes, collapsibleParts)
        else if String.eqb toolName "Write" || String.eqb toolName "Edit" then
          (nodes ++ [openResultParagraph; plainCode result], collapsibleParts)
        else if String.eqb toolName "Read" then
          (nodes, collapsibleParts ++ [strongParagraph "File Contents:"; plainCode result])
        else
          (nodes, collapsibleParts ++ [strongParagraph "Result:"; plainCode result])
    | None => (nodes, collapsibleParts)
    end in
  if (0 <? length collapsibleParts)%nat then
    let* detailsContent := createDetailsBlock summary collapsibleParts in
    Ok (detailsContent ++ nodes)
  else
    let* label := unistToHtml summary in
    Ok (u2 "html" (JStr label) :: nodes).

(* ================================================================== *)
(** * src/app/chat-processing.ts *)
(* ================================================================== *)

(** ** mergeToolResults *)

Definition isToolResult (block : ContentBlock) : bool :=
  match b_type block with
  | B_tool_result => true
  | _ => false
  end.

(** The string stored for a block's content. *)
Definition payloadText (c : ResultContent) : string :=
  match c with
  | RString s => s
  | RArray items => JSON_stringify ext (JArr items)
  end.

(** [block.type === "tool_result" && block.tool_use_id && block.content]:
    the key and the payload of a block that is recorded. *)
Definition recorded (block : ContentBlock) : option (string * string) :=
  match b_tool_use_id block, b_content block with
  | Some tool_use_id, Some c =>
      if isToolResult block && negb (String.eqb tool_use_id "")
         && match c with RString s => negb (String.eqb s "") | RArray _ => true end
      then Some (tool_use_id, payloadText c)
      else None
  | _, _ => None
  end.

Definition collectBlock (toolResults : gmap string string) (block : ContentBlock)
    : gmap string string :=
  match recorded block with
  | Some (tool_use_id, content) => <[tool_use_id := content]> toolResults
  | None => toolResults
  end.

(** The blocks of a user entry whose content is not a bare string. *)
Definition userBlocks (entry : ChatEntry) : option (list ContentBlock) :=
  match entry with
  | Chat m =>
      match cm_type m, cm_content m with
      | T_user, ContentBlocks content => Some content
      | _, _ => None
      end
  | _ => None
  end.

(** First pass. *)
Definition collectEntry (toolResults : gmap string string) (entry : ChatEntry)
    : gmap string string :=
  match userBlocks entry with
  | Some content => fold_left collectBlock content toolResults
  | None => toolResults
  end.

Definition collectToolResults (entries : list ChatEntry) : gmap string string :=
  fold_left collectEntry entries ∅.

(** The test of the second pass that ends in [continue]. *)
Definition onlyToolResults (entry : ChatEntry) : bool :=
  match userBlocks entry with
  | Some content => negb (existsb (fun block => negb (isToolResult block)) content)
  | None => false
  end.

(** [{ ...entry, toolResults }] for an assistant entry. *)
Definition attachToolResults (toolResults : gmap string string) (entry : ChatEntry)
    : ChatEntry :=
  match entry with
  | Chat m =>
      match cm_type m with
      | T_assistant =>
          Chat {| cm_type := cm_type m; cm_content := cm_content m;
                  cm_sessionId := cm_sessionId m; cm_uuid := cm_uuid m;
                  cm_timestamp := cm_timestamp m; cm_toolResults := Some toolResults |}
      | T_user => entry
      end
  | _ => entry
  end.

(** Second pass, one iteration. *)
Definition mergeStep (toolResults : gmap string string) (result : list ChatEntry)
    (entry : ChatEntry) : list ChatEntry :=
  if onlyToolResults entry then result
  else result ++ [attachToolResults toolResults entry].

Definition mergeToolResults (entries : list ChatEntry) : list ChatEntry :=
  let toolResults := collectToolResults entries in
  fold_left (mergeStep toolResults) entries [].

(** ** extractTextContentAsNodes *)

(** The children of a user paragraph: the lines, a break between two. *)
Fixpoint lineNodes (lines : list string) : list Obj :=
  match lines with
  | [] => []
  | [line] => [u2 "text" (JStr line)]
  | line :: rest => u2 "text" (JStr line) :: u1 "break" :: lineNodes rest
  end.

(** [toolResults && block.id ? toolResults.get(block.id) : undefined] *)
Definition resultFor (toolResults : option (gmap string string)) (block : ContentBlock)
    : option string :=
  match toolResults, b_id block with
  | Some toolResults, Some id => if String.eqb id "" then None else toolResults !! id
  | _, _ => None
  end.

(** The body of the loop over the blocks. *)
Definition blockNodes (toolResults : option (gmap string string)) (isAssistant : bool)
    (block : ContentBlock) : Result (list Obj) :=
  match b_type block, b_text block with
  | B_text, Some text =>
      if String.eqb text "" then Ok []
      else if isAssistant then Ok (parseMarkdown ext text)
      else Ok [u2 "paragraph" (nodeArray (lineNodes (split (ascii_of_nat 10) text)))]
  | B_tool_use, _ => createToolUseNodes block (resultFor toolResults block)
  | _, _ => Ok []
  end.

Fixpoint extractBlocks (toolResults : option (gmap string string)) (isAssistant : bool)
    (content : list ContentBlock) : Result (list Obj) :=
  match content with
  | [] => Ok []
  | block :: rest =>
      let* nodes := blockNodes toolResults isAssistant block in
      let* more := extractBlocks toolResults isAssistant rest in
      Ok (nodes ++ more)
  end.

Definition textBlock (text : string) : ContentBlock :=
  {| b_type := B_text; b_text := Some text; b_thinking := None; b_signature := None;
     b_id := None; b_name := None; b_input := None; b_tool_use_id := None;
     b_content := None |}.

Definition extractTextContentAsNodes (content : MessageContent)
    (toolResults : option (gmap string string)) (isAssistant : bool) : Result (list Obj) :=
  match content with
  | ContentString s => extractBlocks toolResults isAssistant [textBlock s]
  | ContentBlocks blocks => extractBlocks toolResults isAssistant blocks
  end.

(** ** createChatEntryNodes *)

Definition heading (depth : Z) (text : string) : Obj :=
  u3 "heading" [("depth", JNum depth)] (nodeArray [u2 "text" (JStr text)]).

(** The text before "System" is the literal of the source file, byte for
    byte; it is not the wrench of [createToolSummary]. *)
Definition createChatEntryNodes (entry : ChatEntry) (_options : AppCliOptions)
    : Result (list Obj) :=
  match entry with
  | Summary summary =>
      processAssistantContent
        [heading 2 "Summary"; u2 "paragraph" (nodeArray [u2 "text" (JStr (sum_summary summary))])]
  | System systemMsg =>
      processAssistantContent
        [heading 3 (formatTimestamp ext (sys_timestamp systemMsg));
         u2 "paragraph" (nodeArray
           [u2 "text" (JStr "ðŸ”§ "); u2 "strong" (nodeArray [u2 "text" (JStr "System")]);
            u2 "text" (JStr (": " +:+ sys_content systemMsg))])]
  | Chat chatMsg =>
      let isAssistant := match cm_type chatMsg with T_assistant => true | T_user => false end in
      let* contentNodes :=
        extractTextContentAsNodes (cm_content chatMsg) (cm_toolResults chatMsg) isAssistant in
      if (length contentNodes =? 0)%nat then Ok []
      else
        match cm_type chatMsg with
        | T_user =>
            Ok [heading 3 (formatTimestamp ext (cm_timestamp chatMsg));
                u2 "blockquote" (nodeArray contentNodes)]
        | T_assistant => processAssistantContent contentNodes
        end
  end.

Definition createExportMetadata (projectName : string) (chatFiles : list string)
    (options : AppCliOptions) : list (string * string) :=
  let chatCount := length chatFiles in
  let selectedChats :=
    match opt_chats options with
    | Some chats => length chats
    | None => chatCount
    end in
  [("Project Name", projectName);
   ("Export Date", exportDate ext);
   ("Total Chat Files", natToString chatCount);
   ("Exported Chats", natToString selectedChats);
   ("Output Format", "Markdown")].

(* ================================================================== *)
(** * src/jsonl.ts and src/claude-project/claude-project.ts *)
(* ================================================================== *)

(** [content.trim().split("\n").filter((line) => line.trim())] *)
Definition jsonlLines (content : string) : list string :=
  List.filter (fun line => negb (String.eqb (trim line) "")) (split (ascii_of_nat 10) (trim content)).

(** The loop of [parseJsonlFile]: a line that does not decode is skipped. *)
Fixpoint decodeLines (lines : list string) : list ChatEntry :=
  match lines with
  | [] => []
  | line :: rest =>
      match decodeEntry ext line with
      | Some entry => entry :: decodeLines rest
      | None => decodeLines rest
      end
  end.

Definition parseClaudeChatFile (filePath : string) : Result (list ChatEntry) :=
  let* content := readTextFile ext filePath in
  Ok (decodeLines (jsonlLines content)).

(** ["timestamp" in entry] *)
Definition timestampOf (entry : ChatEntry) : option string :=
  match entry with
  | Chat m => Some (cm_timestamp m)
  | System s => Some (sys_timestamp s)
  | Summary _ => None
  end.

(** A [Date] by its time value; [None] is the time of an invalid date. *)
Definition epoch : option Z := Some 0%Z.

(** The loop of [getChatStartTime] over the lines. *)
Fixpoint firstTimestamp (lines : list string) : option Z :=
  match lines with
  | [] => epoch
  | line :: rest =>
      match decodeEntry ext line with
      | Some entry =>
          match timestampOf entry with
          | Some timestamp => dateTime ext timestamp
          | None => firstTimestamp rest
          end
      | None => firstTimestamp rest
      end
  end.

Definition getChatStartTime (chatFile : string) : option Z :=
  match readTextFile ext chatFile with
  | Ok content =>
      let lines := jsonlLines content in
      if (length lines =? 0)%nat then epoch else firstTimestamp lines
  | Throw _ => epoch
  end.

End Pipeline.

(** [Array.prototype.sort(compare)].  The sort is stable; with a
    consistent comparator every stable sort returns the same array, and
    it is written here as an insertion sort.  [compare] is the number
    that the sort reads off the comparator: a result that is NaN counts
    as [+0], and two items that compare as [+0] keep their order.  With a
    comparator that is not consistent, as [compareStartTime] is among
    start times of which one is not a date, the language leaves the order
    to the engine: the array that comes back holds the same items, and the
    insertion sort gives one such order, which need not be the engine's. *)
Fixpoint insertSorted {A : Type} (compare : A -> A -> Z) (x : A) (sorted : list A) : list A :=
  match sorted with
  | [] => [x]
  | y :: rest =>
      if (compare x y <=? 0)%Z then x :: y :: rest
      else y :: insertSorted compare x rest
  end.

Definition arraySort {A : Type} (compare : A -> A -> Z) (items : list A) : list A :=
  fold_right (insertSorted compare) [] items.

(** [a.startTime.getTime() - b.startTime.getTime()]: NaN when either
    time is, and the sort reads NaN as [+0]. *)
Definition compareStartTime (a b : string * option Z) : Z :=
  match snd a, snd b with
  | Some ta, Some tb => (ta - tb)%Z
  | _, _ => 0%Z
  end.

Section Exporter.

Variable ext : Ext.

Definition sortChatFilesByTime (chatFiles : list string) : list string :=
  let chatFilesWithTimes := map (fun chatFile => (chatFile, getChatStartTime ext chatFile)) chatFiles in
  map fst (arraySort compareStartTime chatFilesWithTimes).

(* ================================================================== *)
(** * src/app/export.ts *)
(* ================================================================== *)

(** [formattedMetadata[key] = formatTimestamp(formattedMetadata[key])]
    when the member is a non-empty string. *)
Definition formatField (key : string) (metadata : list (string * string))
    : list (string * string) :=
  map (fun kv =>
         if String.eqb (fst kv) key && negb (String.eqb (snd kv) "")
         then (fst kv, formatTimestamp ext (snd kv)) else kv) metadata.

Definition chatMetadataNodes (entries : list ChatEntry) : list Obj :=
  let metadata := extractChatMetadata ext entries in
  let formattedMetadata := formatField "End Time" (formatField "Start Time" metadata) in
  createMetadataTableNodes formattedMetadata.

(** The loop over the processed entries, inside [try]: the document
    nodes when the loop ends or raises, and what was raised. *)
Fixpoint pushEntries (options : AppCliOptions) (entries : list ChatEntry)
    (documentNodes : list Obj) : list Obj * option string :=
  match entries with
  | [] => (documentNodes, None)
  | entry :: rest =>
      match createChatEntryNodes ext entry options with
      | Ok entryNodes => pushEntries options rest (documentNodes ++ entryNodes)
      | Throw errorMessage => (documentNodes, Some errorMessage)
      end
  end.

(** The [try] block of one chat. *)
Definition tryChat (options : AppCliOptions) (chatFile : string)
    (documentNodes : list Obj) : list Obj * option string :=
  match parseClaudeChatFile ext chatFile with
  | Ok entries =>
      let documentNodes := documentNodes ++ chatMetadataNodes entries in
      let processedEntries := mergeToolResults ext entries in
      pushEntries options processedEntries documentNodes
  | Throw errorMessage => (documentNodes, Some errorMessage)
  end.

Definition errorParagraph (errorMessage : string) : Obj :=
  u2 "paragraph" (nodeArray
    [u2 "emphasis" (nodeArray
       [u2 "text" (JStr ("Error processing this chat: " +:+ errorMessage))])]).

(** One iteration of the loop over the sorted chat files: the heading,
    the [try] block with its [catch], the separator. *)
Definition processChat (options : AppCliOptions) (documentNodes : list Obj)
    (chatFile : string) : list Obj :=
  let chatId := basename ext chatFile in
  let documentNodes := documentNodes ++ [heading 2 ("Chat: " +:+ chatId)] in
  let attempt := tryChat options chatFile documentNodes in
  let documentNodes :=
    match snd attempt with
    | Some errorMessage => fst attempt ++ [errorParagraph errorMessage]
    | None => fst attempt
    end in
  documentNodes ++ [u1 "thematicBreak"].

(** The nodes pushed before the loop.  The project name of the export
    table is the second to last of the parts of a base name split at
    "/", which a base name never has: it is always "Chat". *)
Definition documentHead (title : string) (chatFiles : list string)
    (options : AppCliOptions) : list Obj :=
  let documentNodes := [heading 1 title] in
  if (1 <? length chatFiles)%nat then
    documentNodes
    ++ createMetadataTableNodes (createExportMetadata ext "Chat" chatFiles options)
    ++ [u1 "thematicBreak"]
  else documentNodes.

Definition documentNodesOf (title : string) (chatFiles : list string)
    (options : AppCliOptions) : list Obj :=
  fold_left (processChat options) (sortChatFilesByTime chatFiles)
    (documentHead title chatFiles options).

Definition buildMarkdownDocument (title : string) (chatFiles : list string)
    (options : AppCliOptions) : string :=
  stringifyMarkdown ext (documentNodesOf title chatFiles options).

End Exporter.

(* ================================================================== *)
(** * The vocabulary of the properties *)
(* ================================================================== *)

(** The number of paragraph nodes of a list. *)
Definition paragraphs (nodes : list Obj) : nat :=
  length (List.filter (fun node => hasType node "paragraph") nodes).

Definition noHeading (node : Obj) : Prop := hasType node "heading" = false.

(** A record without its annotation. *)
Definition withoutToolResults (entry : ChatEntry) : ChatEntry :=
  match entry with
  | Chat m =>
      Chat {| cm_type := cm_type m; cm_content := cm_content m;
              cm_sessionId := cm_sessionId m; cm_uuid := cm_uuid m;
              cm_timestamp := cm_timestamp m; cm_toolResults := None |}
  | _ => entry
  end.

(** The records that the second pass keeps. *)
Definition survives (entry : ChatEntry) : bool := negb (onlyToolResults entry).

(** The records that the second pass annotates. *)
Definition isAssistantRecord (entry : ChatEntry) : bool :=
  match entry with
  | Chat m => match cm_type m with T_assistant => true | T_user => false end
  | _ => false
  end.

Definition store (toolResults : gmap string string) (kv : string * string)
    : gmap string string :=
  <[fst kv := snd kv]> toolResults.

(** The types that [nodeToElement] has a case for. *)
Definition supportedType (type : option JS) : bool :=
  match type with
  | Some (JStr t) =>
      String.eqb t "text" || String.eqb t "strong" || String.eqb t "code"
      || String.eqb t "inlineCode" || String.eqb t "link"
  | _ => false
  end.

(** A node built only from the supported types: an object of a supported
    type whose children, when it has any, are an array of such nodes. *)
Fixpoint supportedTree (node : JS) : bool :=
  match node with
  | JObj fields =>
      supportedType (getProp fields "type") &&
      (fix find (fs : list (string * JS)) : bool :=
         match fs with
         | [] => true
         | (k, v) :: rest =>
             if String.eqb k "children" then
               match v with
               | JArr items =>
                   (fix each (xs : list JS) : bool :=
                      match xs with
                      | [] => true
                      | x :: r => supportedTree x && each r
                      end) items
               | _ => false
               end
             else find rest
         end) fields
  | _ => false
  end.

(** The loop over [node.children], by the member it reads. *)
Definition childElements (fields : Obj) : Result (list Dom) :=
  match getProp fields "children" with
  | Some (JArr items) => nodesToElements items
  | Some (JStr s) => if String.eqb s "" then Ok [] else Throw (unsupportedNode None)
  | Some _ => Throw childrenNotIterable
  | None => Ok []
  end.

(** Induction over a value and the values inside it. *)
Definition JS_nested_ind (P : JS -> Prop)
    (HNull : P JNull) (HBool : forall b, P (JBool b)) (HNum : forall n, P (JNum n))
    (HStr : forall s, P (JStr s))
    (HArr : forall items, Forall P items -> P (JArr items))
    (HObj : forall fields, Forall (fun kv => P (snd kv)) fields -> P (JObj fields))
    : forall v, P v :=
  fix go (v : JS) : P v :=
    match v with
    | JNull => HNull
    | JBool b => HBool b
    | JNum n => HNum n
    | JStr s => HStr s
    | JArr items =>
        HArr items ((fix all (xs : list JS) : Forall P xs :=
                       match xs with
                       | [] => @List.Forall_nil _ P
                       | x :: r => @List.Forall_cons _ P x r (go x) (all r)
                       end) items)
    | JObj fields =>
        HObj fields ((fix all (fs : list (string * JS)) : Forall (fun kv => P (snd kv)) fs :=
                        match fs with
                        | [] => @List.Forall_nil _ _
                        | kv :: r => @List.Forall_cons _ (fun kv => P (snd kv)) kv r (go (snd kv)) (all r)
                        end) fields)
    end.

(** A comparator that subtracts keys, as [compareStartTime] does on
    valid dates. *)
Definition byKey {A : Type} (key : A -> Z) (x y : A) : Z := (key x - key y)%Z.

(** The items of one key. *)
Definition keyed {A : Type} (key : A -> Z) (k : Z) (x : A) : bool := (key x =? k)%Z.

Definition timeOf (item : string * option Z) : Z :=
  match snd item with
  | Some t => t
  | None => 0%Z
  end.

(** The parameters of a tool have the shapes its renderer reads: a
    truthy [todos] is an array without [null], a truthy [file_path],
    [command] or [pattern] is a string. *)
Definition isString (v : JS) : bool :=
  match v with
  | JStr _ => true
  | _ => false
  end.

Definition isNull (v : JS) : bool :=
  match v with
  | JNull => true
  | _ => false
  end.

Definition shaped (input : option JS) (key : string) (ok : JS -> bool) : bool :=
  match optMember input key with
  | Some v => negb (truthy v) || ok v
  | None => true
  end.

Definition expectedShapes (input : option JS) : bool :=
  shaped input "todos"
    (fun v => match v with
              | JArr items => forallb (fun t => negb (isNull t)) items
              | _ => false
              end)
  && shaped input "file_path" isString
  && shaped input "command" isString
  && shaped input "pattern" isString.

Section Vocabulary.

Variable ext : Ext.

(** The keys and payloads that the first pass records, in order. *)
Definition recordings (entries : list ChatEntry) : list (string * string) :=
  flat_map (fun entry =>
              match userBlocks entry with
              | Some content => flat_map (fun block => option_list (recorded ext block)) content
              | None => []
              end) entries.

(** The disclosure block that [createDetailsBlock] builds from a label
    already rendered. *)
Definition detailsNode (label : string) (body : list Obj) : Obj :=
  u2 "html" (JStr ("<details><summary>" +:+ label +:+ "</summary>" +:+ nl +:+ nl
                   +:+ stringifyMarkdown ext body +:+ nl +:+ nl +:+ "</details>")).

(** The first node of the output: the disclosure block, or the bare
    label when there is nothing to collapse. *)
Definition labelNode (label : string) (body : list Obj) : Obj :=
  match body with
  | [] => u2 "html" (JStr label)
  | _ => detailsNode label body
  end.

(** The section of the document that one chat file contributes. *)
Definition chatSection (options : AppCliOptions) (chatFile : string) : list Obj :=
  processChat ext options [] chatFile.


(** The time value of a chat's start, for a valid date. *)
Definition startTime (chatFile : string) : Z :=
  match getChatStartTime ext chatFile with
  | Some t => t
  | None => 0%Z
  end.

Definition withTime (chatFile : string) : string * option Z :=
  (chatFile, getChatStartTime ext chatFile).

End Vocabulary.

(* ================================================================== *)
(** * A sample project *)
(* ================================================================== *)

(** The text of a node, for a serializer that runs: the [value] of a
    literal, or the texts of the children one after the other. *)
Fixpoint nodeText (node : JS) : string :=
  match node with
  | JObj fields =>
      (fix find (fs : list (string * JS)) : string :=
         match fs with
         | [] => ""
         | (k, v) :: rest =>
             if String.eqb k "value" then match v with JStr s => s | _ => "" end
             else if String.eqb k "children" then
               match v with
               | JArr items =>
                   (fix each (xs : list JS) : string :=
                      match xs with
                      | [] => ""
                      | x :: r => nodeText x +:+ each r
                      end) items
               | _ => ""
               end
             else find rest
         end) fields
  | _ => ""
  end.

Definition sampleBasename (path : string) : string :=
  let name := List.last (split "/" path) "" in
  let n := String.length name in
  if String.eqb (String.substring (n - 6) 6 name) ".jsonl"
  then String.substring 0 (n - 6) name else name.

Definition toolUseBlock (id name : string) (input : JS) : ContentBlock :=
  {| b_type := B_tool_use; b_text := None; b_thinking := None; b_signature := None;
     b_id := Some id; b_name := Some name; b_input := Some input; b_tool_use_id := None;
     b_content := None |}.

Definition toolResultBlock (tool_use_id content : string) : ContentBlock :=
  {| b_type := B_tool_result; b_text := None; b_thinking := None; b_signature := None;
     b_id := None; b_name := None; b_input := None; b_tool_use_id := Some tool_use_id;
     b_content := Some (RString content) |}.

Definition chatMessage (type : EntryType) (timestamp : string) (content : MessageContent)
    : ChatMessage :=
  {| cm_type := type; cm_content := content; cm_sessionId := "session-1";
     cm_uuid := timestamp; cm_timestamp := timestamp; cm_toolResults := None |}.

(** An assistant record that reads a file, and the user record that
    carries the result. *)
Definition readBlock : ContentBlock :=
  toolUseBlock "t1" "Read" (JObj [("file_path", JStr "/src/main.ts")]).

Definition readAssistant : ChatMessage :=
  chatMessage T_assistant "2025-01-01T10:01:00.000Z" (ContentBlocks [readBlock]).

Definition readResult : ChatMessage :=
  chatMessage T_user "2025-01-01T10:01:05.000Z"
    (ContentBlocks [toolResultBlock "t1" "const x = 1;"]).

(** A user record with a text and a tool result. *)
Definition mixedUser : ChatMessage :=
  chatMessage T_user "2025-01-01T10:01:05.000Z"
    (ContentBlocks [textBlock "done"; toolResultBlock "t1" "const x = 1;"]).


(** A tool result without content. *)
Definition bareBlock : ContentBlock :=
  {| b_type := B_tool_result; b_text := None; b_thinking := None; b_signature := None;
     b_id := None; b_name := None; b_input := None; b_tool_use_id := Some "t9";
     b_content := None |}.

Definition bareResult : ChatMessage :=
  chatMessage T_user "2025-01-01T10:03:00.000Z" (ContentBlocks [bareBlock]).

(** The invocation of the test of the todo list. *)
Definition todoBlock : ContentBlock :=
  toolUseBlock "test-id" "TodoWrite"
    (JObj [("todos", JArr
       [JObj [("content", JStr "Task 1"); ("status", JStr "completed");
              ("priority", JStr "high"); ("id", JStr "1")];
        JObj [("content", JStr "Task 2"); ("status", JStr "in_progress");
              ("priority", JStr "medium"); ("id", JStr "2")];
        JObj [("content", JStr "Task 3"); ("status", JStr "pending");
              ("priority", JStr "low"); ("id", JStr "3")]])]).

(** A search whose [pattern] parameter is an object with a [type]. *)
Definition grepBlock : ContentBlock :=
  toolUseBlock "t2" "Grep" (JObj [("pattern", JObj [("type", JStr "heading")])]).

Definition grepAssistant : ChatMessage :=
  chatMessage T_assistant "2025-01-01T10:01:00.000Z" (ContentBlocks [grepBlock]).

Definition undatedNotice : SystemMessage :=
  {| sys_content := "notice"; sys_uuid := "n1"; sys_timestamp := "not a date" |}.


(** The first and the sixth row of the metadata of a chat. *)
Definition sampleMetadata (entries : list ChatEntry) : list (string * string) :=
  match List.filter (fun entry => match entry with Summary _ => false | _ => true end) entries with
  | [] => []
  | _ => [("Session ID", "session-1"); ("Total Messages", natToString (length entries))]
  end.

Definition paragraphOf (text : string) : Obj :=
  u2 "paragraph" (nodeArray [u2 "text" (JStr text)]).

(** The collaborators of the sample: four files whose lines are named
    rather than spelled out, two dates, remark reduced to the text of the
    nodes, and [ToString] in the place of [JSON.stringify]. *)
Definition sampleExt : Ext :=
  {| readTextFile := fun path =>
       if String.eqb path "a.jsonl" then Ok ("A1" +:+ nl +:+ "A2")
       else if String.eqb path "b.jsonl" then Ok "B1"
       else if String.eqb path "c.jsonl" then Ok ""
       else if String.eqb path "g.jsonl" then Ok "G1"
       else Throw "No such file or directory (os error 2)";
     decodeEntry := fun line =>
       if String.eqb line "A1" then Some (Chat readAssistant)
       else if String.eqb line "A2" then Some (Chat readResult)
       else if String.eqb line "B1" then Some (System undatedNotice)
       else if String.eqb line "G1" then Some (Chat grepAssistant)
       else None;
     dateTime := fun s =>
       if String.eqb s "2025-01-01T10:01:00.000Z" then Some 1735725660000%Z
       else if String.eqb s "2025-01-01T10:01:05.000Z" then Some 1735725665000%Z
       else None;
     formatTimestamp := fun s => s;
     exportDate := "2025-06-01 12:00 +00:00";
     parseMarkdown := fun s => [paragraphOf s];
     stringifyMarkdown := fun nodes => join (nl +:+ nl) (map (fun n => nodeText (JObj n)) nodes);
     JSON_stringify := ToString;
     basename := sampleBasename;
     extractChatMetadata := sampleMetadata |}.

Definition sampleOptions : AppCliOptions := {| opt_output := None; opt_chats := None |}.




(* ================================================================== *)
(** * src/jsonl.ts *)
(* ================================================================== *)

(** What a function does to the world: a file written with
    [Deno.writeTextFile], a line printed with [console.log]. *)
Inductive Effect : Type :=
| WriteTextFile (path content : string)
| ConsoleLog (text : string).

Section Jsonl.

Context {T : Type}.

(** [validator(JSON.parse(line))], or the message of what either raises *)
Variable decode : string -> Result T.
(** [JSON.stringify(obj)] *)
Variable stringify : T -> string.
(** [Deno.readTextFile] *)
Variable readText : string -> Result string.

(** The line that [console.warn] prints for a line that is not decoded. *)
Definition parseFailure (index : nat) (filePath message : string) : string :=
  "Warning: Failed to parse line " +:+ natToString (index + 1) +:+ " in " +:+ filePath
  +:+ ": " +:+ message.

(** The loop of [parseJsonlFile] from line [index] on: the entries
    pushed and the warnings printed. *)
Fixpoint parseLoop (filePath : string) (index : nat) (lines : list string)
    (entries : list T) (warnings : list string) : list T * list string :=
  match lines with
  | [] => (entries, warnings)
  | line :: rest =>
      match decode line with
      | Ok entry => parseLoop filePath (S index) rest (entries ++ [entry]) warnings
      | Throw message =>
          parseLoop filePath (S index) rest entries
            (warnings ++ [parseFailure index filePath message])
      end
  end.

Definition parseJsonlFile (filePath : string) : Result (list T * list string) :=
  let* content := readText filePath in
  let lines := jsonlLines content in
  Ok (parseLoop filePath 0 lines [] []).

Definition writeJsonlFile (filePath : string) (objects : list T) : Effect :=
  let jsonlContent := join nl (map stringify objects) in
  WriteTextFile filePath jsonlContent.

(** [streamJsonlFile].  The processor works on a state: it returns the
    state that it leaves and, when it raises, the message.  The call is
    inside the [try], so that a processor that raises is reported like a
    line that cannot be decoded. *)
Fixpoint streamLoop {State : Type} (processor : T -> nat -> State -> State * option string)
    (filePath : string) (index : nat) (lines : list string)
    (state : State) (warnings : list string) : State * list string :=
  match lines with
  | [] => (state, warnings)
  | line :: rest =>
      match decode line with
      | Ok entry =>
          let processed := processor entry index state in
          streamLoop processor filePath (S index) rest (fst processed)
            match snd processed with
            | Some message => warnings ++ [parseFailure index filePath message]
            | None => warnings
            end
      | Throw message =>
          streamLoop processor filePath (S index) rest state
            (warnings ++ [parseFailure index filePath message])
      end
  end.

Definition streamJsonlFile {State : Type} (filePath : string)
    (processor : T -> nat -> State -> State * option string) (state : State)
    : Result (State * list string) :=
  let* content := readText filePath in
  let lines := jsonlLines content in
  Ok (streamLoop processor filePath 0 lines state []).

End Jsonl.

(* ================================================================== *)
(** * src/claude-project/claude-project.ts: the project on disk *)
(* ================================================================== *)

(** An entry of a directory, as [Deno.readDir] yields it. *)
Record DirEntry : Type := {
  name : string;
  isFile : bool
}.

(** The platform under the project functions: the process, the file
    system and the path functions of the standard library.  Paths and
    names are what these functions make of them. *)
Record Platform : Type := {
  (** [Deno.cwd()] *)
  cwd : string;
  (** [Deno.env.get("HOME")] *)
  envHome : option string;
  (** [exists(path)] of std/fs *)
  pathExists : string -> bool;
  (** [Deno.readDir(path)], which raises on what is not a directory *)
  readDir : string -> Result (list DirEntry);
  (** [join(...parts)] of std/path *)
  pathJoin : list string -> string;
  (** [basename(path)] of std/path *)
  pathBasename : string -> string;
  (** [s.toLowerCase()] *)
  toLowerCase : string -> string;
  (** [Deno.writeTextFile(path, data)], which raises when the file cannot
      be written *)
  writeTextFile : string -> string -> Result unit
}.

(** [s.endsWith(suffix)] *)
Definition endsWith (s suffix : string) : bool :=
  let n := String.length s in
  let m := String.length suffix in
  (m <=? n)%nat && String.eqb (String.substring (n - m) m s) suffix.

(** [s.replace(/[...]/g, by)] for a class of ASCII characters. *)
Fixpoint replaceAll (inClass : ascii -> bool) (by_ : string) (s : string) : string :=
  match s with
  | EmptyString => ""
  | String c rest =>
      (if inClass c then by_ else String c "") +:+ replaceAll inClass by_ rest
  end.

Definition slashOrDot (c : ascii) : bool := Ascii.eqb c "/" || Ascii.eqb c ".".
Definition hyphenOrUnderscore (c : ascii) : bool := Ascii.eqb c "-" || Ascii.eqb c "_".
Definition dot (c : ascii) : bool := Ascii.eqb c ".".

Section Project.

Variable platform : Platform.

(** The loop over the variations: the first that exists. *)
Fixpoint firstProject (claudeProjectsDir : string) (variations : list string) : option string :=
  match variations with
  | [] => None
  | variation :: rest =>
      let projectPath := pathJoin platform [claudeProjectsDir; variation] in
      if pathExists platform projectPath then Some projectPath
      else firstProject claudeProjectsDir rest
  end.

(** [detectCurrentProject]; [None] is [null]. *)
Definition detectCurrentProject : option string :=
  let currentDir := cwd platform in
  let currentDirName := pathBasename platform currentDir in
  if negb (strTruthy (envHome platform)) then None
  else
    let homeDir := match envHome platform with Some h => h | None => "" end in
    let claudeProjectsDir := pathJoin platform [homeDir; ".claude"; "projects"] in
    if negb (pathExists platform claudeProjectsDir) then None
    else
      let exactMatch := pathJoin platform [claudeProjectsDir; currentDirName] in
      if pathExists platform exactMatch then Some exactMatch
      else
        let fullPathEncoded := replaceAll slashOrDot "-" currentDir in
        let fullPathMatch := pathJoin platform [claudeProjectsDir; fullPathEncoded] in
        if pathExists platform fullPathMatch then Some fullPathMatch
        else
          let variations :=
            [replaceAll hyphenOrUnderscore "-" currentDirName;
             replaceAll hyphenOrUnderscore "_" currentDirName;
             replaceAll hyphenOrUnderscore "" currentDirName;
             replaceAll dot "-" currentDirName;
             toLowerCase platform currentDirName;
             replaceAll hyphenOrUnderscore "-" (toLowerCase platform currentDirName);
             replaceAll dot "-" (toLowerCase platform currentDirName)] in
          firstProject claudeProjectsDir variations.

(** The loop over [chatIds]. *)
Fixpoint pushChatIds (projectPath : string) (chatIds : list string) (chatFiles : list string)
    : list string :=
  match chatIds with
  | [] => chatFiles
  | chatId :: rest =>
      let chatFile := pathJoin platform [projectPath; chatId +:+ ".jsonl"] in
      if pathExists platform chatFile then pushChatIds projectPath rest (chatFiles ++ [chatFile])
      else pushChatIds projectPath rest chatFiles
  end.

(** The loop over the entries of the directory. *)
Fixpoint pushDirEntries (projectPath : string) (entries : list DirEntry)
    (chatFiles : list string) : list string :=
  match entries with
  | [] => chatFiles
  | entry :: rest =>
      if isFile entry && endsWith (name entry) ".jsonl"
      then pushDirEntries projectPath rest (chatFiles ++ [pathJoin platform [projectPath; name entry]])
      else pushDirEntries projectPath rest chatFiles
  end.

(** [findChatFiles]; an array of ids is truthy also when it is empty.
    The warning printed for an id without a file is no part of the
    result. *)
Definition findChatFiles (projectPath : string) (chatIds : option (list string))
    : Result (list string) :=
  if negb (pathExists platform projectPath)
  then Throw ("Project directory not found: " +:+ projectPath)
  else
    let* chatFiles :=
      match chatIds with
      | Some chatIds => Ok (pushChatIds projectPath chatIds [])
      | None =>
          let* entries := readDir platform projectPath in
          Ok (pushDirEntries projectPath entries [])
      end in
    if (length chatFiles =? 0)%nat then Throw "No chat files found to export"
    else Ok chatFiles.

End Project.

(* ================================================================== *)
(** * src/claude-project/claude-project.ts: extractChatMetadata *)
(* ================================================================== *)

(** The metadata reads members of the entries that the rendering does not
    read: the working directory, the version, the model and the usage
    counters.  The entries are given here by the members that
    [extractChatMetadata] reads; the export takes the metadata as table
    input whatever it is. *)
Module ClaudeProject.

Import PrimFloat.

(** UsageSchema, the two counters that are added up.  A number is a
    double of the engine, which the primitive floats are: a sum is rounded
    as the engine rounds it. *)
Record Usage : Type := {
  input_tokens : float;
  output_tokens : float
}.

(** [entry.type] of a record that has a [sessionId]. *)
Inductive RecordType : Type := R_user | R_assistant | R_system.

(** A record that has a [sessionId], a chat message or a system message,
    with the members that the metadata reads.  [model] and [usage] are
    those of [message] when it has them: an assistant message has both,
    a user message neither. *)
Record SessionRecord : Type := {
  type : RecordType;
  sessionId : string;
  cwd : string;
  version : string;
  timestamp : string;
  model : option string;
  usage : option Usage
}.

(** An entry of a chat: a record with a [sessionId], or a summary. *)
Inductive Entry : Type :=
| WithSession (r : SessionRecord)
| SummaryEntry.

(** [entries.filter((entry) => "sessionId" in entry)] *)
Definition withSessionId (entries : list Entry) : list SessionRecord :=
  flat_map (fun entry => match entry with WithSession r => [r] | SummaryEntry => [] end) entries.

Definition isType (t : RecordType) (msg : SessionRecord) : bool :=
  match type msg, t with
  | R_user, R_user | R_assistant, R_assistant | R_system, R_system => true
  | _, _ => false
  end.

(** [new Set(items)], in the order of insertion. *)
Definition setAdd (set : list string) (item : string) : list string :=
  if existsb (String.eqb item) set then set else set ++ [item].

Definition newSet (items : list string) : list string := fold_left setAdd items [].

(** [.map((msg) => "model" in msg.message ? msg.message.model : null).filter(Boolean)] *)
Definition modelsOf (assistantMessages : list SessionRecord) : list string :=
  flat_map (fun msg =>
              match model msg with
              | Some m => if String.eqb m "" then [] else [m]
              | None => []
              end) assistantMessages.

(** [n || 0]: zero in the place of a number that is falsy, which the two
    zeros and NaN are. *)
Definition orZero (n : float) : float :=
  if is_nan n || (n =? 0)%float then 0%float else n.

(** The two sums of the [forEach]. *)
Definition addUsage (totals : float * float) (msg : SessionRecord) : float * float :=
  match usage msg with
  | Some u => ((fst totals + orZero (input_tokens u))%float,
               (snd totals + orZero (output_tokens u))%float)
  | None => totals
  end.

Section Metadata.

(** [n.toString()] of a number, which is the engine's. *)
Variable numberToString : float -> string.

Definition extractChatMetadata (entries : list Entry) : list (string * string) :=
  let chatMessages := withSessionId entries in
  match chatMessages with
  | [] => []
  | firstEntry :: _ =>
      let lastEntry := List.last chatMessages firstEntry in
      let userMessages := List.filter (isType R_user) chatMessages in
      let assistantMessages := List.filter (isType R_assistant) chatMessages in
      let models := newSet (modelsOf assistantMessages) in
      let totals := fold_left addUsage assistantMessages (0%float, 0%float) in
      let totalInputTokens := fst totals in
      let totalOutputTokens := snd totals in
      [("Session ID", sessionId firstEntry);
       ("Working Directory", cwd firstEntry);
       ("Claude Code Version", version firstEntry);
       ("Start Time", timestamp firstEntry);
       ("End Time", timestamp lastEntry);
       ("Total Messages", natToString (length entries));
       ("User Messages", natToString (length userMessages));
       ("Assistant Messages", natToString (length assistantMessages));
       ("Models Used",
        let joined := join ", " models in
        if String.eqb joined "" then "Unknown" else joined);
       ("Total Input Tokens", numberToString totalInputTokens);
       ("Total Output Tokens", numberToString totalOutputTokens);
       ("Total Tokens", numberToString (totalInputTokens + totalOutputTokens)%float)]
  end.

End Metadata.

End ClaudeProject.

(* ================================================================== *)
(** * src/app/claude-formatting.ts: formatTimestamp *)
(* ================================================================== *)

(** [new Date(timestamp)] and the local time zone are the platform's: the
    function is given on the date, by what its getters return. *)
Module ClaudeFormatting.

(** What the getters of a [Date] return in the local time zone. *)
Record LocalTime : Type := {
  getFullYear : Z;
  getMonth : Z;
  getDate : Z;
  getHours : Z;
  getMinutes : Z;
  getTimezoneOffset : Z
}.

(** A number that may be NaN, which is what every getter of an invalid
    date returns. *)
Definition Number : Type := option Z.

Definition NaN : Number := None.

(** [String(n)] *)
Definition numberString (n : Number) : string :=
  match n with
  | Some z => ToString (JNum z)
  | None => "NaN"
  end.

(** [s.padStart(2, "0")] *)
Definition padStart2 (s : string) : string :=
  match String.length s with
  | 0 => "00"
  | 1 => "0" +:+ s
  | _ => s
  end.

(** [formatTimestamp] on the date that [new Date(timestamp)] is; [None]
    is an invalid date. *)
Definition formatTimestamp (date : option LocalTime) : string :=
  let get (getter : LocalTime -> Z) : Number := option_map getter date in
  let year := get getFullYear in
  let month := padStart2 (numberString (option_map (fun m => m + 1)%Z (get getMonth))) in
  let day := padStart2 (numberString (get getDate)) in
  let hours := padStart2 (numberString (get getHours)) in
  let minutes := padStart2 (numberString (get getMinutes)) in
  let offsetMinutes := get getTimezoneOffset in
  let offsetHours := option_map (fun m => Z.abs m / 60)%Z offsetMinutes in
  let offsetMins := option_map (fun m => Z.abs m mod 60)%Z offsetMinutes in
  let offsetSign :=
    match offsetMinutes with
    | Some m => if (m <=? 0)%Z then "+" else "-"
    | None => "-"
    end in
  let offsetString :=
    offsetSign +:+ padStart2 (numberString offsetHours) +:+ ":"
    +:+ padStart2 (numberString offsetMins) in
  numberString year +:+ "-" +:+ month +:+ "-" +:+ day +:+ " " +:+ hours +:+ ":" +:+ minutes
  +:+ " " +:+ offsetString.

End ClaudeFormatting.

(* ================================================================== *)
(** * src/app/export.ts: exportProject and exportChat *)
(* ================================================================== *)

(** [items.slice(start, end)]; a negative index counts from the end. *)
Definition slice {A : Type} (items : list A) (start end_ : Z) : list A :=
  let len := Z.of_nat (length items) in
  let from := if (start <? 0)%Z then Z.max (len + start) 0 else Z.min start len in
  let to := if (end_ <? 0)%Z then Z.max (len + end_) 0 else Z.min end_ len in
  firstn (Z.to_nat (to - from)) (skipn (Z.to_nat from) items).

(** [base.split("/").slice(-2, -1)[0] || "Chat"], the project name of
    the export table, for the base name [base] of the first chat file. *)
Definition exportProjectName (base : string) : string :=
  match slice (split "/" base) (-2) (-1) with
  | part :: _ => if String.eqb part "" then "Chat" else part
  | [] => "Chat"
  end.

Section App.

Variable ext : Ext.
Variable platform : Platform.

(** "Output result": the document is written to the file of the option
    [output], which can raise, or it is printed.  The result is what was
    done.  The progress lines of the exports go to the error stream and
    are left out. *)
Definition outputResult (options : AppCliOptions) (markdown : string) : Result Effect :=
  if strTruthy (opt_output options) then
    let output := match opt_output options with Some path => path | None => "" end in
    let* written := writeTextFile platform output markdown in
    Ok (WriteTextFile output markdown)
  else Ok (ConsoleLog markdown).

Definition exportProject (projectPath : string) (options : AppCliOptions) : Result Effect :=
  let projectName := pathBasename platform projectPath in
  let* chatFiles := findChatFiles platform projectPath (opt_chats options) in
  let title := projectName +:+ " - Claude Code History Export" in
  let markdown := buildMarkdownDocument ext title chatFiles options in
  outputResult options markdown.

Definition exportChat (chatPath : string) (options : AppCliOptions) : Result Effect :=
  let chatName := basename ext chatPath in
  let title := chatName +:+ " - Claude Code Chat Export" in
  let markdown := buildMarkdownDocument ext title [chatPath] options in
  outputResult options markdown.

(* ================================================================== *)
(** * src/app/cli.ts *)
(* ================================================================== *)

(** CliOptions, as [parseAppArgs] returns them: [input] is the first
    positional argument. *)
Record CliOptions : Type := {
  cli_help : bool;
  cli_input : option string;
  cli_output : option string;
  cli_currentProject : bool
}.

(** The same options read as AppCliOptions by the export functions;
    CliOptions has no [chats]. *)
Definition appOptions (options : CliOptions) : AppCliOptions :=
  {| opt_output := cli_output options; opt_chats := None |}.

Inductive InputType : Type := project | chat.

Definition noProjectFound : string :=
  "No Claude project found for current directory. Make sure you're in a directory that has a corresponding project in ~/.claude/projects/".

Definition noInputProvided : string :=
  "No input provided. Provide a path to a Claude project directory or chat JSONL file, or use --current-project flag.".

Definition resolveInputPath (options : CliOptions) : Result (InputType * string) :=
  if negb (strTruthy (cli_input options)) && cli_currentProject options then
    match detectCurrentProject platform with
    | None => Throw noProjectFound
    | Some detectedProject => Ok (project, detectedProject)
    end
  else if negb (strTruthy (cli_input options)) then Throw noInputProvided
  else
    let input := match cli_input options with Some path => path | None => "" end in
    if endsWith input ".jsonl" then Ok (chat, input)
    else Ok (project, input).

(** What a run of [main] does: the help is shown, or an export is made. *)
Inductive Outcome : Type :=
| ShowHelp
| Exported (effect : Effect).

Definition main (options : CliOptions) : Result Outcome :=
  if cli_help options || (negb (strTruthy (cli_input options)) && negb (cli_currentProject options))
  then Ok ShowHelp
  else
    let* resolved := resolveInputPath options in
    let path := snd resolved in
    match fst resolved with
    | chat => let* effect := exportChat path (appOptions options) in Ok (Exported effect)
    | project => let* effect := exportProject path (appOptions options) in Ok (Exported effect)
    end.

(** The entry point: what is done or the line printed on the error
    stream, and the exit code. *)
Definition entryPoint (options : CliOptions) : (Outcome + string) * Z :=
  match main options with
  | Ok outcome => (inl outcome, 0%Z)
  | Throw message => (inr ("Error: " +:+ message), 1%Z)
  end.

End App.

(* ================================================================== *)
(** * The vocabulary of the further properties *)
(* ================================================================== *)

(** The values of the text nodes of a list, in order. *)
Definition textValues (nodes : list Obj) : list string :=
  flat_map (fun node =>
              if hasType node "text" then
                match getProp node "value" with
                | Some (JStr s) => [s]
                | _ => []
                end
              else []) nodes.

(** Whether a string holds a character. *)
Fixpoint hasChar (c : ascii) (s : string) : bool :=
  match s with
  | EmptyString => false
  | String a rest => Ascii.eqb a c || hasChar c rest
  end.

(** The blocks that are rendered: texts and tool invocations. *)
Definition shownBlock (block : ContentBlock) : bool :=
  match b_type block with
  | B_text | B_tool_use => true
  | B_tool_result | B_thinking => false
  end.

(** The tool invocations of a record. *)
Definition toolBlocks (entry : ChatEntry) : list ContentBlock :=
  match entry with
  | Chat m =>
      match cm_content m with
      | ContentBlocks blocks =>
          List.filter (fun block => match b_type block with B_tool_use => true | _ => false end)
                      blocks
      | ContentString _ => []
      end
  | _ => []
  end.

(** Every tool invocation of the record has parameters of the expected
    shapes. *)
Definition wellShaped (entry : ChatEntry) : Prop :=
  Forall (fun block => expectedShapes (b_input block) = true) (toolBlocks entry).

(** A todo whose status is one of the three that are counted. *)
Definition knownStatus (t : JS) : bool :=
  statusIs t "completed" || statusIs t "in_progress" || statusIs t "pending".

(** The invariant of the walk: at most three paragraphs are shown, and
    while nothing is collapsed the counter is the number of paragraphs
    shown. *)
Definition walkInvariant (w : Walk) : Prop :=
  (paragraphs (visibleNodes w) <= 3)%nat /\
  (shouldCollapse w = false -> paragraphs (visibleNodes w) = paragraphCount w).

(** The document of the export of one chat: the title and the section of
    the chat. *)
Definition chatDocument (ext : Ext) (options : AppCliOptions) (chatPath : string) : string :=
  stringifyMarkdown ext
    (heading 1 (basename ext chatPath +:+ " - Claude Code Chat Export")
     :: chatSection ext options chatPath).

(** The counters that are added up, in order: one for every assistant
    record that has a usage. *)
Definition countersOf (counter : ClaudeProject.Usage -> PrimFloat.float)
    (entries : list ClaudeProject.Entry) : list PrimFloat.float :=
  flat_map (fun msg =>
              match ClaudeProject.usage msg with
              | Some u => [counter u]
              | None => []
              end)
           (List.filter (ClaudeProject.isType ClaudeProject.R_assistant)
                        (ClaudeProject.withSessionId entries)).

(** [total += n || 0] over the counters, from the left. *)
Definition tokensFrom (total : PrimFloat.float) (counters : list PrimFloat.float)
    : PrimFloat.float :=
  fold_left (fun total n => PrimFloat.add total (ClaudeProject.orZero n)) counters total.

(** The total of a counter over a chat. *)
Definition tokensOf (counter : ClaudeProject.Usage -> PrimFloat.float)
    (entries : list ClaudeProject.Entry) : PrimFloat.float :=
  tokensFrom PrimFloat.zero (countersOf counter entries).

(** The models that the assistant records of a chat name. *)
Definition namesModel (entries : list ClaudeProject.Entry) (m : string) : Prop :=
  m <> "" /\
  exists msg,
    In (ClaudeProject.WithSession msg) entries /\
    ClaudeProject.isType ClaudeProject.R_assistant msg = true /\
    ClaudeProject.model msg = Some m.

(** A string against a pattern that has a class of characters for
    every place. *)
Fixpoint matches (pattern : list (ascii -> bool)) (s : string) : bool :=
  match pattern, s with
  | [], EmptyString => true
  | class :: pattern, String c rest => class c && matches pattern rest
  | _, _ => false
  end.

Definition isDigit (c : ascii) : bool := ((48 <=? N_of_ascii c) && (N_of_ascii c <=? 57))%N.

Definition isChar (x : ascii) (c : ascii) : bool := Ascii.eqb c x.

Definition isSign (c : ascii) : bool := Ascii.eqb c "+" || Ascii.eqb c "-".

(** The pattern of the test of the format:
    [/^\d{4}-\d{2}-\d{2} \d{2}:\d{2} [+-]\d{2}:\d{2}$/]. *)
Definition timestampPattern : list (ascii -> bool) :=
  [isDigit; isDigit; isDigit; isDigit; isChar "-"; isDigit; isDigit; isChar "-";
   isDigit; isDigit; isChar " "; isDigit; isDigit; isChar ":"; isDigit; isDigit;
   isChar " "; isSign; isDigit; isDigit; isChar ":"; isDigit; isDigit].

Definition twoDigits (s : string) : bool :=
  match s with
  | String a (String b EmptyString) => isDigit a && isDigit b
  | _ => false
  end.

Definition fourDigits (s : string) : bool :=
  match s with
  | String a (String b (String c (String d EmptyString))) =>
      isDigit a && isDigit b && isDigit c && isDigit d
  | _ => false
  end.

(** A local time whose members are in the ranges of a calendar, with a
    year of four digits and an offset of less than a hundred hours. *)
Definition calendarTime (d : ClaudeFormatting.LocalTime) : Prop :=
  (1000 <= ClaudeFormatting.getFullYear d <= 9999)%Z /\
  (0 <= ClaudeFormatting.getMonth d <= 11)%Z /\
  (1 <= ClaudeFormatting.getDate d <= 31)%Z /\
  (0 <= ClaudeFormatting.getHours d <= 23)%Z /\
  (0 <= ClaudeFormatting.getMinutes d <= 59)%Z /\
  (-6000 < ClaudeFormatting.getTimezoneOffset d < 6000)%Z.

(** A character that is printed, other than the space. *)
Definition printable (c : ascii) : bool :=
  ((33 <=? N_of_ascii c) && (N_of_ascii c <=? 126))%N.

(** A line as [JSON.stringify] writes one: it begins and ends with a
    printed character (a bracket, a quote, a digit, a letter) and holds
    no line break. *)
Definition jsonLine (s : string) : bool :=
  match list_ascii_of_string s with
  | [] => false
  | c :: rest =>
      printable c && printable (List.last rest c) && negb (hasChar (ascii_of_nat 10) s)
  end.

(* ================================================================== *)
(** * A sample platform *)
(* ================================================================== *)

(** Lower case for the letters of ASCII. *)
Fixpoint asciiLower (s : string) : string :=
  match s with
  | EmptyString => ""
  | String c rest =>
      let n := N_of_ascii c in
      String (if ((65 <=? n) && (n <=? 90))%N then ascii_of_N (n + 32) else c) (asciiLower rest)
  end.

(** A home with one project, found under the encoded path of the
    current directory, and a project directory with two chat files. *)
Definition samplePlatform : Platform :=
  {| cwd := "/work/my.app";
     envHome := Some "/home/user";
     pathExists := fun path =>
       existsb (String.eqb path)
         ["/home/user/.claude/projects"; "/home/user/.claude/projects/-work-my-app";
          "/data/project"; "/data/project/chat1.jsonl"; "/data/project/chat2.jsonl"];
     readDir := fun path =>
       if String.eqb path "/data/project"
       then Ok [{| name := "chat1.jsonl"; isFile := true |};
                {| name := "notes.txt"; isFile := true |};
                {| name := "old.jsonl"; isFile := false |};
                {| name := "chat2.jsonl"; isFile := true |}]
       else Throw "Not a directory (os error 20)";
     pathJoin := join "/";
     pathBasename := fun path => List.last (split "/" path) "";
     toLowerCase := asciiLower;
     writeTextFile := fun path _ =>
       if String.eqb path "/proc/export.md" then Throw "Permission denied (os error 13)"
       else Ok tt |}.

(** Lines that decode when they are an object or an array. *)
Definition sampleDecode (line : string) : Result string :=
  match line with
  | String c _ =>
      if Ascii.eqb c "{" || Ascii.eqb c "[" then Ok line
      else Throw "Unexpected token"
  | EmptyString => Throw "Unexpected end of JSON input"
  end.

Definition sampleStringify (object : string) : string := object.

(** A file of three lines and a blank one. *)
Definition sampleReadText (path : string) : Result string :=
  if String.eqb path "lines.jsonl"
  then Ok ("{}" +:+ nl +:+ nl +:+ "oops" +:+ nl +:+ "[1]")
  else if String.eqb path "written.jsonl"
  then Ok ("{}" +:+ nl +:+ "[1]")
  else Throw "No such file or directory (os error 2)".

(** The first chat of the tests of the command line, and a summary. *)
Definition sampleUser : ClaudeProject.SessionRecord :=
  {| ClaudeProject.type := ClaudeProject.R_user;
     ClaudeProject.sessionId := "test-session-1";
     ClaudeProject.cwd := "/test/project";
     ClaudeProject.version := "1.0.0";
     ClaudeProject.timestamp := "2025-01-01T10:00:00.000Z";
     ClaudeProject.model := None;
     ClaudeProject.usage := None |}.

(** An assistant record with its two counters. *)
Definition assistantWith (input output : PrimFloat.float) : ClaudeProject.SessionRecord :=
  {| ClaudeProject.type := ClaudeProject.R_assistant;
     ClaudeProject.sessionId := "test-session-1";
     ClaudeProject.cwd := "/test/project";
     ClaudeProject.version := "1.0.0";
     ClaudeProject.timestamp := "2025-01-01T10:01:00.000Z";
     ClaudeProject.model := Some "claude-3";
     ClaudeProject.usage :=
       Some {| ClaudeProject.input_tokens := input; ClaudeProject.output_tokens := output |} |}.

Section SampleChats.

Import PrimFloat.

Definition sampleAssistant : ClaudeProject.SessionRecord := assistantWith 10 20.

Definition sampleChat : list ClaudeProject.Entry :=
  [ClaudeProject.SummaryEntry; ClaudeProject.WithSession sampleUser;
   ClaudeProject.WithSession sampleAssistant; ClaudeProject.WithSession sampleAssistant].

(** A chat whose input counters add up to 2^53 + 1, which is no double. *)
Definition largeChat : list ClaudeProject.Entry :=
  [ClaudeProject.WithSession (assistantWith 9007199254740991 0);
   ClaudeProject.WithSession sampleUser;
   ClaudeProject.WithSession (assistantWith 1 0);
   ClaudeProject.WithSession (assistantWith 1 0)].

(** 2^53, the double next to the sum of the input counters of [largeChat]. *)
Definition twoTo53 : float := 9007199254740992.

End SampleChats.

(** The whole number that a double is, from 0 to 2^53. *)
Definition wholeNumber (n : PrimFloat.float) : option Z :=
  match FloatOps.Prim2SF n with
  | SpecFloat.S754_zero _ => Some 0%Z
  | SpecFloat.S754_finite false m e =>
      let value :=
        if (0 <=? e)%Z then Some (Z.pos m * 2 ^ e)%Z
        else if (Z.pos m mod 2 ^ (- e) =? 0)%Z then Some (Z.pos m / 2 ^ (- e))%Z
        else None in
      match value with
      | Some z => if (z <=? 2 ^ 53)%Z then Some z else None
      | None => None
      end
  | _ => None
  end.

(** The printing of the sample: the digits of a whole number from 0 to
    2^53, as the engine prints it; the sample prints no other number. *)
Definition sampleNumberToString (n : PrimFloat.float) : string :=
  match wholeNumber n with
  | Some z => ToString (JNum z)
  | None => ""
  end.

(** Ten o'clock on New Year's Day in New York and in Kolkata. *)
Definition newYork : ClaudeFormatting.LocalTime :=
  {| ClaudeFormatting.getFullYear := 2025; ClaudeFormatting.getMonth := 0;
     ClaudeFormatting.getDate := 1; ClaudeFormatting.getHours := 5;
     ClaudeFormatting.getMinutes := 0; ClaudeFormatting.getTimezoneOffset := 300 |}.

Definition kolkata : ClaudeFormatting.LocalTime :=
  {| ClaudeFormatting.getFullYear := 2025; ClaudeFormatting.getMonth := 0;
     ClaudeFormatting.getDate := 1; ClaudeFormatting.getHours := 15;
     ClaudeFormatting.getMinutes := 30; ClaudeFormatting.getTimezoneOffset := -330 |}.

Definition cliOptions (input : option string) (currentProject : bool) : CliOptions :=
  {| cli_help := false; cli_input := input; cli_output := None;
     cli_currentProject := currentProject |}.

(** The options of a run with [--output]. *)
Definition cliOutput (input output : string) : CliOptions :=
  {| cli_help := false; cli_input := Some input; cli_output := Some output;
     cli_currentProject := false |}.

(** A user record with a text of two lines. *)
Definition twoLines : ChatMessage :=
  chatMessage T_user "2025-01-01T10:01:05.000Z" (ContentString ("first" +:+ nl +:+ "second")).

(** A tool invocation that has an id and nothing else. *)
Definition namelessBlock : ContentBlock :=
  {| b_type := B_tool_use; b_text := None; b_thinking := None; b_signature := None;
     b_id := Some "t4"; b_name := None; b_input := None; b_tool_use_id := None;
     b_content := None |}.

(** An assistant record that only thinks. *)
Definition thinkingBlock : ContentBlock :=
  {| b_type := B_thinking; b_text := None; b_thinking := Some "hm"; b_signature := None;
     b_id := None; b_name := None; b_input := None; b_tool_use_id := None;
     b_content := None |}.

(* ================================================================== *)
(** * Properties of the collapsing walk *)
(* ================================================================== *)

Lemma hasType_unique (node : Obj) (s t : string) :
  hasType node s = true -> hasType node t = true -> s = t.
Proof.
  unfold hasType. destruct (getProp node "type") as [[| | |x| |]|]; try discriminate.
  intros Hs Ht. apply String.eqb_eq in Hs, Ht. congruence.
Qed.

Lemma hasType_other (node : Obj) (s t : string) :
  hasType node s = true -> s <> t -> hasType node t = false.
Proof.
  intros Hs Hne. destruct (hasType node t) eqn:Ht; [|reflexivity].
  destruct Hne. eapply hasType_unique; eassumption.
Qed.

Lemma hasType_u2 (t : string) (s : string) (x : string) :
  hasType (u2 t (JStr s)) x = String.eqb t x.
Proof.
  unfold hasType, u2, u1. cbn. reflexivity.
Qed.

Lemma walkStep_latched (w : Walk) (node : Obj) :
  shouldCollapse w = true -> walkStep w node = pushCollapsed w node.
Proof. unfold walkStep. intros ->. reflexivity. Qed.

Lemma walkStep_heading (w : Walk) (node : Obj) :
  hasType node "heading" = true -> walkStep w node = pushCollapsed w node.
Proof.
  intros Hh. unfold walkStep. destruct (shouldCollapse w); [reflexivity|].
  rewrite (hasType_other node "heading" "paragraph" Hh) by discriminate.
  rewrite Hh. reflexivity.
Qed.

Lemma walkStep_paragraph (w : Walk) (node : Obj) :
  shouldCollapse w = false -> hasType node "paragraph" = true ->
  walkStep w node =
    if (paragraphCount w <? 3)%nat then pushVisible (countParagraph w) node
    else pushCollapsed (countParagraph w) node.
Proof.
  intros Hc Hp. unfold walkStep. rewrite Hc, Hp. cbn [paragraphCount countParagraph].
  destruct (paragraphCount w) as [|[|[|n]]]; reflexivity.
Qed.

Lemma walkStep_other (w : Walk) (node : Obj) :
  shouldCollapse w = false -> hasType node "paragraph" = false ->
  hasType node "heading" = false ->
  walkStep w node =
    if (paragraphCount w <? 3)%nat then pushVisible w node else pushCollapsed w node.
Proof.
  intros Hc Hp Hh. unfold walkStep. rewrite Hc, Hp, Hh.
  destruct (paragraphCount w) as [|[|[|n]]]; reflexivity.
Qed.

(** Collapsed mode never reverts: every remaining node is collapsed. *)
Lemma walk_latched (nodes : list Obj) (w : Walk) :
  shouldCollapse w = true ->
  fold_left walkStep nodes w =
    {| visibleNodes := visibleNodes w; collapsedNodes := collapsedNodes w ++ nodes;
       paragraphCount := paragraphCount w; shouldCollapse := true |}.
Proof.
  revert w. induction nodes as [|node nodes IH]; intros w Hc.
  - cbn. rewrite app_nil_r. destruct w; cbn in *; congruence.
  - cbn [fold_left]. rewrite walkStep_latched by assumption.
    rewrite IH by reflexivity. cbn. rewrite <- app_assoc. reflexivity.
Qed.

(** What one step does: the node is hidden and the latch is set, or the
    node, which is no heading, is shown and the latch stays open. *)
Lemma walkStep_effect (w : Walk) (node : Obj) :
  (visibleNodes (walkStep w node) = visibleNodes w /\
   collapsedNodes (walkStep w node) = collapsedNodes w ++ [node] /\
   shouldCollapse (walkStep w node) = true) \/
  (noHeading node /\ shouldCollapse w = false /\
   visibleNodes (walkStep w node) = visibleNodes w ++ [node] /\
   collapsedNodes (walkStep w node) = collapsedNodes w /\
   shouldCollapse (walkStep w node) = false).
Proof.
  destruct (shouldCollapse w) eqn:Hc.
  { left. rewrite walkStep_latched by assumption. auto. }
  destruct (hasType node "heading") eqn:Hh.
  { left. rewrite walkStep_heading by assumption. auto. }
  destruct (hasType node "paragraph") eqn:Hp.
  - rewrite walkStep_paragraph by assumption.
    destruct (paragraphCount w <? 3)%nat; [right|left]; cbn; auto.
  - rewrite walkStep_other by assumption.
    destruct (paragraphCount w <? 3)%nat; [right|left]; cbn; auto.
Qed.

(** The walk cuts the list in two: a shown part, free of headings, and
    a hidden part; nothing is dropped or reordered. *)
Lemma walk_cut (nodes : list Obj) (w : Walk) :
  exists shown hidden,
    nodes = shown ++ hidden /\
    visibleNodes (fold_left walkStep nodes w) = visibleNodes w ++ shown /\
    collapsedNodes (fold_left walkStep nodes w) = collapsedNodes w ++ hidden /\
    Forall noHeading shown.
Proof.
  revert w. induction nodes as [|node nodes IH]; intros w.
  - exists [], []. cbn. rewrite !app_nil_r. auto.
  - cbn [fold_left].
    destruct (walkStep_effect w node) as [(Hv & Hh & Hc) | (Hn & _ & Hv & Hh & _)].
    + exists [], (node :: nodes). rewrite walk_latched by assumption. cbn.
      rewrite Hv, Hh, app_nil_r, <- app_assoc. auto.
    + destruct (IH (walkStep w node)) as (shown & hidden & -> & Hv' & Hh' & Hf).
      exists (node :: shown), hidden. rewrite Hv', Hh', Hv, Hh, <- app_assoc.
      cbn. auto.
Qed.

(** While the latch is open the counter is the number of paragraphs seen. *)
Lemma walk_count (nodes : list Obj) (w : Walk) :
  shouldCollapse (fold_left walkStep nodes w) = false ->
  shouldCollapse w = false /\
  paragraphCount (fold_left walkStep nodes w) = (paragraphCount w + paragraphs nodes)%nat.
Proof.
  revert w. induction nodes as [|node nodes IH]; intros w Hopen.
  - cbn in *. unfold paragraphs. cbn. split; [assumption|lia].
  - cbn [fold_left] in *. destruct (IH _ Hopen) as [Hc ->].
    destruct (shouldCollapse w) eqn:Hw.
    { rewrite walkStep_latched in Hc by assumption. discriminate. }
    split; [reflexivity|]. unfold paragraphs. cbn [List.filter].
    destruct (hasType node "paragraph") eqn:Hp.
    + rewrite walkStep_paragraph in * by assumption.
      destruct (paragraphCount w <? 3)%nat; cbn in *; [lia|discriminate].
    + destruct (hasType node "heading") eqn:Hh.
      { rewrite walkStep_heading in Hc by assumption. discriminate. }
      rewrite walkStep_other in * by assumption.
      destruct (paragraphCount w <? 3)%nat; cbn in *; [lia|discriminate].
Qed.

(** Below the threshold, and without a heading, every node is shown. *)
Lemma walk_below (nodes : list Obj) (w : Walk) :
  shouldCollapse w = false -> Forall noHeading nodes ->
  (paragraphCount w + paragraphs nodes < 3)%nat ->
  fold_left walkStep nodes w =
    {| visibleNodes := visibleNodes w ++ nodes; collapsedNodes := collapsedNodes w;
       paragraphCount := paragraphCount w + paragraphs nodes; shouldCollapse := false |}.
Proof.
  revert w. induction nodes as [|node nodes IH]; intros w Hc Hf Hlt.
  - cbn. rewrite app_nil_r, Nat.add_0_r. destruct w; cbn in *; congruence.
  - inversion Hf as [|? ? Hh Hf']; subst. cbn [fold_left].
    unfold paragraphs in *. cbn [List.filter] in *.
    destruct (hasType node "paragraph") eqn:Hp; cbn [length] in *.
    + rewrite walkStep_paragraph by assumption.
      replace (paragraphCount w <? 3)%nat with true by (symmetry; apply Nat.ltb_lt; lia).
      rewrite IH; cbn; auto; [|lia]. rewrite <- app_assoc. f_equal. lia.
    + rewrite walkStep_other by assumption.
      replace (paragraphCount w <? 3)%nat with true by (symmetry; apply Nat.ltb_lt; lia).
      rewrite IH; cbn; auto. rewrite <- app_assoc. reflexivity.
Qed.

(** Once three paragraphs are shown, whatever comes next is hidden. *)
Lemma walk_full (nodes : list Obj) (w : Walk) :
  (3 <= paragraphCount w)%nat ->
  visibleNodes (fold_left walkStep nodes w) = visibleNodes w /\
  collapsedNodes (fold_left walkStep nodes w) = collapsedNodes w ++ nodes.
Proof.
  intros Hfull. destruct nodes as [|node nodes].
  - cbn. rewrite app_nil_r. auto.
  - cbn [fold_left].
    assert (Hstep : visibleNodes (walkStep w node) = visibleNodes w /\
                    collapsedNodes (walkStep w node) = collapsedNodes w ++ [node] /\
                    shouldCollapse (walkStep w node) = true).
    { destruct (walkStep_effect w node) as [H | (Hn & Hc & _)]; [exact H|].
      assert (Hge : (paragraphCount w <? 3)%nat = false) by (apply Nat.ltb_ge; lia).
      destruct (hasType node "paragraph") eqn:Hp.
      - rewrite walkStep_paragraph, Hge by assumption. cbn. auto.
      - rewrite walkStep_other, Hge by assumption. cbn. auto. }
    destruct Hstep as (Hv & Hh & Hc). rewrite walk_latched by assumption. cbn.
    rewrite Hv, Hh, <- app_assoc. auto.
Qed.

Arguments walkStep : simpl never.

Section Properties.

Variable ext : Ext.

Lemma more_label : unistToHtml [u2 "text" (JStr "More...")] = Ok "More...".
Proof. reflexivity. Qed.

(** The output of [processAssistantContent] is the shown part of the
    walk followed by at most one raw html node that holds the hidden
    part. *)
Lemma processAssistantContent_shape (contentNodes : list Obj) :
  exists wrapper,
    processAssistantContent ext contentNodes = Ok (visibleNodes (walk contentNodes) ++ wrapper) /\
    (length wrapper <= 1)%nat /\
    Forall (fun node => hasType node "html" = true) wrapper /\
    (wrapper = [] <-> collapsedNodes (walk contentNodes) = []).
Proof.
  unfold processAssistantContent.
  destruct contentNodes as [|node rest] eqn:E.
  { exists []. cbn. repeat split; auto. }
  rewrite <- E. replace (length contentNodes =? 0)%nat with false by (subst; reflexivity).
  destruct (collapsedNodes (walk contentNodes)) as [|c cs] eqn:Hc.
  { exists []. cbn. rewrite app_nil_r. repeat split; auto. }
  cbn [length Nat.ltb Nat.leb].
  destruct (existsb isDetailsHtml (c :: cs)).
  - eexists. split; [reflexivity|]. cbn. repeat split; auto; try discriminate.
  - unfold createDetailsBlock. rewrite more_label. cbn [bind].
    eexists. split; [reflexivity|]. cbn. repeat split; auto; try discriminate.
Qed.



(** C2.  The first three paragraphs are shown and the rest is collapsed.
    Five paragraphs and nothing else give the first three followed by one
    disclosure block labelled "More..." whose body is the markup of the
    last two.  More generally, as long as no heading has come by: a list
    with fewer than three paragraphs is shown whole, and a list is cut
    right after its third paragraph, so that the first three paragraphs
    and every other node before the third one are visible.  With or
    without headings, every node from the fourth paragraph on is
    collapsed. *)
Theorem collapsing_threshold :
  (forall p1 p2 p3 p4 p5,
     Forall (fun p => hasType p "paragraph" = true) [p1; p2; p3; p4; p5] ->
     processAssistantContent ext [p1; p2; p3; p4; p5] =
       Ok [p1; p2; p3;
           u2 "html" (JStr ("<details><summary>More...</summary>" +:+ nl +:+ nl
                            +:+ stringifyMarkdown ext [p4; p5]
                            +:+ nl +:+ nl +:+ "</details>"))]) /\
  (forall contentNodes,
     Forall noHeading contentNodes -> (paragraphs contentNodes < 3)%nat ->
     visibleNodes (walk contentNodes) = contentNodes /\
     collapsedNodes (walk contentNodes) = []) /\
  (forall before p3 after,
     Forall noHeading before -> paragraphs before = 2%nat ->
     hasType p3 "paragraph" = true ->
     visibleNodes (walk (before ++ p3 :: after)) = before ++ [p3] /\
     collapsedNodes (walk (before ++ p3 :: after)) = after) /\
  (forall before p after,
     hasType p "paragraph" = true -> (3 <= paragraphs before)%nat ->
     exists hidden, collapsedNodes (walk (before ++ p :: after)) = hidden ++ p :: after).
Proof.
  repeat split.
  - intros p1 p2 p3 p4 p5 Hall.
    repeat match goal with
           | H : Forall _ (_ :: _) |- _ => inversion H; clear H; subst
           end.
    assert (Hno : forall p, hasType p "paragraph" = true -> isDetailsHtml p = false).
    { intros p Hp. unfold isDetailsHtml.
      rewrite (hasType_other p "paragraph" "html" Hp) by discriminate. reflexivity. }
    assert (Hw : walk [p1; p2; p3; p4; p5] =
                 {| visibleNodes := [p1; p2; p3]; collapsedNodes := [p4; p5];
                    paragraphCount := 4; shouldCollapse := true |}).
    { unfold walk. cbn [fold_left].
      rewrite (walkStep_paragraph walkStart p1) by auto. cbn.
      rewrite (walkStep_paragraph _ p2) by auto. cbn.
      rewrite (walkStep_paragraph _ p3) by auto. cbn.
      rewrite (walkStep_paragraph _ p4) by auto. cbn.
      rewrite walkStep_latched by reflexivity. reflexivity. }
    unfold processAssistantContent. rewrite Hw.
    cbn [length Nat.eqb Nat.ltb Nat.leb collapsedNodes visibleNodes existsb].
    rewrite !Hno by assumption. cbn [orb].
    unfold createDetailsBlock. rewrite more_label. reflexivity.
  - unfold walk. rewrite walk_below by (cbn; auto). reflexivity.
  - unfold walk. rewrite walk_below by (cbn; auto). reflexivity.
  - rename H into Hfree, H0 into Htwo, H1 into Hp. unfold walk. rewrite fold_left_app.
    rewrite (walk_below before walkStart); [|reflexivity|assumption|cbn [paragraphCount walkStart]; lia].
    cbn [fold_left]. rewrite walkStep_paragraph by auto.
    cbn [paragraphCount walkStart Nat.add]. rewrite Htwo. cbn [Nat.ltb Nat.leb].
    match goal with |- visibleNodes (fold_left walkStep ?l ?w) = _ =>
      destruct (walk_full l w) as [-> _]; [cbn; lia|] end.
    reflexivity.
  - rename H into Hfree, H0 into Htwo, H1 into Hp. unfold walk. rewrite fold_left_app.
    rewrite (walk_below before walkStart); [|reflexivity|assumption|cbn [paragraphCount walkStart]; lia].
    cbn [fold_left]. rewrite walkStep_paragraph by auto.
    cbn [paragraphCount walkStart Nat.add]. rewrite Htwo. cbn [Nat.ltb Nat.leb].
    match goal with |- collapsedNodes (fold_left walkStep ?l ?w) = _ =>
      destruct (walk_full l w) as [_ ->]; [cbn; lia|] end.
    reflexivity.
  - intros before p after Hp Hge. unfold walk. rewrite fold_left_app.
    set (w1 := fold_left walkStep before walkStart).
    exists (collapsedNodes w1).
    destruct (shouldCollapse w1) eqn:Hc.
    + rewrite walk_latched by assumption. reflexivity.
    + destruct (walk_count before walkStart Hc) as [_ Hcount]. fold w1 in Hcount.
      destruct (walk_full (p :: after) w1) as [_ ->]; [cbn in Hcount; lia|reflexivity].
Qed.

End Properties.

(* ================================================================== *)
(** * Properties of the reconciler *)
(* ================================================================== *)

Section Reconciler.

Variable ext : Ext.

Lemma collectBlocks_store (content : list ContentBlock) (m : gmap string string) :
  fold_left (collectBlock ext) content m =
  fold_left store (flat_map (fun block => option_list (recorded ext block)) content) m.
Proof.
  revert m. induction content as [|block content IH]; intros m; [reflexivity|].
  cbn [fold_left flat_map]. rewrite fold_left_app, IH. f_equal.
  unfold collectBlock. destruct (recorded ext block) as [[k v]|]; reflexivity.
Qed.

Lemma collect_store (entries : list ChatEntry) (m : gmap string string) :
  fold_left (collectEntry ext) entries m = fold_left store (recordings ext entries) m.
Proof.
  revert m. induction entries as [|entry entries IH]; intros m; [reflexivity|].
  cbn [fold_left]. unfold recordings. cbn [flat_map]. rewrite fold_left_app.
  rewrite IH. unfold recordings. f_equal.
  unfold collectEntry. destruct (userBlocks entry); [apply collectBlocks_store|reflexivity].
Qed.



Lemma userBlocks_attach (toolResults : gmap string string) (entry : ChatEntry) :
  userBlocks (attachToolResults toolResults entry) = userBlocks entry.
Proof. destruct entry as [m| |]; [destruct m as [[] ? ? ? ? ?]|..]; reflexivity. Qed.

Lemma onlyToolResults_attach (toolResults : gmap string string) (entry : ChatEntry) :
  onlyToolResults (attachToolResults toolResults entry) = onlyToolResults entry.
Proof. unfold onlyToolResults. rewrite userBlocks_attach. reflexivity. Qed.

Lemma attach_attach (t1 t2 : gmap string string) (entry : ChatEntry) :
  attachToolResults t2 (attachToolResults t1 entry) = attachToolResults t2 entry.
Proof. destruct entry as [m| |]; [destruct m as [[] ? ? ? ? ?]|..]; reflexivity. Qed.

Lemma without_attach (toolResults : gmap string string) (entry : ChatEntry) :
  withoutToolResults (attachToolResults toolResults entry) = withoutToolResults entry.
Proof. destruct entry as [m| |]; [destruct m as [[] ? ? ? ? ?]|..]; reflexivity. Qed.

(** The second pass is a filter followed by the annotation. *)
Lemma merge_pass (toolResults : gmap string string) (entries result : list ChatEntry) :
  fold_left (mergeStep toolResults) entries result =
  result ++ map (attachToolResults toolResults) (List.filter survives entries).
Proof.
  revert result. induction entries as [|entry entries IH]; intros result.
  - cbn. rewrite app_nil_r. reflexivity.
  - cbn [fold_left List.filter]. rewrite IH. unfold mergeStep, survives.
    destruct (onlyToolResults entry); cbn; [reflexivity|].
    rewrite <- app_assoc. reflexivity.
Qed.

Lemma mergeToolResults_spec (entries : list ChatEntry) :
  mergeToolResults ext entries =
  map (attachToolResults (collectToolResults ext entries)) (List.filter survives entries).
Proof. unfold mergeToolResults. rewrite merge_pass. reflexivity. Qed.

Lemma recordings_attach (toolResults : gmap string string) (entries : list ChatEntry) :
  recordings ext (map (attachToolResults toolResults) entries) = recordings ext entries.
Proof.
  unfold recordings. induction entries as [|entry entries IH]; [reflexivity|].
  cbn [map flat_map]. rewrite IH, userBlocks_attach. reflexivity.
Qed.

Lemma filter_survives_attach (toolResults : gmap string string) (entries : list ChatEntry) :
  List.filter survives (map (attachToolResults toolResults) (List.filter survives entries)) =
  map (attachToolResults toolResults) (List.filter survives entries).
Proof.
  induction entries as [|entry entries IH]; [reflexivity|].
  cbn [List.filter]. destruct (survives entry) eqn:Hs; [|exact IH].
  cbn [map List.filter]. unfold survives at 1. rewrite onlyToolResults_attach.
  fold (survives entry). rewrite Hs, IH. reflexivity.
Qed.

(** Applying the reconciler to its own output keeps the same records
    and annotates them with the index of the surviving user records. *)
Lemma merge_twice (entries : list ChatEntry) :
  mergeToolResults ext (mergeToolResults ext entries) =
  map (attachToolResults (collectToolResults ext (List.filter survives entries)))
      (List.filter survives entries).
Proof.
  rewrite (mergeToolResults_spec (mergeToolResults ext entries)).
  rewrite (mergeToolResults_spec entries) at 2.
  rewrite filter_survives_attach. rewrite map_map.
  replace (collectToolResults ext (mergeToolResults ext entries))
    with (collectToolResults ext (List.filter survives entries)).
  - apply map_ext. intros entry. apply attach_attach.
  - unfold collectToolResults. rewrite !collect_store, mergeToolResults_spec.
    rewrite recordings_attach. reflexivity.
Qed.

(** An assistant record is kept, and it is the annotation that tells two
    indexes apart. *)
Lemma assistant_survives (entry : ChatEntry) :
  isAssistantRecord entry = true -> survives entry = true.
Proof.
  destruct entry as [m| |]; try discriminate.
  unfold survives, onlyToolResults, userBlocks. cbn.
  destruct (cm_type m); [discriminate | reflexivity].
Qed.

Lemma attach_assistant (t1 t2 : gmap string string) (entry : ChatEntry) :
  isAssistantRecord entry = true ->
  attachToolResults t1 entry = attachToolResults t2 entry -> t1 = t2.
Proof.
  destruct entry as [m| |]; try discriminate. cbn.
  destruct (cm_type m); [discriminate|]. intros _ H. now injection H.
Qed.

Lemma attach_other (toolResults : gmap string string) (entry : ChatEntry) :
  isAssistantRecord entry = false -> attachToolResults toolResults entry = entry.
Proof.
  destruct entry as [m| |]; try reflexivity. cbn.
  destruct (cm_type m); [reflexivity | discriminate].
Qed.

(** C3 (amended).  The reconciler never reorders: its output is the
    input without the user records that hold tool results only, each
    assistant record annotated with the index of the whole input.
    Applied to its own output it keeps every record, in order, but
    annotates with the index collected from the surviving records; the
    two outputs are equal up to the annotation, and they are equal
    exactly when that index is the index of the input or there is no
    assistant record to annotate. *)
Theorem merge_idempotent_up_to_annotation (entries : list ChatEntry) :
  mergeToolResults ext entries =
    map (attachToolResults (collectToolResults ext entries)) (List.filter survives entries) /\
  map withoutToolResults (mergeToolResults ext entries) =
    map withoutToolResults (List.filter survives entries) /\
  map withoutToolResults (mergeToolResults ext (mergeToolResults ext entries)) =
    map withoutToolResults (mergeToolResults ext entries) /\
  mergeToolResults ext (mergeToolResults ext entries) =
    map (attachToolResults (collectToolResults ext (List.filter survives entries)))
        (List.filter survives entries) /\
  (mergeToolResults ext (mergeToolResults ext entries) = mergeToolResults ext entries <->
   collectToolResults ext (List.filter survives entries) = collectToolResults ext entries \/
   existsb isAssistantRecord entries = false).
Proof.
  assert (Hstrip : forall t l, map withoutToolResults (map (attachToolResults t) l) =
                               map withoutToolResults l).
  { intros t l. rewrite map_map. apply map_ext. intros e. apply without_attach. }
  split; [|split; [|split; [|split]]].
  - apply mergeToolResults_spec.
  - rewrite mergeToolResults_spec. apply Hstrip.
  - rewrite merge_twice, mergeToolResults_spec, !Hstrip. reflexivity.
  - apply merge_twice.
  - rewrite merge_twice, mergeToolResults_spec. split.
    + intros Hsame. destruct (existsb isAssistantRecord entries) eqn:Hassistant; [left | now right].
      apply List.existsb_exists in Hassistant. destruct Hassistant as (entry & Hin & Hentry).
      apply (attach_assistant _ _ entry Hentry).
      apply (proj1 (@List.map_ext_in_iff _ _ _ _ _) Hsame).
      apply List.filter_In. split; [exact Hin | now apply assistant_survives].
    + intros [Hsame | Hnone]; [now rewrite Hsame|].
      apply List.map_ext_in. intros entry Hin. apply List.filter_In in Hin as [Hin _].
      assert (Hother : isAssistantRecord entry = false).
      { destruct (isAssistantRecord entry) eqn:E; [|reflexivity].
        assert (Ht : existsb isAssistantRecord entries = true).
        { apply List.existsb_exists. exists entry. auto. }
        congruence. }
      rewrite !attach_other by exact Hother. reflexivity.
Qed.

End Reconciler.

(* ================================================================== *)
(** * Properties of the tool-use renderer *)
(* ================================================================== *)

Section ToolUse.

Variable ext : Ext.

Lemma createDetailsBlock_label (summary body : list Obj) (label : string) :
  unistToHtml summary = Ok label ->
  createDetailsBlock ext summary body = Ok [detailsNode ext label body].
Proof. intros H. unfold createDetailsBlock. rewrite H. reflexivity. Qed.

Lemma createDetailsBlock_raises (summary body : list Obj) (message : string) :
  unistToHtml summary = Throw message ->
  createDetailsBlock ext summary body = Throw message.
Proof. intros H. unfold createDetailsBlock. rewrite H. reflexivity. Qed.


(** The output of [createToolUseNodes] once the summary is known. *)
Lemma createToolUseNodes_assembled (block : ContentBlock) (result : option string)
    (summary nodes : list Obj) (label : string) :
  describeTool ext (toolNameOf block) (b_input block) = Ok (summary, nodes) ->
  unistToHtml summary = Ok label ->
  let toolName := toolNameOf block in
  let parameters := parameterParts ext (b_input block) in
  createToolUseNodes ext block result =
    match result with
    | Some text =>
        if String.eqb text "" then Ok (labelNode ext label parameters :: nodes)
        else if String.eqb toolName "Write" || String.eqb toolName "Edit" then
          Ok (labelNode ext label parameters :: nodes ++ [openResultParagraph; plainCode text])
        else if String.eqb toolName "Read" then
          Ok (detailsNode ext label (parameters ++ [strongParagraph "File Contents:"; plainCode text])
              :: nodes)
        else
          Ok (detailsNode ext label (parameters ++ [strongParagraph "Result:"; plainCode text])
              :: nodes)
    | None => Ok (labelNode ext label parameters :: nodes)
    end.
Proof.
  intros Hd Hl. cbv zeta. unfold createToolUseNodes. rewrite Hd. cbn [bind fst snd].
  assert (Hplain : forall body more,
            (if (0 <? length body)%nat
             then let* detailsContent := createDetailsBlock ext summary body in
                  Ok (detailsContent ++ more)
             else let* l := unistToHtml summary in Ok (u2 "html" (JStr l) :: more))
            = Ok (labelNode ext label body :: more)).
  { intros [|b body] more; cbn [length Nat.ltb Nat.leb labelNode].
    - rewrite Hl. reflexivity.
    - rewrite (createDetailsBlock_label _ _ label Hl). reflexivity. }
  assert (Hfull : forall body a b more,
            (if (0 <? length (body ++ [a; b]))%nat
             then let* detailsContent := createDetailsBlock ext summary (body ++ [a; b]) in
                  Ok (detailsContent ++ more)
             else let* l := unistToHtml summary in Ok (u2 "html" (JStr l) :: more))
            = Ok (detailsNode ext label (body ++ [a; b]) :: more)).
  { intros body a b more. rewrite Hplain. destruct body; reflexivity. }
  destruct result as [text|]; [|apply Hplain].
  destruct (String.eqb text ""); [apply Hplain|].
  destruct (String.eqb (toolNameOf block) "Write" || String.eqb (toolNameOf block) "Edit");
    [apply Hplain|].
  destruct (String.eqb (toolNameOf block) "Read"); apply Hfull.
Qed.

(** C8.  An empty result is no result: for every block, whatever its
    tool, the output (or the error raised) is the same as without a
    result. *)
Theorem empty_result_is_absent (block : ContentBlock) :
  createToolUseNodes ext block (Some "") = createToolUseNodes ext block None.
Proof.
  unfold createToolUseNodes.
  destruct (describeTool ext (toolNameOf block) (b_input block)) as [[summary nodes]|m];
    reflexivity.
Qed.


End ToolUse.

Section Reconciled.

Variable ext : Ext.


(** What is recorded, read off the members of the block. *)
Lemma recorded_spec (block : ContentBlock) (key payload : string) :
  recorded ext block = Some (key, payload) <->
  b_type block = B_tool_result /\ b_tool_use_id block = Some key /\ key <> "" /\
  exists c, b_content block = Some c /\ c <> RString "" /\ payload = payloadText ext c.
Proof.
  unfold recorded, isToolResult. split.
  - destruct (b_tool_use_id block) as [i|]; [|discriminate].
    destruct (b_content block) as [c|]; [|discriminate].
    destruct (b_type block); try discriminate.
    destruct (String.eqb i "") eqn:E; [discriminate|]. cbn [negb andb].
    apply String.eqb_neq in E.
    destruct c as [s|items].
    + destruct (String.eqb s "") eqn:Es; [discriminate|]. cbn.
      intros [= <- <-]. repeat split; auto.
      exists (RString s). repeat split; auto. apply String.eqb_neq in Es. congruence.
    + intros [= <- <-]. repeat split; auto.
      exists (RArray items). repeat split; auto.
  - intros (Ht & Hi & Hk & c & Hc & Hne & ->). rewrite Ht, Hi, Hc.
    apply String.eqb_neq in Hk. rewrite Hk. cbn [negb andb].
    destruct c as [s|items]; [|reflexivity].
    replace (String.eqb s "") with false; [reflexivity|].
    symmetry. apply String.eqb_neq. congruence.
Qed.

Lemma collect_recordings (entries : list ChatEntry) :
  collectToolResults ext entries = fold_left store (recordings ext entries) ∅.
Proof. apply collect_store. Qed.


(** C9.  A user record whose blocks are all tool results is dropped
    whether or not any of them is recorded.  When none is, the index and
    the reconciled list are those of the chat without the record, and so
    are the entries of the exported document: the payload is lost. *)
Theorem unrecorded_results_are_lost (before after : list ChatEntry) (entry : ChatEntry)
    (content : list ContentBlock) :
  userBlocks entry = Some content ->
  Forall (fun block => isToolResult block = true) content ->
  Forall (fun block => recorded ext block = None) content ->
  onlyToolResults entry = true /\
  Forall (fun kept => onlyToolResults kept = false)
         (mergeToolResults ext (before ++ entry :: after)) /\
  collectToolResults ext (before ++ entry :: after) = collectToolResults ext (before ++ after) /\
  mergeToolResults ext (before ++ entry :: after) = mergeToolResults ext (before ++ after) /\
  (forall options documentNodes,
     pushEntries ext options (mergeToolResults ext (before ++ entry :: after)) documentNodes =
     pushEntries ext options (mergeToolResults ext (before ++ after)) documentNodes).
Proof.
  intros Hblocks Hall Hnone.
  assert (Hdrop : onlyToolResults entry = true).
  { unfold onlyToolResults. rewrite Hblocks. clear Hblocks Hnone.
    induction Hall as [|block content Hb _ IH]; [reflexivity|].
    cbn [existsb]. rewrite Hb. cbn [negb orb]. exact IH. }
  assert (Hrec : recordings ext (before ++ entry :: after) = recordings ext (before ++ after)).
  { unfold recordings. rewrite !flat_map_app. cbn [flat_map]. rewrite Hblocks.
    replace (flat_map (fun block => option_list (recorded ext block)) content)
      with (@nil (string * string)); [reflexivity|].
    clear Hblocks Hall. induction Hnone as [|block content Hb _ IH]; [reflexivity|].
    cbn [flat_map]. rewrite Hb. exact IH. }
  assert (Hindex : collectToolResults ext (before ++ entry :: after) =
                   collectToolResults ext (before ++ after)).
  { rewrite !collect_recordings, Hrec. reflexivity. }
  assert (Hmerge : mergeToolResults ext (before ++ entry :: after) =
                   mergeToolResults ext (before ++ after)).
  { rewrite !mergeToolResults_spec, Hindex, !List.filter_app. cbn [List.filter].
    unfold survives at 2. rewrite Hdrop. reflexivity. }
  repeat split; auto.
  - rewrite mergeToolResults_spec. apply List.Forall_forall. intros kept Hin.
    apply in_map_iff in Hin as (e & <- & Hin). apply filter_In in Hin as [_ Hs].
    rewrite onlyToolResults_attach. unfold survives in Hs.
    destruct (onlyToolResults e); [discriminate|reflexivity].
  - intros options documentNodes. rewrite Hmerge. reflexivity.
Qed.

End Reconciled.

(* ================================================================== *)
(** * Properties of the inline conversion *)
(* ================================================================== *)

Lemma nodeToElement_object (fields : Obj) :
  nodeToElement (JObj fields) = elementOf fields (childElements fields).
Proof.
  cbn [nodeToElement]. f_equal. unfold childElements.
  induction fields as [|[k v] rest IH]; [reflexivity|].
  cbn [getProp]. destruct (String.eqb k "children"); [|exact IH].
  destruct v as [| | |s|items|]; reflexivity.
Qed.

Lemma unsupported_raises (fields : Obj) :
  supportedType (getProp fields "type") = false ->
  nodeToElement (JObj fields) = Throw (unsupportedNode (getProp fields "type")).
Proof.
  intros Hun. rewrite nodeToElement_object. unfold elementOf, supportedType in *.
  destruct (getProp fields "type") as [[| | |t| |]|]; try reflexivity.
  destruct (String.eqb t "text"); [discriminate|].
  destruct (String.eqb t "strong"); [discriminate|].
  destruct (String.eqb t "code"); [discriminate|].
  destruct (String.eqb t "inlineCode"); [discriminate|].
  destruct (String.eqb t "link"); [discriminate|]. reflexivity.
Qed.

Lemma nodesToElements_app (before after : list JS) (elements : list Dom) :
  nodesToElements before = Ok elements ->
  nodesToElements (before ++ after) =
    let* more := nodesToElements after in Ok (elements ++ more).
Proof.
  revert elements. induction before as [|x before IH]; intros elements H.
  - cbn in H. inversion H. cbn. destruct (nodesToElements after); reflexivity.
  - cbn [nodesToElements app] in *. destruct (nodeToElement x) as [e|m]; [|discriminate].
    cbn [bind] in *. destruct (nodesToElements before) as [es|m]; [|discriminate].
    cbn [bind] in H. inversion H. rewrite (IH es eq_refl). cbn [bind].
    destruct (nodesToElements after) as [more|m]; cbn [bind]; [|reflexivity].
    destruct e; reflexivity.
Qed.

Lemma supportedTree_object (fields : Obj) :
  supportedTree (JObj fields) = true ->
  supportedType (getProp fields "type") = true /\
  match getProp fields "children" with
  | Some (JArr items) => forallb supportedTree items = true
  | Some _ => False
  | None => True
  end.
Proof.
  cbn [supportedTree]. intros H. apply andb_true_iff in H as [Ht Hc]. split; [exact Ht|].
  clear Ht. induction fields as [|[k v] rest IH]; [exact I|].
  cbn [getProp]. destruct (String.eqb k "children"); [|exact (IH Hc)].
  destruct v as [| | |s|items|]; try discriminate.
  clear IH. induction items as [|x r IHr]; [reflexivity|].
  cbn [forallb]. apply andb_true_iff in Hc as [Hx Hr]. rewrite Hx. exact (IHr Hr).
Qed.

(** The conversion of a node built only from the supported types returns. *)
Lemma supported_returns (node : JS) :
  supportedTree node = true -> returns (nodeToElement node).
Proof.
  enough (Hboth : (supportedTree node = true -> returns (nodeToElement node)) /\
                  (forall items, node = JArr items -> forallb supportedTree items = true ->
                                 returns (nodesToElements items))) by apply Hboth.
  pattern node. apply JS_nested_ind.
  - split; [discriminate|]. intros items H. discriminate.
  - split; [discriminate|]. intros items H. discriminate.
  - split; [discriminate|]. intros items H. discriminate.
  - split; [discriminate|]. intros items H. discriminate.
  - intros items Hall. split; [discriminate|]. intros items' [= <-] Hsup.
    induction Hall as [|x r [Hx _] _ IH]; [eexists; reflexivity|].
    cbn [forallb] in Hsup. apply andb_true_iff in Hsup as [Hsx Hsr].
    cbn [nodesToElements]. destruct (Hx Hsx) as [e ->]. destruct (IH Hsr) as [es ->].
    eexists. reflexivity.
  - intros fields Hall. split; [|intros items H; discriminate].
    intros Hsup. apply supportedTree_object in Hsup as [Htype Hchildren].
    assert (Hkids : returns (childElements fields)).
    { unfold childElements.
      destruct (getProp fields "children") as [v|] eqn:Hget; [|eexists; reflexivity].
      destruct v as [| | |s|items|]; try contradiction.
      assert (Hin : exists k, In (k, JArr items) fields).
      { clear -Hget. induction fields as [|[k v] rest IH]; [discriminate|].
        cbn [getProp] in Hget. destruct (String.eqb k "children").
        - inversion Hget. exists k. left. reflexivity.
        - destruct (IH Hget) as [k' Hin]. exists k'. right. exact Hin. }
      destruct Hin as [k Hin]. rewrite List.Forall_forall in Hall.
      destruct (Hall _ Hin) as [_ Hitems]. exact (Hitems items eq_refl Hchildren). }
    rewrite nodeToElement_object. destruct Hkids as [kids ->].
    unfold elementOf, supportedType in *.
    destruct (getProp fields "type") as [[| | |t| |]|]; try discriminate.
    destruct (String.eqb t "text").
    { destruct (getProp fields "value"); eexists; reflexivity. }
    destruct (String.eqb t "strong").
    { destruct (getProp fields "children"), (getProp fields "value"); eexists; reflexivity. }
    destruct (String.eqb t "code").
    { destruct (getProp fields "value"); eexists; reflexivity. }
    destruct (String.eqb t "inlineCode").
    { destruct (getProp fields "value"); eexists; reflexivity. }
    destruct (String.eqb t "link"); [|discriminate].
    destruct (getProp fields "children"), (getProp fields "value"); eexists; reflexivity.
Qed.

Lemma supported_list_returns (nodes : list JS) :
  forallb supportedTree nodes = true -> returns (nodesToElements nodes).
Proof.
  induction nodes as [|x r IH]; intros H; [eexists; reflexivity|].
  cbn [forallb] in H. apply andb_true_iff in H as [Hx Hr].
  cbn [nodesToElements]. destruct (supported_returns x Hx) as [e ->].
  destruct (IH Hr) as [es ->]. eexists. reflexivity.
Qed.

Section Totality.

Variable ext : Ext.

Lemma shaped_string (input : option JS) (key : string) :
  shaped input key isString = true -> optTruthy (optMember input key) = true ->
  exists s, optMember input key = Some (JStr s).
Proof.
  unfold shaped, optTruthy. destruct (optMember input key) as [v|]; [|discriminate].
  intros Hs Ht. rewrite Ht in Hs. destruct v; try discriminate. eexists. reflexivity.
Qed.

(** With parameters of the expected shapes the summary is built, and
    from the supported node types only. *)
Lemma describeTool_supported (toolName : string) (input : option JS) :
  expectedShapes input = true ->
  exists summary nodes,
    describeTool ext toolName input = Ok (summary, nodes) /\
    forallb supportedTree (map JObj summary) = true.
Proof.
  unfold expectedShapes. intros H.
  apply andb_true_iff in H as [H Hpattern]. apply andb_true_iff in H as [H Hcommand].
  apply andb_true_iff in H as [Htodos Hfile].
  unfold describeTool, fileDescription. cbv beta zeta.
  destruct (String.eqb toolName "TodoWrite" && optTruthy (optMember input "todos")) eqn:E.
  { apply andb_true_iff in E as [_ E]. unfold shaped, optTruthy in *.
    destruct (optMember input "todos") as [v|]; [|discriminate].
    rewrite E in Htodos. destruct v as [| | | |todos|]; try discriminate.
    cbn [negb orb] in Htodos.
    replace (existsb (fun t => match t with JNull => true | _ => false end) todos) with false.
    - do 2 eexists. split; reflexivity.
    - symmetry. clear -Htodos. induction todos as [|t todos IH]; [reflexivity|].
      cbn [forallb existsb] in *. apply andb_true_iff in Htodos as [Ht Hrest].
      rewrite (IH Hrest). destruct t; try reflexivity. discriminate. }
  clear E.
  repeat match goal with
         | |- context [String.eqb toolName ?name && optTruthy (optMember input "file_path")] =>
             destruct (String.eqb toolName name && optTruthy (optMember input "file_path")) eqn:E;
             [apply andb_true_iff in E as [_ E];
              destruct (shaped_string input "file_path" Hfile E) as [s ->];
              do 2 eexists; split; reflexivity | clear E]
         end.
  destruct (String.eqb toolName "Bash" && optTruthy (optMember input "command")) eqn:E.
  { apply andb_true_iff in E as [_ E].
    destruct (shaped_string input "command" Hcommand E) as [s ->].
    unfold createCodeNode. cbn [bind String.eqb Ascii.eqb Bool.eqb].
    destruct (includes s nl); do 2 eexists; split; reflexivity. }
  clear E.
  repeat match goal with
         | |- context [String.eqb toolName ?name && optTruthy (optMember input "pattern")] =>
             destruct (String.eqb toolName name && optTruthy (optMember input "pattern")) eqn:E;
             [apply andb_true_iff in E as [_ E];
              destruct (shaped_string input "pattern" Hpattern E) as [s ->];
              do 2 eexists; split; reflexivity | clear E]
         end.
  do 2 eexists. split; reflexivity.
Qed.

(** The renderer returns on every block whose parameters have the
    expected shapes, with or without a result. *)
Lemma createToolUseNodes_returns (block : ContentBlock) (result : option string) :
  expectedShapes (b_input block) = true ->
  returns (createToolUseNodes ext block result).
Proof.
  intros Hshape.
  destruct (describeTool_supported (toolNameOf block) (b_input block) Hshape)
    as (summary & nodes & Hd & Hsup).
  destruct (supported_list_returns _ Hsup) as [elements Hel].
  assert (Hl : unistToHtml summary = Ok (innerHTML elements)).
  { unfold unistToHtml. rewrite Hel. reflexivity. }
  rewrite (createToolUseNodes_assembled ext block result summary nodes _ Hd Hl). cbv zeta.
  destruct result as [text|]; [|eexists; reflexivity].
  repeat match goal with
         | |- context [if ?c then _ else _] => destruct c
         end; eexists; reflexivity.
Qed.


End Totality.

(* ================================================================== *)
(** * Properties of the export loop *)
(* ================================================================== *)

(** The sort returns the items it was given. *)
Lemma insertSorted_perm {A : Type} (compare : A -> A -> Z) (x : A) (l : list A) :
  Permutation (insertSorted compare x l) (x :: l).
Proof.
  induction l as [|y l IH]; cbn [insertSorted]; [reflexivity|].
  destruct (compare x y <=? 0)%Z; [reflexivity|].
  rewrite IH. apply perm_swap.
Qed.

Lemma arraySort_perm {A : Type} (compare : A -> A -> Z) (l : list A) :
  Permutation (arraySort compare l) l.
Proof.
  induction l as [|x l IH]; [reflexivity|].
  unfold arraySort in *. cbn [fold_right]. rewrite insertSorted_perm, IH. reflexivity.
Qed.

Section Isolation.

Variable ext : Ext.
Variable options : AppCliOptions.




(** What the loop pushes does not depend on the nodes already there. *)
Lemma pushEntries_prefix (entries : list ChatEntry) (documentNodes : list Obj) :
  pushEntries ext options entries documentNodes =
    (documentNodes ++ fst (pushEntries ext options entries []),
     snd (pushEntries ext options entries [])).
Proof.
  revert documentNodes. induction entries as [|entry entries IH]; intros documentNodes.
  - cbn. rewrite app_nil_r. reflexivity.
  - cbn [pushEntries]. destruct (createChatEntryNodes ext entry options) as [nodes|m].
    + rewrite IH. rewrite (IH ([] ++ nodes)). cbn [fst snd app].
      rewrite <- app_assoc. reflexivity.
    + cbn. rewrite app_nil_r. reflexivity.
Qed.

Lemma tryChat_prefix (chatFile : string) (documentNodes : list Obj) :
  tryChat ext options chatFile documentNodes =
    (documentNodes ++ fst (tryChat ext options chatFile []),
     snd (tryChat ext options chatFile [])).
Proof.
  unfold tryChat. destruct (parseClaudeChatFile ext chatFile) as [entries|m].
  - rewrite pushEntries_prefix. rewrite (pushEntries_prefix _ ([] ++ _)).
    cbn [fst snd app]. rewrite <- app_assoc. reflexivity.
  - cbn. rewrite app_nil_r. reflexivity.
Qed.

Lemma processChat_prefix (documentNodes : list Obj) (chatFile : string) :
  processChat ext options documentNodes chatFile = documentNodes ++ chatSection ext options chatFile.
Proof.
  unfold chatSection, processChat. cbv zeta.
  rewrite tryChat_prefix. rewrite (tryChat_prefix _ ([] ++ _)). cbn [fst snd app].
  destruct (snd (tryChat ext options chatFile []));
    rewrite <- ?app_assoc; cbn [app]; rewrite <- ?app_assoc; reflexivity.
Qed.

Lemma chat_loop (chatFiles : list string) (documentNodes : list Obj) :
  fold_left (processChat ext options) chatFiles documentNodes =
    documentNodes ++ flat_map (chatSection ext options) chatFiles.
Proof.
  revert documentNodes. induction chatFiles as [|chatFile chatFiles IH]; intros documentNodes.
  - cbn. rewrite app_nil_r. reflexivity.
  - cbn [fold_left flat_map]. rewrite IH, processChat_prefix, <- app_assoc. reflexivity.
Qed.

(** What [catch] adds: the section of a chat whose [try] block raised is
    the heading, what was pushed before the error, the error paragraph
    and the separator. *)
Lemma chatSection_raised (chatFile : string) (pushed : list Obj) (message : string) :
  tryChat ext options chatFile [] = (pushed, Some message) ->
  chatSection ext options chatFile =
    heading 2 ("Chat: " +:+ basename ext chatFile)
    :: pushed ++ [errorParagraph message; u1 "thematicBreak"].
Proof.
  intros H. unfold chatSection, processChat. cbv zeta.
  rewrite tryChat_prefix, H. cbn [fst snd app]. rewrite <- app_assoc. reflexivity.
Qed.

Lemma chatSection_done (chatFile : string) (pushed : list Obj) :
  tryChat ext options chatFile [] = (pushed, None) ->
  chatSection ext options chatFile =
    heading 2 ("Chat: " +:+ basename ext chatFile) :: pushed ++ [u1 "thematicBreak"].
Proof.
  intros H. unfold chatSection, processChat. cbv zeta.
  rewrite tryChat_prefix, H. cbn [fst snd app]. reflexivity.
Qed.


(** C6 (amended).  [nodeToElement] raises "Unsupported unist node type"
    for an object whose type is none of text, strong, code, inlineCode
    and link, and [unistToHtml] raises when such a node is in its list,
    with that message when the nodes before it are built from the
    supported types; on nodes built only from the supported types
    neither raises.  The error is not caught by [createDetailsBlock]: it
    passes through to the [try] block of the chat being exported, whose
    [catch] turns it into the error paragraph of that chat. *)
Theorem unsupported_node_raises :
  (forall fields,
     supportedType (getProp fields "type") = false ->
     nodeToElement (JObj fields) = Throw (unsupportedNode (getProp fields "type"))) /\
  (forall nodes,
     Exists (fun node => supportedType (getProp node "type") = false) nodes ->
     exists message, unistToHtml nodes = Throw message) /\
  (forall before node after,
     forallb supportedTree (map JObj before) = true ->
     supportedType (getProp node "type") = false ->
     unistToHtml (before ++ node :: after) = Throw (unsupportedNode (getProp node "type"))) /\
  (forall node, supportedTree node = true -> returns (nodeToElement node)) /\
  (forall nodes, forallb supportedTree (map JObj nodes) = true -> returns (unistToHtml nodes)) /\
  (forall summary body message,
     unistToHtml summary = Throw message ->
     createDetailsBlock ext summary body = Throw message) /\
  (forall chatFile pushed message,
     tryChat ext options chatFile [] = (pushed, Some message) ->
     chatSection ext options chatFile =
       heading 2 ("Chat: " +:+ basename ext chatFile)
       :: pushed ++ [errorParagraph message; u1 "thematicBreak"]).
Proof.
  repeat split.
  - apply unsupported_raises.
  - intros nodes Hex. unfold unistToHtml.
    induction Hex as [node rest Hun | node rest _ IH].
    + cbn [map nodesToElements]. rewrite (unsupported_raises node Hun). eexists. reflexivity.
    + cbn [map nodesToElements]. destruct (nodeToElement (JObj node)); [|eexists; reflexivity].
      cbn [bind]. destruct IH as [m IH].
      destruct (nodesToElements (map JObj rest)); [discriminate|]. eexists. reflexivity.
  - intros before node after Hsup Hun. unfold unistToHtml.
    destruct (supported_list_returns _ Hsup) as [elements Hel].
    rewrite map_app, (nodesToElements_app _ _ elements Hel).
    cbn [map nodesToElements]. rewrite (unsupported_raises node Hun). reflexivity.
  - apply supported_returns.
  - intros nodes Hsup. unfold unistToHtml.
    destruct (supported_list_returns _ Hsup) as [elements ->]. eexists. reflexivity.
  - intros summary body message H. unfold createDetailsBlock. rewrite H. reflexivity.
  - apply chatSection_raised.
Qed.

End Isolation.

(* ================================================================== *)
(** * Properties of the chronological order *)
(* ================================================================== *)

Section Sorting.

Context {A : Type}.
Variable key : A -> Z.

(** Two comparators that agree on the items sort them alike. *)
Lemma insertSorted_ext (c1 c2 : A -> A -> Z) (x : A) (l : list A) :
  (forall y, In y l -> c1 x y = c2 x y) ->
  insertSorted c1 x l = insertSorted c2 x l.
Proof.
  induction l as [|y l IH]; intros Hagree; [reflexivity|].
  cbn [insertSorted]. rewrite (Hagree y) by (left; reflexivity).
  destruct (c2 x y <=? 0)%Z; [reflexivity|].
  rewrite IH; [reflexivity|]. intros z Hz. apply Hagree. right. exact Hz.
Qed.

Lemma arraySort_ext (c1 c2 : A -> A -> Z) (l : list A) :
  (forall x y, In x l -> In y l -> c1 x y = c2 x y) ->
  arraySort c1 l = arraySort c2 l.
Proof.
  induction l as [|x l IH]; intros Hagree; [reflexivity|].
  unfold arraySort in *. cbn [fold_right].
  rewrite IH by (intros a b Ha Hb; apply Hagree; right; assumption).
  apply insertSorted_ext. intros y Hy. apply Hagree; [left; reflexivity|].
  right. eapply Permutation_in; [apply arraySort_perm|exact Hy].
Qed.

Lemma insertSorted_sorted (x : A) (l : list A) :
  StronglySorted (fun a b => key a <= key b)%Z l ->
  StronglySorted (fun a b => key a <= key b)%Z (insertSorted (byKey key) x l).
Proof.
  induction 1 as [|y l Hs IH Hy]; cbn [insertSorted].
  - constructor; constructor.
  - unfold byKey at 1. destruct (key x - key y <=? 0)%Z eqn:E.
    + apply Z.leb_le in E. constructor; [constructor; assumption|].
      constructor; [lia|]. eapply List.Forall_impl; [|exact Hy]. cbn. intros; lia.
    + apply Z.leb_gt in E. constructor; [exact IH|].
      eapply Permutation_Forall; [symmetry; apply insertSorted_perm|].
      constructor; [lia|exact Hy].
Qed.

Lemma arraySort_sorted (l : list A) :
  StronglySorted (fun a b => key a <= key b)%Z (arraySort (byKey key) l).
Proof.
  induction l as [|x l IH]; [constructor|].
  unfold arraySort in *. cbn [fold_right]. apply insertSorted_sorted. exact IH.
Qed.

(** The sort is stable: the items of one key keep their order. *)
Lemma insertSorted_keyed (k : Z) (x : A) (l : list A) :
  List.filter (keyed key k) (insertSorted (byKey key) x l) = List.filter (keyed key k) (x :: l).
Proof.
  induction l as [|y l IH]; [reflexivity|].
  cbn [insertSorted]. unfold byKey at 1. destruct (key x - key y <=? 0)%Z eqn:E; [reflexivity|].
  apply Z.leb_gt in E. cbn [List.filter] in *. rewrite IH.
  unfold keyed. destruct (key x =? k)%Z eqn:Ex, (key y =? k)%Z eqn:Ey; try reflexivity.
  apply Z.eqb_eq in Ex, Ey. lia.
Qed.

Lemma arraySort_keyed (k : Z) (l : list A) :
  List.filter (keyed key k) (arraySort (byKey key) l) = List.filter (keyed key k) l.
Proof.
  induction l as [|x l IH]; [reflexivity|].
  unfold arraySort in *. cbn [fold_right]. rewrite insertSorted_keyed.
  cbn [List.filter]. rewrite IH. reflexivity.
Qed.

End Sorting.

Lemma sorted_tail {A : Type} (R : A -> A -> Prop) (front back : list A) :
  StronglySorted R (front ++ back) -> StronglySorted R back.
Proof.
  induction front as [|x front IH]; intros H; [exact H|].
  apply IH. cbn in H. apply StronglySorted_inv in H. apply H.
Qed.

Section Chronology.

Variable ext : Ext.

Lemma firstTimestamp_none (lines : list string) :
  Forall (fun line =>
            forall entry, decodeEntry ext line = Some entry -> timestampOf entry = None) lines ->
  firstTimestamp ext lines = epoch.
Proof.
  induction 1 as [|line lines Hline _ IH]; [reflexivity|].
  cbn [firstTimestamp]. destruct (decodeEntry ext line) as [entry|]; [|exact IH].
  rewrite (Hline entry eq_refl). exact IH.
Qed.

Lemma sort_valid (chatFiles : list string) :
  Forall (fun f => getChatStartTime ext f <> None) chatFiles ->
  arraySort compareStartTime (map (withTime ext) chatFiles) =
  arraySort (byKey timeOf) (map (withTime ext) chatFiles).
Proof.
  intros Hvalid. apply arraySort_ext. intros x y Hx Hy.
  apply in_map_iff in Hx as (f & <- & Hf). apply in_map_iff in Hy as (g & <- & Hg).
  rewrite List.Forall_forall in Hvalid.
  unfold compareStartTime, byKey, timeOf, withTime. cbn [snd].
  destruct (getChatStartTime ext f) eqn:Ef; [|destruct (Hvalid f Hf Ef)].
  destruct (getChatStartTime ext g) eqn:Eg; [|destruct (Hvalid g Hg Eg)].
  reflexivity.
Qed.

Lemma sorted_items (chatFiles : list string) (compare : (string * option Z) -> _ -> Z) :
  Forall (fun item => item = withTime ext (fst item))
         (arraySort compare (map (withTime ext) chatFiles)).
Proof.
  eapply Permutation_Forall; [symmetry; apply arraySort_perm|].
  apply List.Forall_forall. intros item Hin. apply in_map_iff in Hin as (f & <- & _).
  reflexivity.
Qed.

(** X30.  The order of the chats.  [getChatStartTime] is the epoch for a
    file that cannot be read, that is empty, or in which no line that
    decodes carries a timestamp.  When the start time of every chat file
    is a valid date, [sortChatFilesByTime] returns the files in ascending
    order of start time, so that no chat that starts at the epoch comes
    after a chat that starts later than the epoch, and chats of equal
    start time keep their input order. *)
Theorem epoch_chats_sort_first :
  (forall chatFile message,
     readTextFile ext chatFile = Throw message -> getChatStartTime ext chatFile = epoch) /\
  (forall chatFile content,
     readTextFile ext chatFile = Ok content ->
     Forall (fun line =>
               forall entry, decodeEntry ext line = Some entry -> timestampOf entry = None)
            (jsonlLines content) ->
     getChatStartTime ext chatFile = epoch) /\
  (forall chatFiles,
     Forall (fun f => getChatStartTime ext f <> None) chatFiles ->
     let sorted := sortChatFilesByTime ext chatFiles in
     Permutation sorted chatFiles /\
     StronglySorted (fun f g => startTime ext f <= startTime ext g)%Z sorted /\
     (forall front later back first t,
        sorted = front ++ later :: back ->
        getChatStartTime ext later = Some t -> (0 < t)%Z ->
        getChatStartTime ext first = epoch -> ~ In first back) /\
     (forall t,
        List.filter (fun f => startTime ext f =? t)%Z sorted =
        List.filter (fun f => startTime ext f =? t)%Z chatFiles)).
Proof.
  split; [|split].
  - intros chatFile message H. unfold getChatStartTime. rewrite H. reflexivity.
  - intros chatFile content H Hnone. unfold getChatStartTime. rewrite H.
    destruct (length (jsonlLines content) =? 0)%nat; [reflexivity|].
    apply firstTimestamp_none. exact Hnone.
  - intros chatFiles Hvalid. cbv zeta. unfold sortChatFilesByTime. fold (withTime ext).
    rewrite (sort_valid chatFiles Hvalid).
    assert (Hsorted : StronglySorted (fun f g => startTime ext f <= startTime ext g)%Z
                        (map fst (arraySort (byKey timeOf) (map (withTime ext) chatFiles)))).
    { pose proof (arraySort_sorted timeOf (map (withTime ext) chatFiles)) as Hs.
      pose proof (sorted_items chatFiles (byKey timeOf)) as Hit.
      induction Hs as [|item items _ IH Hle]; [constructor|].
      inversion Hit as [|? ? Hitem Hitems]; subst. cbn [map].
      constructor; [exact (IH Hitems)|].
      apply List.Forall_forall. intros g Hg. apply in_map_iff in Hg as (other & <- & Hin).
      rewrite List.Forall_forall in Hle, Hitems. specialize (Hle _ Hin).
      rewrite Hitem, (Hitems _ Hin) in Hle. exact Hle. }
    split; [|split; [exact Hsorted|split]].
    + rewrite (arraySort_perm (byKey timeOf)), map_map. cbn [withTime fst].
      rewrite map_id. reflexivity.
    + intros front later back first t Heq Hlater Hpos Hfirst Hin.
      rewrite Heq in Hsorted. apply sorted_tail in Hsorted.
      apply StronglySorted_inv in Hsorted as [_ Hle].
      rewrite List.Forall_forall in Hle. specialize (Hle _ Hin).
      unfold startTime in Hle. rewrite Hlater, Hfirst in Hle. cbn in Hle. lia.
    + intros t.
      assert (Hmap : forall items,
                Forall (fun item => item = withTime ext (fst item)) items ->
                List.filter (fun f => startTime ext f =? t)%Z (map fst items) =
                map fst (List.filter (keyed timeOf t) items)).
      { induction 1 as [|item items Hitem _ IH]; [reflexivity|].
        cbn [map List.filter]. rewrite IH.
        assert (Hk : keyed timeOf t item = (startTime ext (fst item) =? t)%Z).
        { rewrite Hitem at 1. reflexivity. }
        rewrite Hk. destruct (startTime ext (fst item) =? t)%Z; reflexivity. }
      rewrite (Hmap _ (sorted_items chatFiles (byKey timeOf))), arraySort_keyed.
      rewrite <- Hmap, map_map; [cbn [withTime fst]; rewrite map_id; reflexivity|].
      apply List.Forall_forall. intros item Hin. apply in_map_iff in Hin as (f & <- & _).
      reflexivity.
Qed.

End Chronology.

(* ================================================================== *)
(** * The properties on the sample project *)
(* ================================================================== *)



Lemma collapsing_threshold_witness :
  processAssistantContent sampleExt
    [paragraphOf "1"; paragraphOf "2"; paragraphOf "3"; paragraphOf "4"; paragraphOf "5"] =
  Ok [paragraphOf "1"; paragraphOf "2"; paragraphOf "3";
      u2 "html" (JStr ("<details><summary>More...</summary>" +:+ nl +:+ nl
                       +:+ "4" +:+ nl +:+ nl +:+ "5" +:+ nl +:+ nl +:+ "</details>"))] /\
  visibleNodes (walk [paragraphOf "1"; u1 "thematicBreak"; paragraphOf "2"; paragraphOf "3";
                      u1 "thematicBreak"; heading 2 "T"]) =
    [paragraphOf "1"; u1 "thematicBreak"; paragraphOf "2"; paragraphOf "3"].
Proof.
  destruct (collapsing_threshold sampleExt) as (Hfive & _ & Hcut & _). split.
  - apply Hfive. repeat constructor.
  - apply (Hcut [paragraphOf "1"; u1 "thematicBreak"; paragraphOf "2"] (paragraphOf "3")
                [u1 "thematicBreak"; heading 2 "T"]); [repeat constructor| |]; reflexivity.
Defined.

Lemma merge_idempotent_witness :
  mergeToolResults sampleExt (mergeToolResults sampleExt [Chat readAssistant; Chat mixedUser]) =
  mergeToolResults sampleExt [Chat readAssistant; Chat mixedUser].
Proof.
  destruct (merge_idempotent_up_to_annotation sampleExt [Chat readAssistant; Chat mixedUser])
    as (_ & _ & _ & _ & H).
  apply H. left. vm_compute. reflexivity.
Defined.

(** C3, as stated, fails: reconciling the reconciled list empties the
    index that annotates the assistant record. *)
Lemma reconciling_twice_loses_the_index :
  mergeToolResults sampleExt [Chat readAssistant; Chat readResult] =
    [attachToolResults {[ "t1" := "const x = 1;" ]} (Chat readAssistant)] /\
  mergeToolResults sampleExt (mergeToolResults sampleExt [Chat readAssistant; Chat readResult]) =
    [attachToolResults ∅ (Chat readAssistant)] /\
  mergeToolResults sampleExt (mergeToolResults sampleExt [Chat readAssistant; Chat readResult])
  <> mergeToolResults sampleExt [Chat readAssistant; Chat readResult].
Proof.
  split; [|split].
  - vm_compute. reflexivity.
  - vm_compute. reflexivity.
  - vm_compute. discriminate.
Qed.




Lemma unsupported_node_witness :
  nodeToElement (JObj [("type", JStr "heading")]) = Throw "Unsupported unist node type: heading" /\
  returns (unistToHtml [u2 "text" (JStr "Read file "); u2 "inlineCode" (JStr "main.ts")]).
Proof.
  destruct (unsupported_node_raises sampleExt sampleOptions) as (Hraise & _ & _ & _ & Hok & _).
  split.
  - apply (Hraise [("type", JStr "heading")]). reflexivity.
  - apply Hok. reflexivity.
Defined.

(** C6, as stated, fails: the error of the conversion, raised while a
    chat is rendered, is caught by the handler of that chat and becomes
    its error paragraph. *)
Lemma unsupported_node_is_caught :
  createChatEntryNodes sampleExt (Chat grepAssistant) sampleOptions =
    Throw "Unsupported unist node type: heading" /\
  documentNodesOf sampleExt "Export" ["g.jsonl"] sampleOptions =
    [heading 1 "Export"; heading 2 "Chat: g"]
    ++ createMetadataTableNodes [("Session ID", "session-1"); ("Total Messages", "1")]
    ++ [errorParagraph "Unsupported unist node type: heading"; u1 "thematicBreak"].
Proof.
  split; vm_compute; reflexivity.
Qed.


Lemma unrecorded_results_witness :
  mergeToolResults sampleExt [Chat readAssistant; Chat bareResult] =
  mergeToolResults sampleExt [Chat readAssistant].
Proof.
  destruct (unrecorded_results_are_lost sampleExt [Chat readAssistant] [] (Chat bareResult)
              [bareBlock])
    as (_ & _ & _ & H & _).
  - reflexivity.
  - repeat constructor.
  - repeat constructor.
  - exact H.
Defined.

Lemma epoch_chats_witness :
  getChatStartTime sampleExt "missing.jsonl" = epoch /\
  getChatStartTime sampleExt "c.jsonl" = epoch /\
  StronglySorted (fun f g => startTime sampleExt f <= startTime sampleExt g)%Z
    (sortChatFilesByTime sampleExt ["a.jsonl"; "c.jsonl"; "g.jsonl"]) /\
  ~ In "c.jsonl" ["g.jsonl"].
Proof.
  destruct (epoch_chats_sort_first sampleExt) as (Hread & Hnone & Hsort).
  split; [|split].
  - apply (Hread "missing.jsonl" "No such file or directory (os error 2)"). reflexivity.
  - apply (Hnone "c.jsonl" ""); [reflexivity|constructor].
  - destruct (Hsort ["a.jsonl"; "c.jsonl"; "g.jsonl"]) as (_ & Hsorted & Hfirst & _).
    + repeat constructor; discriminate.
    + split; [exact Hsorted|].
      apply (Hfirst ["c.jsonl"] "a.jsonl" ["g.jsonl"] "c.jsonl" 1735725660000%Z);
        reflexivity.
Defined.

(** C10.  The order that [sortChatFilesByTime] returns for a chat of
    2025, a chat whose first timestamp is not a date, and an empty chat,
    in this order.  The second start time is an Invalid Date, which
    compares as equal to every other; the list comes back as it is, and
    the empty chat, which starts at the epoch, stays behind the chat of
    2025. *)
Lemma invalid_date_breaks_the_order :
  getChatStartTime sampleExt "a.jsonl" = Some 1735725660000%Z /\
  getChatStartTime sampleExt "b.jsonl" = None /\
  getChatStartTime sampleExt "c.jsonl" = epoch /\
  sortChatFilesByTime sampleExt ["a.jsonl"; "b.jsonl"; "c.jsonl"] =
    ["a.jsonl"; "b.jsonl"; "c.jsonl"].
Proof.
  repeat split; vm_compute; reflexivity.
Qed.

(* ================================================================== *)
(** * Properties of strings *)
(* ================================================================== *)

Lemma append_assoc (a b c : string) : (a +:+ b) +:+ c = a +:+ (b +:+ c).
Proof.
  induction a as [|x a IH]; [reflexivity|].
  change (String x ((a +:+ b) +:+ c) = String x (a +:+ (b +:+ c))). now rewrite IH.
Qed.

Lemma append_empty (a : string) : a +:+ "" = a.
Proof.
  induction a as [|x a IH]; [reflexivity|].
  change (String x (a +:+ "") = String x a). now rewrite IH.
Qed.

Lemma join_fold (sep : string) (rest : list string) (a b : string) :
  fold_left (fun acc q => acc +:+ sep +:+ q) rest (a +:+ b) =
  a +:+ fold_left (fun acc q => acc +:+ sep +:+ q) rest b.
Proof.
  revert b. induction rest as [|q rest IH]; intros b; cbn [fold_left]; [reflexivity|].
  rewrite <- IH. f_equal. apply append_assoc.
Qed.

Lemma join_cons (sep p q : string) (rest : list string) :
  join sep (p :: q :: rest) = p +:+ sep +:+ join sep (q :: rest).
Proof.
  unfold join. cbn [fold_left]. rewrite !join_fold. reflexivity.
Qed.

Lemma join_first (sep : string) (a : ascii) (h : string) (t : list string) :
  join sep (String a h :: t) = String a (join sep (h :: t)).
Proof.
  destruct t as [|q t]; [reflexivity|]. rewrite !join_cons. reflexivity.
Qed.

Lemma split_nonempty (c : ascii) (s : string) : split c s <> [].
Proof.
  destruct s as [|a s]; cbn; [discriminate|].
  destruct (Ascii.eqb a c); [discriminate|]. destruct (split c s); discriminate.
Qed.

(** Splitting a string and joining the parts gives the string back. *)
Lemma join_split (c : ascii) (s : string) : join (String c "") (split c s) = s.
Proof.
  induction s as [|a s IH]; [reflexivity|].
  cbn [split]. destruct (Ascii.eqb_spec a c) as [->|Hne].
  - destruct (split c s) as [|h t] eqn:E; [now apply split_nonempty in E|].
    rewrite join_cons, IH. reflexivity.
  - destruct (split c s) as [|h t] eqn:E; [now apply split_nonempty in E|].
    rewrite join_first, IH. reflexivity.
Qed.

Lemma split_plain (c : ascii) (s : string) : hasChar c s = false -> split c s = [s].
Proof.
  induction s as [|a s IH]; [reflexivity|]. cbn [hasChar split].
  destruct (Ascii.eqb a c); [discriminate|]. cbn [orb]. intros H. now rewrite IH.
Qed.

Lemma split_append (c : ascii) (a b : string) :
  hasChar c a = false -> split c (a +:+ String c b) = a :: split c b.
Proof.
  induction a as [|x a IH]; cbn [hasChar].
  - intros _. change (split c (String c b) = "" :: split c b).
    cbn [split]. now rewrite Ascii.eqb_refl.
  - change (String x a +:+ String c b) with (String x (a +:+ String c b)).
    cbn [split]. destruct (Ascii.eqb x c); [discriminate|].
    cbn [orb]. intros H. now rewrite IH.
Qed.

(** Joining lines that hold no separator and splitting the result gives
    the lines back. *)
Lemma split_join (c : ascii) (lines : list string) :
  lines <> [] -> Forall (fun line => hasChar c line = false) lines ->
  split c (join (String c "") lines) = lines.
Proof.
  induction lines as [|p rest IH]; [congruence|]. intros _ Hall.
  inversion Hall as [|? ? Hp Hrest]; subst.
  destruct rest as [|q rest]; [now apply split_plain|].
  rewrite join_cons.
  change (String c "" +:+ join (String c "") (q :: rest))
    with (String c (join (String c "") (q :: rest))).
  rewrite split_append by assumption. f_equal. apply IH; [discriminate | assumption].
Qed.
Lemma last_default {A : Type} (items : list A) (x d d' : A) :
  List.last (x :: items) d = List.last (x :: items) d'.
Proof.
  revert x. induction items as [|y items IH]; intros x; [reflexivity|].
  change (List.last (y :: items) d = List.last (y :: items) d'). apply IH.
Qed.

Lemma last_after {A : Type} (front back : list A) (x d : A) :
  List.last (front ++ x :: back) d = List.last back x.
Proof.
  induction front as [|y front IH].
  - cbn [app]. destruct back as [|z back]; [reflexivity|].
    change (List.last (z :: back) d = List.last (z :: back) x). apply last_default.
  - cbn [app List.last]. destruct (front ++ x :: back) eqn:E; [now destruct front|].
    exact IH.
Qed.

(* ================================================================== *)
(** * Further properties of the rendering *)
(* ================================================================== *)

Section Rendering.

Variable ext : Ext.
Variable options : AppCliOptions.

(** X1.  Every chat file has its section, once, whatever the dates are. *)
Theorem every_chat_has_one_section (title : string) (chatFiles : list string) :
  exists order,
    Permutation order chatFiles /\
    documentNodesOf ext title chatFiles options =
      documentHead ext title chatFiles options ++ flat_map (chatSection ext options) order.
Proof.
  exists (sortChatFilesByTime ext chatFiles). split; [|apply chat_loop].
  unfold sortChatFilesByTime.
  assert (Hmap : forall l : list string, map fst (map (fun f => (f, getChatStartTime ext f)) l) = l).
  { induction l as [|f l IH]; [reflexivity|]. cbn [map fst]. now rewrite IH. }
  rewrite <- (Hmap chatFiles) at 2.
  apply Permutation_map, arraySort_perm.
Qed.

(** X2.  A summary record and a system record are collapsed as a whole: their
    first node is a heading. *)
Theorem summary_and_system_are_collapsed :
  (forall summary,
     createChatEntryNodes ext (Summary summary) options =
       Ok [detailsNode ext "More..."
             [heading 2 "Summary"; paragraphOf (sum_summary summary)]]) /\
  (forall systemMsg,
     createChatEntryNodes ext (System systemMsg) options =
       Ok [detailsNode ext "More..."
             [heading 3 (formatTimestamp ext (sys_timestamp systemMsg));
              u2 "paragraph" (nodeArray
                [u2 "text" (JStr "ðŸ”§ "); u2 "strong" (nodeArray [u2 "text" (JStr "System")]);
                 u2 "text" (JStr (": " +:+ sys_content systemMsg))])]]).
Proof.
  split; intros; vm_compute; reflexivity.
Qed.

Lemma textValues_lineNodes (lines : list string) : textValues (lineNodes lines) = lines.
Proof.
  induction lines as [|line rest IH]; [reflexivity|].
  destruct rest as [|next rest]; [reflexivity|].
  change (lineNodes (line :: next :: rest))
    with (u2 "text" (JStr line) :: u1 "break" :: lineNodes (next :: rest)).
  unfold textValues in *. cbn [flat_map]. rewrite IH. reflexivity.
Qed.

Lemma lineNodes_kinds (lines : list string) :
  Forall (fun node => hasType node "text" = true \/ hasType node "break" = true)
         (lineNodes lines).
Proof.
  induction lines as [|line rest IH]; [constructor|].
  destruct rest as [|next rest]; [repeat constructor|].
  change (lineNodes (line :: next :: rest))
    with (u2 "text" (JStr line) :: u1 "break" :: lineNodes (next :: rest)).
  constructor; [now left|]. constructor; [now right|]. exact IH.
Qed.

(** X3.  A user record with a text: the time of the record as a heading, and
    a quotation of one paragraph whose text nodes are the lines of the
    text, a break between two.  An empty text gives nothing. *)
Theorem user_text_is_quoted (m : ChatMessage) (text : string) :
  cm_type m = T_user -> cm_content m = ContentString text ->
  (text = "" -> createChatEntryNodes ext (Chat m) options = Ok []) /\
  (text <> "" ->
   exists children,
     createChatEntryNodes ext (Chat m) options =
       Ok [heading 3 (formatTimestamp ext (cm_timestamp m));
           u2 "blockquote" (nodeArray [u2 "paragraph" (nodeArray children)])] /\
     Forall (fun node => hasType node "text" = true \/ hasType node "break" = true) children /\
     join nl (textValues children) = text).
Proof.
  intros Htype Hcontent. unfold createChatEntryNodes. rewrite Htype, Hcontent.
  unfold extractTextContentAsNodes, extractBlocks, blockNodes.
  cbn [textBlock b_type b_text]. split.
  - intros ->. reflexivity.
  - intros Hne. apply String.eqb_neq in Hne. rewrite Hne. cbn [bind app length Nat.eqb].
    exists (lineNodes (split (ascii_of_nat 10) text)). split; [reflexivity|].
    split; [apply lineNodes_kinds|].
    rewrite textValues_lineNodes. apply join_split.
Qed.

Lemma bind_ok {A : Type} (c : Result A) : (let* a := c in Ok a) = c.
Proof. now destruct c. Qed.

Lemma extractBlocks_shown (toolResults : option (gmap string string))
    (isAssistant : bool) (blocks : list ContentBlock) :
  extractBlocks ext toolResults isAssistant blocks =
  extractBlocks ext toolResults isAssistant (List.filter shownBlock blocks).
Proof.
  induction blocks as [|block rest IH]; [reflexivity|].
  cbn [List.filter extractBlocks]. unfold shownBlock at 1.
  destruct (b_type block) eqn:E; cbn [extractBlocks]; rewrite IH; try reflexivity.
  - unfold blockNodes. rewrite E. cbn [bind app]. apply bind_ok.
  - unfold blockNodes. rewrite E. cbn [bind app]. apply bind_ok.
Qed.

(** X4.  Thinking blocks and tool results leave no node: a message renders
    as the message without them, and a message that holds nothing else
    renders as nothing, without a heading. *)
Theorem hidden_blocks_are_skipped (blocks : list ContentBlock) :
  (forall toolResults isAssistant,
     extractTextContentAsNodes ext (ContentBlocks blocks) toolResults isAssistant =
       extractTextContentAsNodes ext (ContentBlocks (List.filter shownBlock blocks))
         toolResults isAssistant) /\
  (forall m,
     cm_content m = ContentBlocks blocks -> List.filter shownBlock blocks = [] ->
     createChatEntryNodes ext (Chat m) options = Ok []).
Proof.
  split; [intros; apply extractBlocks_shown|].
  intros m Hm Hnone. unfold createChatEntryNodes, extractTextContentAsNodes.
  rewrite Hm, extractBlocks_shown, Hnone. reflexivity.
Qed.

Lemma paragraphs_app (a b : list Obj) : paragraphs (a ++ b) = (paragraphs a + paragraphs b)%nat.
Proof. unfold paragraphs. now rewrite List.filter_app, length_app. Qed.

Lemma walkStep_invariant (w : Walk) (node : Obj) :
  walkInvariant w -> walkInvariant (walkStep w node).
Proof.
  intros [Hle Hcount]. unfold walkStep.
  destruct (shouldCollapse w) eqn:Hs.
  { split; [exact Hle | discriminate]. }
  specialize (Hcount eq_refl).
  destruct (hasType node "paragraph") eqn:Hp.
  - cbn [countParagraph paragraphCount].
    destruct (S (paragraphCount w) <=? 3)%nat eqn:Hc.
    + apply Nat.leb_le in Hc. unfold walkInvariant. cbn [pushVisible visibleNodes paragraphCount shouldCollapse countParagraph].
      rewrite paragraphs_app. unfold paragraphs at 2 4. cbn [List.filter]. rewrite Hp. cbn [length].
      split; [lia | intros _; lia].
    + split; [exact Hle | discriminate].
  - destruct (hasType node "heading"); [split; [exact Hle | discriminate]|].
    destruct (3 <=? paragraphCount w)%nat; [split; [exact Hle | discriminate]|].
    unfold walkInvariant. cbn [pushVisible visibleNodes paragraphCount shouldCollapse].
    rewrite paragraphs_app. unfold paragraphs at 2 4. cbn [List.filter]. rewrite Hp. cbn [length].
    split; [lia | intros _; lia].
Qed.

Lemma walk_invariant (nodes : list Obj) (w : Walk) :
  walkInvariant w -> walkInvariant (fold_left walkStep nodes w).
Proof.
  revert w. induction nodes as [|node rest IH]; intros w Hw; [exact Hw|].
  cbn [fold_left]. apply IH, walkStep_invariant, Hw.
Qed.

(** X5.  However long a message is, its output shows at most three
    paragraphs, and it has no more nodes than the message. *)
Theorem at_most_three_paragraphs_shown (contentNodes : list Obj) :
  exists output,
    processAssistantContent ext contentNodes = Ok output /\
    (paragraphs output <= 3)%nat /\
    (length output <= length contentNodes)%nat.
Proof.
  destruct (processAssistantContent_shape ext contentNodes)
    as (wrapper & Hout & Hlen & Hhtml & Hempty).
  exists (visibleNodes (walk contentNodes) ++ wrapper). split; [exact Hout|].
  destruct (walk_cut contentNodes walkStart) as (shown & hidden & Hcut & Hv & Hc & _).
  cbn [walkStart visibleNodes collapsedNodes app] in Hv, Hc. fold (walk contentNodes) in Hv, Hc.
  split.
  - rewrite paragraphs_app.
    assert (Hw : paragraphs wrapper = 0%nat).
    { unfold paragraphs. clear - Hhtml. induction Hhtml as [|node rest Hn _ IH]; [reflexivity|].
      cbn [List.filter]. rewrite (hasType_other node "html" "paragraph" Hn) by discriminate. exact IH. }
    rewrite Hw, Nat.add_0_r.
    apply (walk_invariant contentNodes walkStart). split; [cbn; lia | reflexivity].
  - rewrite Hv.
    assert (Hn : length contentNodes = (length shown + length hidden)%nat)
      by (rewrite Hcut; apply length_app).
    rewrite Hn, length_app. destruct hidden as [|h hidden].
    + rewrite (proj2 Hempty) by exact Hc. cbn [length]. lia.
    + cbn [length]. lia.
Qed.

Lemma processAssistantContent_returns (contentNodes : list Obj) :
  returns (processAssistantContent ext contentNodes).
Proof.
  destruct (processAssistantContent_shape ext contentNodes) as (wrapper & Hout & _).
  eexists. exact Hout.
Qed.

Lemma extractBlocks_returns (toolResults : option (gmap string string))
    (isAssistant : bool) (blocks : list ContentBlock) :
  Forall (fun block => expectedShapes (b_input block) = true)
         (List.filter (fun block => match b_type block with B_tool_use => true | _ => false end)
                      blocks) ->
  returns (extractBlocks ext toolResults isAssistant blocks).
Proof.
  induction blocks as [|block rest IH]; intros Hall; [eexists; reflexivity|].
  cbn [List.filter] in Hall. cbn [extractBlocks].
  assert (Hb : returns (blockNodes ext toolResults isAssistant block) /\
               Forall (fun block => expectedShapes (b_input block) = true)
                 (List.filter (fun block => match b_type block with B_tool_use => true | _ => false end)
                              rest)).
  { unfold blockNodes. destruct (b_type block) eqn:E.
    - split; [|exact Hall].
      destruct (b_text block) as [text|]; [|eexists; reflexivity].
      destruct (String.eqb text ""); [eexists; reflexivity|].
      destruct isAssistant; eexists; reflexivity.
    - inversion Hall as [|? ? Hshape Hrest]; subst. split; [|exact Hrest].
      assert (Hr : returns (createToolUseNodes ext block (resultFor toolResults block)))
        by (apply createToolUseNodes_returns; exact Hshape).
      destruct (b_text block); exact Hr.
    - split; [|exact Hall]. destruct (b_text block); eexists; reflexivity.
    - split; [|exact Hall]. destruct (b_text block); eexists; reflexivity. }
  destruct Hb as [[nodes Hn] Hrest]. destruct (IH Hrest) as [more Hm].
  rewrite Hn, Hm. eexists. reflexivity.
Qed.

Lemma wellShaped_returns (entry : ChatEntry) :
  wellShaped entry -> returns (createChatEntryNodes ext entry options).
Proof.
  intros Hshape. destruct entry as [m|s|s]; cbn [createChatEntryNodes];
    try apply processAssistantContent_returns.
  unfold wellShaped in Hshape. cbn [toolBlocks] in Hshape.
  assert (Hc : returns (extractTextContentAsNodes ext (cm_content m) (cm_toolResults m)
                          match cm_type m with T_assistant => true | T_user => false end)).
  { unfold extractTextContentAsNodes. destruct (cm_content m) as [text|blocks].
    - apply extractBlocks_returns. constructor.
    - apply extractBlocks_returns, Hshape. }
  destruct Hc as [contentNodes Hc]. rewrite Hc. cbn [bind].
  destruct (length contentNodes =? 0)%nat; [eexists; reflexivity|].
  destruct (cm_type m); [eexists; reflexivity | apply processAssistantContent_returns].
Qed.

Lemma toolBlocks_attach (toolResults : gmap string string) (entry : ChatEntry) :
  toolBlocks (attachToolResults toolResults entry) = toolBlocks entry.
Proof. destruct entry as [m| |]; try reflexivity. cbn. now destruct (cm_type m). Qed.

Lemma pushEntries_returns (entries : list ChatEntry) (documentNodes : list Obj) :
  Forall wellShaped entries ->
  snd (pushEntries ext options entries documentNodes) = None.
Proof.
  revert documentNodes. induction entries as [|entry rest IH]; intros documentNodes Hall;
    [reflexivity|].
  inversion Hall as [|? ? Hentry Hrest]; subst. cbn [pushEntries].
  destruct (wellShaped_returns entry Hentry) as [nodes Hn]. rewrite Hn. apply IH, Hrest.
Qed.

(** X6.  Rendering fails on tool parameters only.  A record whose tool
    invocations have parameters of the expected shapes is rendered; and
    the section of a chat file that can be read and holds such records
    only has no error paragraph. *)
Theorem rendering_fails_on_tool_parameters_only :
  (forall entry, wellShaped entry -> returns (createChatEntryNodes ext entry options)) /\
  (forall chatFile content,
     readTextFile ext chatFile = Ok content ->
     Forall wellShaped (decodeLines ext (jsonlLines content)) ->
     exists pushed,
       tryChat ext options chatFile [] = (pushed, None) /\
       chatSection ext options chatFile =
         heading 2 ("Chat: " +:+ basename ext chatFile) :: pushed ++ [u1 "thematicBreak"]).
Proof.
  split; [exact wellShaped_returns|].
  intros chatFile content Hread Hall.
  assert (Htry : snd (tryChat ext options chatFile []) = None).
  { unfold tryChat, parseClaudeChatFile. rewrite Hread. cbn [bind].
    apply pushEntries_returns. rewrite mergeToolResults_spec.
    apply List.Forall_forall. intros entry Hin. apply in_map_iff in Hin.
    destruct Hin as (e & <- & Hin). apply List.filter_In in Hin. destruct Hin as [Hin _].
    unfold wellShaped. rewrite toolBlocks_attach.
    exact (proj1 (List.Forall_forall _ _) Hall e Hin). }
  destruct (tryChat ext options chatFile []) as [pushed raised] eqn:E.
  cbn [snd] in Htry. subst raised. exists pushed. split; [reflexivity|].
  apply chatSection_done, E.
Qed.

(** The three statuses that are counted. *)
Lemma statusIs_one (t : JS) (s1 s2 : string) :
  statusIs t s1 = true -> s1 <> s2 -> statusIs t s2 = false.
Proof.
  unfold statusIs. destruct (member t "status") as [[| | |s| |]|]; try discriminate.
  intros H1 Hne. apply String.eqb_eq in H1. subst s. now apply String.eqb_neq.
Qed.

Lemma count_split (todos : list JS) :
  (length (List.filter (fun t => statusIs t "completed") todos)
   + length (List.filter (fun t => statusIs t "in_progress") todos)
   + length (List.filter (fun t => statusIs t "pending") todos)
   + length (List.filter (fun t => negb (knownStatus t)) todos))%nat = length todos.
Proof.
  induction todos as [|t rest IH]; [reflexivity|].
  cbn [List.filter length]. unfold knownStatus at 1.
  destruct (statusIs t "completed") eqn:Hc.
  - rewrite (statusIs_one t "completed" "in_progress" Hc) by discriminate.
    rewrite (statusIs_one t "completed" "pending" Hc) by discriminate.
    cbn [orb negb length]. lia.
  - destruct (statusIs t "in_progress") eqn:Hi.
    + rewrite (statusIs_one t "in_progress" "pending" Hi) by discriminate.
      cbn [orb negb length]. lia.
    + destruct (statusIs t "pending"); cbn [orb negb length]; lia.
Qed.

(** X7.  The summary of a todo list.  The label counts the todos of the
    three statuses, and the text handed to the parser has a line for
    every todo; a todo of any other status is shown with the glyph of a
    pending one and counted nowhere, so that the three counts add up to
    the number of lines exactly when every status is one of the three. *)
Theorem todo_counts (input : option JS) (todos : list JS) :
  optMember input "todos" = Some (JArr todos) ->
  existsb isNull todos = false ->
  let count (status : string) := length (List.filter (fun t => statusIs t status) todos) in
  describeTool ext "TodoWrite" input =
    Ok (createToolSummary "TodoWrite" (Some (DescString (
          "Updated todo list (" +:+ natToString (count "completed") +:+ " completed, "
          +:+ natToString (count "in_progress") +:+ " in progress, "
          +:+ natToString (count "pending") +:+ " pending)"))),
        parseMarkdown ext ("**Tasks:**" +:+ backslashBreak
                           +:+ join backslashBreak (map taskSummary todos))) /\
  length (map taskSummary todos) = length todos /\
  (count "completed" + count "in_progress" + count "pending"
   + length (List.filter (fun t => negb (knownStatus t)) todos))%nat = length todos /\
  (forall t, knownStatus t = false ->
             taskSummary t = "⏳ " +:+ optToString (member t "content")).
Proof.
  intros Htodos Hnull count. split; [|split; [|split]].
  - unfold describeTool. rewrite Htodos. cbn [optTruthy truthy andb].
    rewrite String.eqb_refl. cbn [andb].
    change (existsb (fun t => match t with JNull => true | _ => false end) todos)
      with (existsb isNull todos). rewrite Hnull. reflexivity.
  - apply length_map.
  - apply count_split.
  - intros t Hk. unfold knownStatus in Hk.
    apply orb_false_iff in Hk. destruct Hk as [Hk _].
    apply orb_false_iff in Hk. destruct Hk as [Hc Hi].
    unfold taskSummary. rewrite Hc, Hi. reflexivity.
Qed.

Lemma literal_text (s : string) :
  s <> "" -> textContent (valueText (JStr s)) = [DText s].
Proof.
  intros Hne. apply String.eqb_neq in Hne.
  unfold valueText, textContent. cbn [truthy ToString]. rewrite Hne. cbn [negb]. now rewrite Hne.
Qed.

Lemma inlineCode_element (s : string) :
  nodeToElement (JObj (u2 "inlineCode" (JStr s))) =
  Ok (Some (DElement "code" [] (textContent (valueText (JStr s))))).
Proof. reflexivity. Qed.

Lemma code_element (lang : JS) (s : string) :
  nodeToElement (JObj (u3 "code" [("lang", lang)] (JStr s))) =
  Ok (Some (DElement "pre" [] (textContent (valueText (JStr s))))).
Proof. reflexivity. Qed.

(** X8.  The label of a shell command: the command as inline code, or as a
    block of code when it has more than one line. *)
Theorem bash_label (input : option JS) (command : string) :
  optMember input "command" = Some (JStr command) -> command <> "" ->
  exists summary,
    describeTool ext "Bash" input = Ok (summary, []) /\
    unistToHtml summary =
      Ok ("🔧 <strong>Bash</strong>: "
          +:+ (if includes command nl
               then "<pre>" +:+ escapeHtml false command +:+ "</pre>"
               else "<code>" +:+ escapeHtml false command +:+ "</code>")).
Proof.
  intros Hcommand Hne. pose proof (literal_text command Hne) as Htext.
  apply String.eqb_neq in Hne.
  unfold describeTool. rewrite Hcommand.
  cbn [String.eqb Ascii.eqb Bool.eqb andb optTruthy truthy].
  rewrite Hne. cbn [negb andb createCodeNode bind].
  eexists. split; [reflexivity|].
  unfold unistToHtml, createToolSummary. cbn [app map nodesToElements].
  destruct (includes command nl).
  - rewrite code_element, Htext. vm_compute. reflexivity.
  - rewrite inlineCode_element, Htext. vm_compute. reflexivity.
Qed.

Lemma split_after (c : ascii) (a b : string) :
  exists first front, split c (a +:+ String c b) = first :: front ++ split c b.
Proof.
  induction a as [|x a IH].
  - exists "", []. change ("" +:+ String c b) with (String c b). cbn [split].
    now rewrite Ascii.eqb_refl.
  - change (String x a +:+ String c b) with (String x (a +:+ String c b)). cbn [split].
    destruct IH as (first & front & ->). destruct (Ascii.eqb x c).
    + exists "", (first :: front). reflexivity.
    + exists (String x first), front. reflexivity.
Qed.

Lemma split_last (c : ascii) (a b : string) :
  List.last (split c (a +:+ String c b)) "" = List.last (split c b) "".
Proof.
  destruct (split_after c a b) as (first & front & ->).
  destruct (split c b) as [|h t] eqn:E; [now apply split_nonempty in E|].
  change (first :: front ++ h :: t) with ((first :: front) ++ h :: t).
  rewrite last_after. symmetry. exact (last_after [] t h "").
Qed.

(** X9.  The label of a file tool shows the name of the file, not its path:
    what follows the last "/". *)
Theorem file_label_shows_the_file_name (input : option JS) (directory fileName : string) :
  optMember input "file_path" = Some (JStr (directory +:+ "/" +:+ fileName)) ->
  hasChar "/" fileName = false ->
  describeTool ext "Read" input =
    Ok (createToolSummary "Read"
          (Some (DescNodes [u2 "text" (JStr "Read file "); u2 "inlineCode" (JStr fileName)])), []) /\
  describeTool ext "Write" input =
    Ok (createToolSummary "Write"
          (Some (DescNodes [u2 "text" (JStr "Created file "); u2 "inlineCode" (JStr fileName)])), []) /\
  describeTool ext "Edit" input =
    Ok (createToolSummary "Edit"
          (Some (DescNodes [u2 "text" (JStr "Edited file "); u2 "inlineCode" (JStr fileName)])), []).
Proof.
  intros Hpath Hname.
  assert (Hfile : fileNameOf (JStr (directory +:+ "/" +:+ fileName)) = Ok fileName).
  { unfold fileNameOf. f_equal.
    change ("/" +:+ fileName) with (String "/" fileName).
    rewrite split_last, (split_plain "/" fileName Hname). reflexivity. }
  assert (Htruthy : truthy (JStr (directory +:+ "/" +:+ fileName)) = true).
  { cbn [truthy]. apply negb_true_iff, String.eqb_neq.
    destruct directory; discriminate. }
  unfold describeTool, fileDescription. rewrite Hpath. cbn [optTruthy]. rewrite Htruthy, Hfile.
  repeat split; reflexivity.
Qed.

(** X10.  The first time stamp is the start of the chat.  The start is the
    date of the first line that decodes to a record with a time stamp,
    also when that date is invalid; no later line and no fallback is
    looked at. *)
Theorem first_timestamp_wins (chatFile content : string) (before after : list string)
    (line : string) (entry : ChatEntry) (timestamp : string) :
  readTextFile ext chatFile = Ok content ->
  jsonlLines content = before ++ line :: after ->
  Forall (fun skipped =>
            forall e, decodeEntry ext skipped = Some e -> timestampOf e = None) before ->
  decodeEntry ext line = Some entry -> timestampOf entry = Some timestamp ->
  getChatStartTime ext chatFile = dateTime ext timestamp.
Proof.
  intros Hread Hlines Hbefore Hline Htime. unfold getChatStartTime. rewrite Hread, Hlines.
  replace (length (before ++ line :: after) =? 0)%nat with false
    by (symmetry; apply Nat.eqb_neq; rewrite length_app; cbn; lia).
  clear Hread Hlines. induction Hbefore as [|skipped rest Hskip _ IH].
  - cbn [app firstTimestamp]. now rewrite Hline, Htime.
  - cbn [app firstTimestamp]. destruct (decodeEntry ext skipped) as [e|] eqn:E; [|exact IH].
    now rewrite (Hskip e eq_refl).
Qed.

End Rendering.

(* ================================================================== *)
(** * Properties of the project on disk *)
(* ================================================================== *)

Section ProjectProperties.

Variable platform : Platform.

Lemma firstProject_exists (claudeProjectsDir : string) (variations : list string)
    (found : string) :
  firstProject platform claudeProjectsDir variations = Some found ->
  pathExists platform found = true /\
  exists variation,
    In variation variations /\ found = pathJoin platform [claudeProjectsDir; variation].
Proof.
  induction variations as [|variation rest IH]; [discriminate|].
  cbn [firstProject].
  destruct (pathExists platform (pathJoin platform [claudeProjectsDir; variation])) eqn:E.
  - intros [= <-]. split; [exact E|]. exists variation. split; [now left | reflexivity].
  - intros H. destruct (IH H) as (Hex & v & Hin & Hv).
    split; [exact Hex|]. exists v. split; [now right | exact Hv].
Qed.

(** X11.  A project that is detected exists, and it is a directory entry of
    [~/.claude/projects], which exists too; without HOME nothing is
    detected; and the directory named like the current one is preferred
    to every other candidate. *)
Theorem detected_project_exists :
  (forall found,
     detectCurrentProject platform = Some found ->
     exists homeDir entry,
       envHome platform = Some homeDir /\ homeDir <> "" /\
       pathExists platform (pathJoin platform [homeDir; ".claude"; "projects"]) = true /\
       found = pathJoin platform [pathJoin platform [homeDir; ".claude"; "projects"]; entry] /\
       pathExists platform found = true) /\
  (strTruthy (envHome platform) = false -> detectCurrentProject platform = None) /\
  (forall homeDir,
     envHome platform = Some homeDir -> homeDir <> "" ->
     let claudeProjectsDir := pathJoin platform [homeDir; ".claude"; "projects"] in
     let exactMatch := pathJoin platform [claudeProjectsDir; pathBasename platform (cwd platform)] in
     pathExists platform claudeProjectsDir = true ->
     pathExists platform exactMatch = true ->
     detectCurrentProject platform = Some exactMatch).
Proof.
  split; [|split].
  - intros found. unfold detectCurrentProject.
    destruct (envHome platform) as [homeDir|] eqn:Hhome; [|discriminate].
    cbn [strTruthy]. destruct (String.eqb_spec homeDir "") as [->|Hne]; [discriminate|].
    cbn [negb].
    set (dir := pathJoin platform [homeDir; ".claude"; "projects"]).
    destruct (pathExists platform dir) eqn:Hdir; [|discriminate]. cbn [negb].
    intros H. exists homeDir.
    destruct (pathExists platform (pathJoin platform [dir; pathBasename platform (cwd platform)])) eqn:E1.
    { injection H as <-. eexists. repeat split; eauto. }
    destruct (pathExists platform
                (pathJoin platform [dir; replaceAll slashOrDot "-" (cwd platform)])) eqn:E2.
    { injection H as <-. eexists. repeat split; eauto. }
    apply firstProject_exists in H. destruct H as (Hex & v & _ & ->).
    exists v. repeat split; auto.
  - intros H. unfold detectCurrentProject. now rewrite H.
  - intros homeDir Hhome Hne dir exactMatch Hdir Hexact. unfold detectCurrentProject.
    rewrite Hhome. cbn [strTruthy]. apply String.eqb_neq in Hne. rewrite Hne. cbn [negb].
    fold dir. rewrite Hdir. cbn [negb]. fold exactMatch. now rewrite Hexact.
Qed.

Lemma length_append (a b : string) :
  String.length (a +:+ b) = (String.length a + String.length b)%nat.
Proof.
  induction a as [|x a IH]; [reflexivity|].
  change (String x a +:+ b) with (String x (a +:+ b)). cbn [String.length]. now rewrite IH.
Qed.

Lemma substring_all (b : string) : String.substring 0 (String.length b) b = b.
Proof. induction b as [|x b IH]; [reflexivity|]. cbn [String.length String.substring]. now rewrite IH. Qed.

Lemma substring_append (a b : string) :
  String.substring (String.length a) (String.length b) (a +:+ b) = b.
Proof.
  induction a as [|x a IH]; [apply substring_all|].
  change (String x a +:+ b) with (String x (a +:+ b)). cbn [String.length String.substring].
  exact IH.
Qed.

Lemma endsWith_append (a b : string) : endsWith (a +:+ b) b = true.
Proof.
  unfold endsWith. rewrite length_append.
  replace (String.length a + String.length b - String.length b)%nat with (String.length a) by lia.
  rewrite substring_append, String.eqb_refl.
  apply andb_true_iff. split; [apply Nat.leb_le; lia | reflexivity].
Qed.

Lemma pushChatIds_spec (projectPath : string) (chatIds chatFiles : list string) :
  pushChatIds platform projectPath chatIds chatFiles =
  chatFiles ++ List.filter (pathExists platform)
                 (map (fun chatId => pathJoin platform [projectPath; chatId +:+ ".jsonl"]) chatIds).
Proof.
  revert chatFiles. induction chatIds as [|chatId rest IH]; intros chatFiles.
  - cbn. now rewrite app_nil_r.
  - cbn [pushChatIds map List.filter].
    destruct (pathExists platform (pathJoin platform [projectPath; chatId +:+ ".jsonl"])).
    + rewrite IH, <- app_assoc. reflexivity.
    + apply IH.
Qed.

Lemma pushDirEntries_spec (projectPath : string) (entries : list DirEntry)
    (chatFiles : list string) :
  pushDirEntries platform projectPath entries chatFiles =
  chatFiles ++ map (fun entry => pathJoin platform [projectPath; name entry])
                 (List.filter (fun entry => isFile entry && endsWith (name entry) ".jsonl") entries).
Proof.
  revert chatFiles. induction entries as [|entry rest IH]; intros chatFiles.
  - cbn. now rewrite app_nil_r.
  - cbn [pushDirEntries map List.filter].
    destruct (isFile entry && endsWith (name entry) ".jsonl").
    + rewrite IH, <- app_assoc. reflexivity.
    + apply IH.
Qed.

(** X12.  The chat files that are found.  The project directory exists; there
    is at least one file; each is the directory joined with a name that
    ends in ".jsonl"; with a list of ids, the files are those of the ids
    that exist, in the order of the ids, and each exists.  An empty list
    of ids selects nothing, which is an error, whatever the directory
    holds. *)
Theorem found_chat_files (projectPath : string) (chatIds : option (list string)) :
  (forall chatFiles,
     findChatFiles platform projectPath chatIds = Ok chatFiles ->
     pathExists platform projectPath = true /\
     chatFiles <> [] /\
     Forall (fun chatFile =>
               exists fileName,
                 chatFile = pathJoin platform [projectPath; fileName] /\
                 endsWith fileName ".jsonl" = true) chatFiles /\
     (forall ids,
        chatIds = Some ids ->
        chatFiles =
          List.filter (pathExists platform)
            (map (fun chatId => pathJoin platform [projectPath; chatId +:+ ".jsonl"]) ids) /\
        (length chatFiles <= length ids)%nat)) /\
  (chatIds = Some [] -> exists message, findChatFiles platform projectPath chatIds = Throw message).
Proof.
  split.
  - intros chatFiles. unfold findChatFiles.
    destruct (pathExists platform projectPath) eqn:Hex; [|discriminate]. cbn [negb].
    destruct chatIds as [ids|].
    + cbn [bind]. rewrite pushChatIds_spec. cbn [app].
      set (found := List.filter _ _).
      destruct found as [|f found'] eqn:E; [discriminate|]. cbn [length Nat.eqb].
      intros [= <-]. split; [reflexivity|]. split; [discriminate|]. split.
      * rewrite <- E. subst found. apply List.Forall_forall. intros chatFile Hin.
        apply List.filter_In in Hin. destruct Hin as [Hin _].
        apply in_map_iff in Hin. destruct Hin as (chatId & <- & _).
        exists (chatId +:+ ".jsonl"). split; [reflexivity | apply endsWith_append].
      * intros ids' [= <-]. split; [symmetry; exact E|].
        rewrite <- E. subst found.
        etransitivity; [apply List.filter_length_le|]. now rewrite length_map.
    + destruct (readDir platform projectPath) as [entries|message]; [|discriminate].
      cbn [bind]. rewrite pushDirEntries_spec. cbn [app].
      set (found := map _ _).
      destruct found as [|f found'] eqn:E; [discriminate|]. cbn [length Nat.eqb].
      intros [= <-]. split; [reflexivity|]. split; [discriminate|]. split.
      * rewrite <- E. subst found. apply List.Forall_forall. intros chatFile Hin.
        apply in_map_iff in Hin. destruct Hin as (entry & <- & Hin).
        apply List.filter_In in Hin. destruct Hin as [_ Hin].
        apply andb_true_iff in Hin. exists (name entry). split; [reflexivity | apply Hin].
      * intros ids' [=].
  - intros ->. unfold findChatFiles.
    destruct (pathExists platform projectPath); eexists; reflexivity.
Qed.


End ProjectProperties.

(* ================================================================== *)
(** * Properties of the line files *)
(* ================================================================== *)

Lemma dropSpace_printable (b : N) (r : list N) :
  (33 <= b <= 126)%N -> dropSpace (b :: r) = b :: r.
Proof.
  intros Hb. destruct b as [|p]; [lia|].
  do 7 (destruct p as [p|p|]; try lia; try reflexivity).
Qed.

Lemma dropSpaceRev_rest (c : N) (r bs : list N) (X : list N -> list N) :
  ((128 <=? c) && (c <=? 138) || (c =? 168) || (c =? 169) || (c =? 175))%N = false ->
  match r with
  | 128%N :: 226%N :: r' =>
      if ((128 <=? c) && (c <=? 138) || (c =? 168) || (c =? 169) || (c =? 175))%N
      then X r' else bs
  | _ => bs
  end = bs.
Proof.
  intros H. rewrite H.
  repeat match goal with
         | |- context [match ?x with _ => _ end] => destruct x
         end; reflexivity.
Qed.

Lemma dropSpaceRev_printable (b : N) (r : list N) :
  (33 <= b <= 126)%N -> dropSpaceRev (b :: r) = b :: r.
Proof.
  intros Hb.
  assert (Hc : ((128 <=? b) && (b <=? 138) || (b =? 168) || (b =? 169) || (b =? 175))%N = false).
  { repeat (apply orb_false_iff; split); try (apply N.eqb_neq; lia).
    apply andb_false_iff. left. apply N.leb_gt. lia. }
  destruct b as [|p]; [lia|].
  do 7 (destruct p as [p|p|]; try lia; try (apply (dropSpaceRev_rest _ r _ dropSpaceRev Hc))).
Qed.

Lemma stringOf_bytesOf (s : string) : stringOf (bytesOf s) = s.
Proof.
  unfold stringOf, bytesOf. rewrite map_map.
  rewrite (List.map_ext _ id) by (intros a; apply ascii_N_embedding).
  rewrite List.map_id. apply string_of_list_ascii_of_string.
Qed.

Lemma rev_last {A : Type} (c : A) (rest : list A) :
  rev (c :: rest) = List.last rest c :: rev (removelast (c :: rest)).
Proof.
  assert (H : c :: rest <> []) by discriminate.
  rewrite (app_removelast_last c H) at 1.
  rewrite rev_app_distr. cbn [rev app]. f_equal.
  destruct rest; reflexivity.
Qed.

(** A string that begins and ends with a printed character is its own
    trimming. *)
Lemma trim_printable (s : string) (c : ascii) (rest : list ascii) :
  list_ascii_of_string s = c :: rest ->
  printable c = true -> printable (List.last rest c) = true -> trim s = s.
Proof.
  intros Hs Hc Hl. unfold trim, bytesOf. rewrite Hs. cbn [map].
  unfold printable in Hc, Hl.
  apply andb_true_iff in Hc. destruct Hc as [Hc1 Hc2].
  apply andb_true_iff in Hl. destruct Hl as [Hl1 Hl2].
  apply N.leb_le in Hc1, Hc2, Hl1, Hl2.
  rewrite dropSpace_printable by lia.
  change (N_of_ascii c :: map N_of_ascii rest) with (map N_of_ascii (c :: rest)).
  rewrite <- map_rev, rev_last. cbn [map].
  rewrite dropSpaceRev_printable by lia.
  change (N_of_ascii (List.last rest c) :: map N_of_ascii (rev (removelast (c :: rest))))
    with (map N_of_ascii (List.last rest c :: rev (removelast (c :: rest)))).
  rewrite <- rev_last, map_rev, rev_involutive, <- Hs.
  apply stringOf_bytesOf.
Qed.

Lemma jsonLine_trim (s : string) : jsonLine s = true -> trim s = s /\ s <> "" /\
  hasChar (ascii_of_nat 10) s = false.
Proof.
  unfold jsonLine. destruct (list_ascii_of_string s) as [|c rest] eqn:E; [discriminate|].
  intros H. apply andb_true_iff in H. destruct H as [H Hnl].
  apply andb_true_iff in H. destruct H as [Hc Hl].
  split; [exact (trim_printable s c rest E Hc Hl)|]. split.
  - intros ->. discriminate.
  - now apply negb_true_iff in Hnl.
Qed.


Lemma list_ascii_append (a b : string) :
  list_ascii_of_string (a +:+ b) = list_ascii_of_string a ++ list_ascii_of_string b.
Proof.
  induction a as [|x a IH]; [reflexivity|].
  change (String x a +:+ b) with (String x (a +:+ b)). cbn [list_ascii_of_string app].
  now rewrite IH.
Qed.

Lemma join_edges (lines : list string) :
  lines <> [] -> Forall (fun line => jsonLine line = true) lines ->
  exists c rest,
    list_ascii_of_string (join nl lines) = c :: rest /\
    printable c = true /\ printable (List.last rest c) = true.
Proof.
  induction lines as [|p lines IH]; [congruence|]. intros _ Hall.
  inversion Hall as [|? ? Hp Hrest]; subst.
  assert (Hp' := Hp). unfold jsonLine in Hp'.
  destruct (list_ascii_of_string p) as [|c r] eqn:E; [discriminate|].
  apply andb_true_iff in Hp'. destruct Hp' as [Hp' _].
  apply andb_true_iff in Hp'. destruct Hp' as [Hc Hl].
  destruct lines as [|q lines].
  - exists c, r. cbn [join fold_left]. auto.
  - destruct (IH ltac:(discriminate) Hrest) as (c' & r' & E' & Hc' & Hl').
    rewrite join_cons, !list_ascii_append, E, E'.
    exists c, (r ++ list_ascii_of_string nl ++ c' :: r'). split; [reflexivity|].
    split; [exact Hc|].
    change (list_ascii_of_string nl) with [ascii_of_nat 10]. cbn [app].
    rewrite (last_after r (c' :: r') (ascii_of_nat 10) c).
    rewrite <- Hl'. f_equal. exact (last_after [] r' c' (ascii_of_nat 10)).
Qed.

(** The lines of a file that holds one written line per object are the
    written lines. *)
Lemma jsonlLines_join (lines : list string) :
  Forall (fun line => jsonLine line = true) lines ->
  jsonlLines (join nl lines) = lines.
Proof.
  intros Hall. destruct lines as [|p more]; [reflexivity|].
  remember (p :: more) as lines eqn:El.
  assert (Hne : lines <> []) by (subst; discriminate). clear El p more.
  unfold jsonlLines.
  destruct (join_edges lines Hne Hall) as (c & rest & E & Hc & Hl).
  rewrite (trim_printable _ c rest E Hc Hl).
  change nl with (String (ascii_of_nat 10) "").
  rewrite split_join.
  - clear - Hall. induction Hall as [|line more Hline _ IH]; [reflexivity|].
    cbn [List.filter]. destruct (jsonLine_trim line Hline) as (Ht & Hn & _).
    rewrite Ht. apply String.eqb_neq in Hn. rewrite Hn. cbn [negb]. now rewrite IH.
  - exact Hne.
  - eapply List.Forall_impl; [|exact Hall]. intros line Hline.
    apply (jsonLine_trim line Hline).
Qed.


Section JsonlProperties.

Context {T : Type}.
Variable decode : string -> Result T.
Variable stringify : T -> string.
Variable readText : string -> Result string.

(** The entries that the lines decode to, in order. *)
Lemma parseLoop_spec (filePath : string) (lines : list string) (index : nat)
    (entries : list T) (warnings : list string) :
  exists reported,
    parseLoop decode filePath index lines entries warnings =
      (entries ++ flat_map (fun line => match decode line with
                                        | Ok entry => [entry]
                                        | Throw _ => []
                                        end) lines,
       warnings ++ reported) /\
    length reported =
      length (List.filter (fun line => match decode line with
                                       | Ok _ => false
                                       | Throw _ => true
                                       end) lines).
Proof.
  revert index entries warnings.
  induction lines as [|line rest IH]; intros index entries warnings.
  - exists []. cbn. now rewrite !app_nil_r.
  - cbn [parseLoop flat_map List.filter]. destruct (decode line) as [entry|message].
    + destruct (IH (S index) (entries ++ [entry]) warnings) as (reported & -> & Hlen).
      exists reported. rewrite <- app_assoc. split; [reflexivity | exact Hlen].
    + destruct (IH (S index) entries (warnings ++ [parseFailure index filePath message]))
        as (reported & -> & Hlen).
      exists (parseFailure index filePath message :: reported).
      rewrite <- app_assoc. split; [reflexivity | cbn [length]; now rewrite Hlen].
Qed.

(** X13.  No line is dropped in silence.  Of the lines of a file that are not
    blank, each one that is decoded gives an entry, in the order of the
    lines, and each other one is reported: the entries and the warnings
    are as many as the lines. *)
Theorem every_line_is_decoded_or_reported (filePath content : string) :
  readText filePath = Ok content ->
  exists entries warnings,
    parseJsonlFile decode readText filePath = Ok (entries, warnings) /\
    entries = flat_map (fun line => match decode line with
                                    | Ok entry => [entry]
                                    | Throw _ => []
                                    end) (jsonlLines content) /\
    (length entries + length warnings)%nat = length (jsonlLines content).
Proof.
  intros Hread. unfold parseJsonlFile. rewrite Hread. cbn [bind].
  destruct (parseLoop_spec filePath (jsonlLines content) 0 [] []) as (reported & -> & Hlen).
  cbn [app]. do 2 eexists. split; [reflexivity|]. split; [reflexivity|].
  rewrite Hlen. clear. induction (jsonlLines content) as [|line rest IH]; [reflexivity|].
  cbn [flat_map List.filter]. destruct (decode line); cbn [app length]; lia.
Qed.

Lemma parseLoop_written (filePath : string) (objects : list T) (index : nat)
    (entries : list T) (warnings : list string) :
  Forall (fun object => decode (stringify object) = Ok object) objects ->
  parseLoop decode filePath index (map stringify objects) entries warnings =
    (entries ++ objects, warnings).
Proof.
  intros Hall. revert index entries.
  induction Hall as [|object rest Hobject _ IH]; intros index entries.
  - cbn. now rewrite app_nil_r.
  - cbn [map parseLoop]. rewrite Hobject, IH, <- app_assoc. reflexivity.
Qed.

(** X14.  Writing and reading back.  When every object is written as one
    line of JSON that decodes to the object, the file that
    [writeJsonlFile] writes is read by [parseJsonlFile] as the objects,
    in order and without a warning. *)
Theorem jsonl_round_trip (filePath content : string) (objects : list T) :
  Forall (fun object => jsonLine (stringify object) = true) objects ->
  Forall (fun object => decode (stringify object) = Ok object) objects ->
  writeJsonlFile stringify filePath objects = WriteTextFile filePath content ->
  readText filePath = Ok content ->
  parseJsonlFile decode readText filePath = Ok (objects, []).
Proof.
  intros Hlines Hdecode [= <-] Hread. unfold parseJsonlFile. rewrite Hread. cbn [bind].
  rewrite jsonlLines_join.
  - now rewrite parseLoop_written.
  - clear - Hlines. induction Hlines; constructor; assumption.
Qed.

Lemma streamLoop_collect (filePath : string) (lines : list string) (index : nat)
    (entries : list T) (warnings : list string) :
  streamLoop decode (fun entry _ collected => (collected ++ [entry], None))
    filePath index lines entries warnings =
  parseLoop decode filePath index lines entries warnings.
Proof.
  revert index entries warnings.
  induction lines as [|line rest IH]; intros index entries warnings; [reflexivity|].
  cbn [streamLoop parseLoop]. destruct (decode line); cbn [fst snd]; apply IH.
Qed.

Lemma streamLoop_app {State : Type} (processor : T -> nat -> State -> State * option string)
    (filePath : string) (front back : list string) (index : nat)
    (state : State) (warnings : list string) :
  streamLoop decode processor filePath index (front ++ back) state warnings =
  let done := streamLoop decode processor filePath index front state warnings in
  streamLoop decode processor filePath (index + length front) back (fst done) (snd done).
Proof.
  revert index state warnings.
  induction front as [|line rest IH]; intros index state warnings.
  - cbn. now rewrite Nat.add_0_r.
  - cbn [app streamLoop length]. replace (index + S (length rest))%nat with (S index + length rest)%nat by lia.
    destruct (decode line); apply IH.
Qed.

(** X15.  Streaming and parsing.  A processor that collects the entries
    gives what [parseJsonlFile] returns, warnings included.  Streaming
    goes on after a line, whatever happened on it: the lines after a
    point are streamed from the state and the warnings left at that
    point, under their own line numbers; and a processor that raises
    leaves a warning for the line and nothing else. *)
Theorem stream_visits_what_parse_returns (filePath : string) :
  streamJsonlFile decode readText filePath
    (fun entry _ collected => (collected ++ [entry], None)) [] =
  parseJsonlFile decode readText filePath /\
  (forall (State : Type) (processor : T -> nat -> State -> State * option string)
          front back index state warnings,
     streamLoop decode processor filePath index (front ++ back) state warnings =
     let done := streamLoop decode processor filePath index front state warnings in
     streamLoop decode processor filePath (index + length front) back (fst done) (snd done)) /\
  (forall (State : Type) (processor : T -> nat -> State -> State * option string)
          line entry index state warnings left message,
     decode line = Ok entry -> processor entry index state = (left, Some message) ->
     streamLoop decode processor filePath index [line] state warnings =
       (left, warnings ++ [parseFailure index filePath message])).
Proof.
  split; [|split].
  - unfold streamJsonlFile, parseJsonlFile. destruct (readText filePath); [|reflexivity].
    cbn [bind]. now rewrite streamLoop_collect.
  - intros. apply streamLoop_app.
  - intros State processor line entry index state warnings left message Hd Hp.
    cbn [streamLoop]. rewrite Hd, Hp. reflexivity.
Qed.

End JsonlProperties.


(** [parseClaudeChatFile] is [parseJsonlFile] with the schema as the
    validator, without the warnings. *)
Lemma parseClaudeChatFile_parseJsonlFile (ext : Ext) (decode : string -> Result ChatEntry)
    (filePath : string) :
  (forall line,
     decodeEntry ext line = match decode line with Ok entry => Some entry | Throw _ => None end) ->
  parseClaudeChatFile ext filePath =
    let* parsed := parseJsonlFile decode (readTextFile ext) filePath in Ok (fst parsed).
Proof.
  intros Hdecode. unfold parseClaudeChatFile, parseJsonlFile.
  destruct (readTextFile ext filePath) as [content|]; [|reflexivity]. cbn [bind].
  destruct (parseLoop_spec decode filePath (jsonlLines content) 0 [] []) as (reported & -> & _).
  cbn [fst app]. f_equal.
  induction (jsonlLines content) as [|line rest IH]; [reflexivity|].
  cbn [decodeLines flat_map]. rewrite Hdecode.
  destruct (decode line); cbn [app]; now rewrite IH.
Qed.

(* ================================================================== *)
(** * Properties of the metadata of a chat *)
(* ================================================================== *)

Section MetadataProperties.

Import ClaudeProject.

Variable numberToString : PrimFloat.float -> string.

Lemma withSessionId_nil (entries : list Entry) :
  withSessionId entries = [] <-> Forall (fun entry => entry = SummaryEntry) entries.
Proof.
  induction entries as [|entry rest IH]; [split; [constructor | reflexivity]|].
  destruct entry as [r|]; cbn.
  - split; [discriminate|]. intros H. inversion H; discriminate.
  - rewrite IH. split; [intros H; constructor; [reflexivity | exact H]|].
    intros H. now inversion H.
Qed.

(** X16.  The rows of the metadata.  A chat without a record that has a
    session id (an empty chat, or summaries only) has no metadata, and
    so no table; every other chat has these twelve rows, in this order. *)
Theorem metadata_rows (entries : list Entry) :
  (Forall (fun entry => entry = SummaryEntry) entries ->
   extractChatMetadata numberToString entries = [] /\
   createMetadataTableNodes (extractChatMetadata numberToString entries) = []) /\
  (~ Forall (fun entry => entry = SummaryEntry) entries ->
   map fst (extractChatMetadata numberToString entries) =
     ["Session ID"; "Working Directory"; "Claude Code Version"; "Start Time"; "End Time";
      "Total Messages"; "User Messages"; "Assistant Messages"; "Models Used";
      "Total Input Tokens"; "Total Output Tokens"; "Total Tokens"]).
Proof.
  rewrite <- withSessionId_nil. unfold extractChatMetadata.
  destruct (withSessionId entries) as [|firstEntry rest].
  - split; [intros _; split; reflexivity | congruence].
  - split; [discriminate | reflexivity].
Qed.

Lemma count_types (records : list SessionRecord) :
  (length (List.filter (isType R_user) records)
   + length (List.filter (isType R_assistant) records)
   + length (List.filter (isType R_system) records))%nat = length records.
Proof.
  induction records as [|r rest IH]; [reflexivity|].
  cbn [List.filter length].
  destruct (isType R_user r) eqn:Hu, (isType R_assistant r) eqn:Ha, (isType R_system r) eqn:Hs;
    cbn [length]; try lia; exfalso; unfold isType in Hu, Ha, Hs; destruct (type r); discriminate.
Qed.

Lemma count_entries (entries : list Entry) :
  (length (withSessionId entries)
   + length (List.filter (fun entry => match entry with SummaryEntry => true | _ => false end)
                         entries))%nat = length entries.
Proof.
  induction entries as [|entry rest IH]; [reflexivity|].
  unfold withSessionId in *. destruct entry; cbn [flat_map app List.filter length]; lia.
Qed.

(** X17.  The three counts.  "Total Messages" counts every entry of the chat,
    the summaries and the system records too, so that it is the sum of
    "User Messages" and "Assistant Messages" only for a chat that has
    neither. *)
Theorem message_counts (entries : list Entry) :
  let records := withSessionId entries in
  let users := length (List.filter (isType R_user) records) in
  let assistants := length (List.filter (isType R_assistant) records) in
  let systems := length (List.filter (isType R_system) records) in
  let summaries :=
    length (List.filter (fun entry => match entry with SummaryEntry => true | _ => false end)
                        entries) in
  (extractChatMetadata numberToString entries <> [] ->
   In ("Total Messages", natToString (length entries)) (extractChatMetadata numberToString entries) /\
   In ("User Messages", natToString users) (extractChatMetadata numberToString entries) /\
   In ("Assistant Messages", natToString assistants) (extractChatMetadata numberToString entries)) /\
  (users + assistants + systems + summaries)%nat = length entries.
Proof.
  intros records users assistants systems summaries. split.
  - subst users assistants records. unfold extractChatMetadata.
    destruct (withSessionId entries) as [|firstEntry rest]; [congruence|]. intros _.
    repeat split; cbn [In]; auto 12.
  - subst users assistants systems summaries.
    rewrite count_types. apply count_entries.
Qed.

Lemma addUsage_sums (records : list SessionRecord) (totals : PrimFloat.float * PrimFloat.float) :
  fold_left addUsage records totals =
  (tokensFrom (fst totals)
     (flat_map (fun msg => match usage msg with
                           | Some u => [input_tokens u]
                           | None => []
                           end) records),
   tokensFrom (snd totals)
     (flat_map (fun msg => match usage msg with
                           | Some u => [output_tokens u]
                           | None => []
                           end) records)).
Proof.
  revert totals. induction records as [|msg rest IH]; intros [i o]; [reflexivity|].
  cbn [fold_left flat_map]. rewrite IH. unfold addUsage, tokensFrom.
  destruct (usage msg) as [u|]; reflexivity.
Qed.

Lemma countersOf_app (counter : Usage -> PrimFloat.float) (before after : list Entry) :
  countersOf counter (before ++ after) = countersOf counter before ++ countersOf counter after.
Proof.
  unfold countersOf, withSessionId. now rewrite flat_map_app, List.filter_app, flat_map_app.
Qed.

(** X18.  The token counts.  The two totals are the counters of the
    assistant records that have a usage, added up as doubles from the
    first record to the last, and "Total Tokens" is the sum of the two.
    The totals of a chat are those of its first part carried on over the
    rest, and an entry without a counter leaves them as they are. *)
Theorem token_totals (entries : list Entry) :
  (extractChatMetadata numberToString entries <> [] ->
   In ("Total Input Tokens", numberToString (tokensOf input_tokens entries))
      (extractChatMetadata numberToString entries) /\
   In ("Total Output Tokens", numberToString (tokensOf output_tokens entries))
      (extractChatMetadata numberToString entries) /\
   In ("Total Tokens",
       numberToString (PrimFloat.add (tokensOf input_tokens entries)
                                     (tokensOf output_tokens entries)))
      (extractChatMetadata numberToString entries)) /\
  (forall counter before after,
     tokensOf counter (before ++ after) =
       tokensFrom (tokensOf counter before) (countersOf counter after)) /\
  (forall counter before entry after,
     countersOf counter [entry] = [] ->
     tokensOf counter (before ++ entry :: after) = tokensOf counter (before ++ after)).
Proof.
  split; [|split].
  - unfold extractChatMetadata, tokensOf, countersOf.
    destruct (withSessionId entries) as [|firstEntry rest]; [congruence|]. intros _.
    rewrite addUsage_sums. cbn [fst snd].
    repeat split; cbn [In]; auto 15.
  - intros counter before after. unfold tokensOf, tokensFrom.
    now rewrite countersOf_app, fold_left_app.
  - intros counter before entry after Hnone. unfold tokensOf.
    change (entry :: after) with ([entry] ++ after).
    now rewrite !countersOf_app, Hnone.
Qed.

Lemma setAdd_spec (items set : list string) :
  List.NoDup set ->
  List.NoDup (fold_left setAdd items set) /\
  (forall m, In m (fold_left setAdd items set) <-> In m set \/ In m items).
Proof.
  revert set. induction items as [|item rest IH]; intros set Hset.
  - cbn. split; [exact Hset | tauto].
  - cbn [fold_left]. unfold setAdd at 2 4.
    destruct (existsb (String.eqb item) set) eqn:E.
    + destruct (IH set Hset) as [Hn Hin]. split; [exact Hn|].
      intros m. rewrite Hin. cbn [In]. split; [tauto|]. intros [H|[<-|H]]; auto.
      left. apply existsb_exists in E. destruct E as (x & Hx & Heq).
      apply String.eqb_eq in Heq. now subst.
    + assert (Hnot : ~ In item set).
      { intros Hin. assert (Ht : existsb (String.eqb item) set = true).
        { apply existsb_exists. exists item. split; [exact Hin | apply String.eqb_refl]. }
        congruence. }
      assert (Hset' : List.NoDup (set ++ [item])).
      { clear - Hset Hnot. induction Hset as [|x set Hx Hset IH].
        - constructor; [intros [] | constructor].
        - cbn [app]. constructor.
          + rewrite in_app_iff. cbn [In] in *. intros [H|[H|[]]]; [now apply Hx|].
            apply Hnot. now left.
          + apply IH. intros H. apply Hnot. now right. }
      destruct (IH _ Hset') as [Hn Hin]. split; [exact Hn|].
      intros m. rewrite Hin, in_app_iff. cbn [In]. tauto.
Qed.

Lemma join_empty (sep : string) (parts : list string) :
  Forall (fun part => part <> "") parts -> (join sep parts = "" <-> parts = []).
Proof.
  intros Hall. destruct parts as [|p rest]; [tauto|]. split; [|discriminate].
  inversion Hall as [|? ? Hp _]; subst. destruct p as [|a p]; [congruence|].
  rewrite join_first. discriminate.
Qed.

Lemma modelsOf_spec (records : list SessionRecord) (m : string) :
  In m (modelsOf records) <-> m <> "" /\ exists msg, In msg records /\ model msg = Some m.
Proof.
  unfold modelsOf. rewrite in_flat_map. split.
  - intros (msg & Hin & Hm). destruct (model msg) as [x|] eqn:E; [|contradiction].
    destruct (String.eqb_spec x "") as [->|Hne]; [contradiction|].
    destruct Hm as [<-|[]]. split; [exact Hne|]. exists msg. auto.
  - intros (Hne & msg & Hin & Hm). exists msg. split; [exact Hin|]. rewrite Hm.
    apply String.eqb_neq in Hne. rewrite Hne. now left.
Qed.

(** X19.  The models.  The row lists every model that an assistant record
    names, once, and nothing else; it reads "Unknown" exactly when no
    assistant record names a model. *)
Theorem models_used (entries : list Entry) :
  extractChatMetadata numberToString entries <> [] ->
  exists models,
    List.NoDup models /\
    (forall m, In m models <-> namesModel entries m) /\
    In ("Models Used", match models with [] => "Unknown" | _ => join ", " models end)
       (extractChatMetadata numberToString entries).
Proof.
  unfold extractChatMetadata.
  destruct (withSessionId entries) as [|firstEntry rest] eqn:E; [congruence|]. intros _.
  rewrite <- E. set (assistants := List.filter (isType R_assistant) (withSessionId entries)).
  destruct (setAdd_spec (modelsOf assistants) [] (List.NoDup_nil _)) as [Hnodup Hin].
  fold (newSet (modelsOf assistants)) in Hnodup, Hin.
  exists (newSet (modelsOf assistants)). split; [exact Hnodup|]. split.
  - intros m. rewrite Hin, modelsOf_spec. cbn [In]. unfold namesModel, assistants. split.
    + intros [[]|(Hne & msg & Hmsg & Hm)]. split; [exact Hne|]. exists msg.
      apply List.filter_In in Hmsg. destruct Hmsg as [Hmsg Ht]. repeat split; auto.
      unfold withSessionId in Hmsg. apply in_flat_map in Hmsg.
      destruct Hmsg as ([r|] & Hr & Hx); [|contradiction]. destruct Hx as [<-|[]]. exact Hr.
    + intros (Hne & msg & Hmsg & Ht & Hm). right. split; [exact Hne|]. exists msg.
      split; [|exact Hm]. apply List.filter_In. split; [|exact Ht].
      unfold withSessionId. apply in_flat_map. exists (WithSession msg). split; [exact Hmsg | now left].
  - assert (Hall : Forall (fun part => part <> "") (newSet (modelsOf assistants))).
    { apply List.Forall_forall. intros m Hm. apply Hin in Hm. destruct Hm as [[]|Hm].
      now apply modelsOf_spec in Hm. }
    pose proof (join_empty ", " _ Hall) as Hj.
    destruct (newSet (modelsOf assistants)) as [|m ms] eqn:En.
    + cbn [In]. auto 12.
    + destruct (String.eqb_spec (join ", " (m :: ms)) "") as [Heq|Hne].
      { apply Hj in Heq. discriminate. }
      cbn [In]. do 8 right. left. reflexivity.
Qed.


End MetadataProperties.

(* ================================================================== *)
(** * Properties of the format of a time *)
(* ================================================================== *)

Section TimestampProperties.

Import ClaudeFormatting.

Lemma in_range (P : Z -> bool) (lo n : nat) (z : Z) :
  forallb (fun k => P (Z.of_nat k)) (seq lo n) = true ->
  (Z.of_nat lo <= z < Z.of_nat (lo + n))%Z -> P z = true.
Proof.
  intros Hall Hz. rewrite forallb_forall in Hall.
  replace z with (Z.of_nat (Z.to_nat z)) by lia. apply Hall, in_seq. lia.
Qed.

Lemma padded_two (z : Z) :
  (0 <= z < 100)%Z -> twoDigits (padStart2 (numberString (Some z))) = true.
Proof.
  intros Hz. apply (in_range (fun z => twoDigits (padStart2 (numberString (Some z)))) 0 100);
    [vm_compute; reflexivity | lia].
Qed.

Lemma printed_four (z : Z) :
  (1000 <= z < 10000)%Z -> fourDigits (numberString (Some z)) = true.
Proof.
  intros Hz. apply (in_range (fun z => fourDigits (numberString (Some z)))
                            (Z.to_nat 1000) (Z.to_nat 9000));
    [vm_compute; reflexivity | lia].
Qed.

(** X20.  The format of a time.  A time of the calendar is printed in the
    pattern "YYYY-MM-DD HH:MM +HH:MM" (the sign may be "-"), which is
    the pattern of the test; an invalid date is printed, without an
    error, as a text that is not in the pattern. *)
Theorem timestamp_pattern :
  (forall d, calendarTime d -> matches timestampPattern (formatTimestamp (Some d)) = true) /\
  formatTimestamp None = "NaN-NaN-NaN NaN:NaN -NaN:NaN" /\
  matches timestampPattern (formatTimestamp None) = false.
Proof.
  split; [|split; reflexivity].
  intros d (Hy & Hmo & Hd & Hh & Hmi & Ho).
  unfold formatTimestamp. cbn [option_map].
  pose proof (printed_four (getFullYear d) ltac:(lia)) as Py.
  pose proof (padded_two (getMonth d + 1) ltac:(lia)) as Pmo.
  pose proof (padded_two (getDate d) ltac:(lia)) as Pd.
  pose proof (padded_two (getHours d) ltac:(lia)) as Ph.
  pose proof (padded_two (getMinutes d) ltac:(lia)) as Pmi.
  pose proof (padded_two (Z.abs (getTimezoneOffset d) / 60)
                ltac:(split; [apply Z.div_pos; lia | apply Z.div_lt_upper_bound; lia])) as Poh.
  pose proof (padded_two (Z.abs (getTimezoneOffset d) mod 60)
                ltac:(pose proof (Z.mod_pos_bound (Z.abs (getTimezoneOffset d)) 60); lia)) as Pom.
  destruct (numberString (Some (getFullYear d))) as [|y1 [|y2 [|y3 [|y4 [|]]]]]; try discriminate.
  destruct (padStart2 (numberString (Some (getMonth d + 1)%Z))) as [|m1 [|m2 [|]]]; try discriminate.
  destruct (padStart2 (numberString (Some (getDate d)))) as [|d1 [|d2 [|]]]; try discriminate.
  destruct (padStart2 (numberString (Some (getHours d)))) as [|h1 [|h2 [|]]]; try discriminate.
  destruct (padStart2 (numberString (Some (getMinutes d)))) as [|i1 [|i2 [|]]]; try discriminate.
  destruct (padStart2 (numberString (Some (Z.abs (getTimezoneOffset d) / 60)%Z)))
    as [|o1 [|o2 [|]]]; try discriminate.
  destruct (padStart2 (numberString (Some (Z.abs (getTimezoneOffset d) mod 60)%Z)))
    as [|p1 [|p2 [|]]]; try discriminate.
  cbn [twoDigits fourDigits] in *.
  repeat match goal with
         | H : _ && _ = true |- _ => apply andb_true_iff in H; destruct H
         end.
  destruct (getTimezoneOffset d <=? 0)%Z;
    cbv [String.append matches timestampPattern];
    repeat match goal with
           | H : isDigit _ = true |- _ => rewrite H; clear H
           end; reflexivity.
Qed.


(** X21.  The offset that is printed.  After the local time come a sign and
    the hours and minutes of the offset of the local time from UTC,
    which is the opposite of what [getTimezoneOffset] returns: "+" for
    UTC itself and the zones east of it, "-" for those west of it. *)
Theorem printed_offset (d : LocalTime) :
  exists localTime sign hours minutes,
    formatTimestamp (Some d) =
      localTime +:+ " " +:+ sign +:+ padStart2 (numberString (Some hours)) +:+ ":"
      +:+ padStart2 (numberString (Some minutes)) /\
    (0 <= hours)%Z /\ (0 <= minutes < 60)%Z /\
    ((sign = "+" /\ (60 * hours + minutes = - getTimezoneOffset d)%Z) \/
     (sign = "-" /\ (- (60 * hours + minutes) = - getTimezoneOffset d)%Z /\
      (0 < getTimezoneOffset d)%Z)).
Proof.
  set (offset := getTimezoneOffset d).
  exists (numberString (Some (getFullYear d)) +:+ "-"
          +:+ padStart2 (numberString (Some (getMonth d + 1)%Z)) +:+ "-"
          +:+ padStart2 (numberString (Some (getDate d))) +:+ " "
          +:+ padStart2 (numberString (Some (getHours d))) +:+ ":"
          +:+ padStart2 (numberString (Some (getMinutes d)))),
         (if (offset <=? 0)%Z then "+" else "-"),
         (Z.abs offset / 60)%Z, (Z.abs offset mod 60)%Z.
  split; [|split; [|split]].
  - unfold formatTimestamp. cbn [option_map]. fold offset. rewrite !append_assoc. reflexivity.
  - apply Z.div_pos; lia.
  - apply Z.mod_pos_bound. lia.
  - pose proof (Z.div_mod (Z.abs offset) 60 ltac:(lia)) as Hdm.
    destruct (Z.leb_spec offset 0); [left | right]; (split; [reflexivity|]); lia.
Qed.

End TimestampProperties.


(* ================================================================== *)
(** * Properties of the exports and of the command line *)
(* ================================================================== *)

(** X22.  The project name of the export table.  The name is taken from the
    base name of the first chat file, as the part before the last one
    when the base name is split at "/"; a base name holds no "/", so
    the name is always "Chat". *)
Theorem project_name_is_chat (base : string) :
  hasChar "/" base = false -> exportProjectName base = "Chat".
Proof.
  intros H. unfold exportProjectName. rewrite (split_plain "/" base H). reflexivity.
Qed.

Section AppProperties.

Variable ext : Ext.
Variable platform : Platform.

Lemma sort_one (chatFile : string) : sortChatFilesByTime ext [chatFile] = [chatFile].
Proof. reflexivity. Qed.

(** X23.  The export of one chat.  The document is the title and the section
    of the chat, without a table of the export; it is made also when the
    file cannot be read, with the error in the section.  A run on a chat
    file prints the document and ends with exit code 0 when there is no
    output file; with an output file it ends with exit code 0 when the
    file is written, and with the error of the write and exit code 1 when
    it is not. *)
Theorem single_chat_export (chatPath : string) :
  (forall options,
     exportChat ext platform chatPath options =
       outputResult platform options (chatDocument ext options chatPath)) /\
  (forall options message,
     readTextFile ext chatPath = Throw message ->
     chatDocument ext options chatPath =
       stringifyMarkdown ext
         [heading 1 (basename ext chatPath +:+ " - Claude Code Chat Export");
          heading 2 ("Chat: " +:+ basename ext chatPath); errorParagraph message;
          u1 "thematicBreak"]) /\
  (forall options,
     cli_help options = false -> cli_input options = Some chatPath ->
     endsWith chatPath ".jsonl" = true ->
     let document := chatDocument ext (appOptions options) chatPath in
     (strTruthy (cli_output options) = false ->
      entryPoint ext platform options = (inl (Exported (ConsoleLog document)), 0%Z)) /\
     (forall output,
        cli_output options = Some output -> output <> "" ->
        writeTextFile platform output document = Ok tt ->
        entryPoint ext platform options =
          (inl (Exported (WriteTextFile output document)), 0%Z)) /\
     (forall output message,
        cli_output options = Some output -> output <> "" ->
        writeTextFile platform output document = Throw message ->
        entryPoint ext platform options = (inr ("Error: " +:+ message), 1%Z))).
Proof.
  assert (Hdoc : forall options,
            exportChat ext platform chatPath options =
              outputResult platform options (chatDocument ext options chatPath)).
  { intros options. unfold exportChat, chatDocument, buildMarkdownDocument, documentNodesOf.
    rewrite sort_one, chat_loop. cbn [documentHead length Nat.ltb Nat.leb flat_map app].
    now rewrite app_nil_r. }
  split; [exact Hdoc|split].
  - intros options message Hread. unfold chatDocument.
    rewrite (chatSection_raised ext options chatPath [] message); [reflexivity|].
    unfold tryChat, parseClaudeChatFile. now rewrite Hread.
  - intros options Hhelp Hinput Hsuffix document.
    assert (Hrun : entryPoint ext platform options =
                   match outputResult platform (appOptions options) document with
                   | Ok effect => (inl (Exported effect), 0%Z)
                   | Throw message => (inr ("Error: " +:+ message), 1%Z)
                   end).
    { unfold entryPoint, main, resolveInputPath.
      rewrite Hhelp, Hinput. cbn [strTruthy].
      assert (Hne : String.eqb chatPath "" = false).
      { destruct chatPath; [discriminate | reflexivity]. }
      rewrite Hne. cbn [negb andb orb]. rewrite Hsuffix. cbn [bind fst snd].
      rewrite Hdoc. fold document.
      destruct (outputResult platform (appOptions options) document); reflexivity. }
    rewrite Hrun. unfold outputResult, appOptions. cbn [opt_output].
    split; [|split].
    + intros Hnone. now rewrite Hnone.
    + intros output Hout Hne Hwrite. apply String.eqb_neq in Hne.
      rewrite Hout. cbn [strTruthy]. rewrite Hne. cbn [negb]. now rewrite Hwrite.
    + intros output message Hout Hne Hwrite. apply String.eqb_neq in Hne.
      rewrite Hout. cbn [strTruthy]. rewrite Hne. cbn [negb]. now rewrite Hwrite.
Qed.

(** X24.  A project directory that does not exist.  The run prints the error
    of [findChatFiles] and ends with exit code 1, whatever else the
    options say. *)
Theorem missing_project_is_an_error (options : CliOptions) (projectPath : string) :
  cli_help options = false -> cli_input options = Some projectPath ->
  projectPath <> "" -> endsWith projectPath ".jsonl" = false ->
  pathExists platform projectPath = false ->
  entryPoint ext platform options =
    (inr ("Error: Project directory not found: " +:+ projectPath), 1%Z).
Proof.
  intros Hhelp Hinput Hne Hsuffix Hex. apply String.eqb_neq in Hne.
  unfold entryPoint, main, resolveInputPath. rewrite Hhelp, Hinput. cbn [strTruthy].
  rewrite Hne. cbn [negb andb orb]. rewrite Hsuffix. cbn [bind fst snd].
  unfold exportProject, findChatFiles. rewrite Hex. reflexivity.
Qed.

(** X25.  What the input decides.  The help is shown exactly when it is asked
    for or there is neither an input nor the flag of the current
    project; in every other run the path is resolved without the error
    of a missing input; and an input that is given is taken as it is, a
    chat when it ends in ".jsonl" and a project otherwise, without a look
    at the current directory. *)
Theorem input_decides_the_export (options : CliOptions) :
  (main ext platform options = Ok ShowHelp <->
   cli_help options = true \/
   (strTruthy (cli_input options) = false /\ cli_currentProject options = false)) /\
  (main ext platform options <> Ok ShowHelp ->
   resolveInputPath platform options <> Throw noInputProvided) /\
  (forall input,
     cli_input options = Some input -> input <> "" ->
     forall other : Platform,
       resolveInputPath other options =
         Ok (if endsWith input ".jsonl" then chat else project, input)).
Proof.
  assert (Hhelp : cli_help options || (negb (strTruthy (cli_input options))
                                       && negb (cli_currentProject options)) = true <->
                  cli_help options = true \/
                  (strTruthy (cli_input options) = false /\ cli_currentProject options = false)).
  { destruct (cli_help options), (strTruthy (cli_input options)), (cli_currentProject options);
      cbn; intuition discriminate. }
  split; [|split].
  - rewrite <- Hhelp. unfold main.
    destruct (cli_help options || _); [tauto|].
    split; [|discriminate]. intros H. exfalso.
    destruct (resolveInputPath platform options) as [[[|] path]|]; cbn [bind fst snd] in H.
    + destruct (exportProject ext platform path (appOptions options)); discriminate.
    + destruct (exportChat ext platform path (appOptions options)); discriminate.
    + discriminate.
  - intros Hmain. unfold main in Hmain.
    destruct (cli_help options || _) eqn:E; [congruence|].
    apply orb_false_iff in E. destruct E as [_ E].
    unfold resolveInputPath.
    destruct (strTruthy (cli_input options)); cbn [negb andb] in *.
    + destruct (endsWith _ _); discriminate.
    + apply negb_false_iff in E. rewrite E.
      destruct (detectCurrentProject platform); [discriminate|].
      unfold noProjectFound, noInputProvided. discriminate.
  - intros input Hinput Hne other. apply String.eqb_neq in Hne.
    unfold resolveInputPath. rewrite Hinput. cbn [strTruthy]. rewrite Hne. cbn [negb andb].
    destruct (endsWith input ".jsonl"); reflexivity.
Qed.

(** X26.  The rows of the export table for a list of chat ids.  "Exported
    Chats" is the number of ids that were asked for and "Total Chat
    Files" the number of files that were found for them, which is the
    smaller when an id has no file. *)
Theorem exported_chats_are_the_requested (projectPath : string) (ids chatFiles : list string)
    (options : AppCliOptions) :
  opt_chats options = Some ids ->
  findChatFiles platform projectPath (opt_chats options) = Ok chatFiles ->
  In ("Total Chat Files", natToString (length chatFiles))
     (createExportMetadata ext "Chat" chatFiles options) /\
  In ("Exported Chats", natToString (length ids))
     (createExportMetadata ext "Chat" chatFiles options) /\
  (length chatFiles <= length ids)%nat /\
  (length chatFiles = length ids <->
   Forall (fun chatId => pathExists platform (pathJoin platform [projectPath; chatId +:+ ".jsonl"]) = true) ids).
Proof.
  intros Hchats Hfound. rewrite Hchats in Hfound.
  assert (Hfiles : chatFiles =
            List.filter (pathExists platform)
              (map (fun chatId => pathJoin platform [projectPath; chatId +:+ ".jsonl"]) ids)).
  { unfold findChatFiles in Hfound.
    destruct (pathExists platform projectPath); [|discriminate].
    cbn [negb bind] in Hfound. rewrite pushChatIds_spec in Hfound. cbn [app] in Hfound.
    destruct (length _ =? 0)%nat; [discriminate|]. now injection Hfound as <-. }
  unfold createExportMetadata. rewrite Hchats. cbn [In].
  split; [auto 8|]. split; [auto 8|].
  assert (Hle : forall chatIds : list string,
            (length (List.filter (pathExists platform)
                       (map (fun chatId => pathJoin platform [projectPath; chatId +:+ ".jsonl"])
                            chatIds)) <= length chatIds)%nat).
  { intros chatIds. etransitivity; [apply List.filter_length_le|]. now rewrite length_map. }
  rewrite Hfiles. split; [apply Hle|].
  clear - Hle. induction ids as [|chatId rest IH].
  - split; [constructor | reflexivity].
  - cbn [map List.filter].
    destruct (pathExists platform (pathJoin platform [projectPath; chatId +:+ ".jsonl"])) eqn:E.
    + cbn [length]. split.
      * intros H. constructor; [exact E|]. apply IH. lia.
      * intros H. inversion H; subst. f_equal. now apply IH.
    + split.
      * intros H. exfalso. specialize (Hle rest). cbn [length] in H. lia.
      * intros H. inversion H; subst. congruence.
Qed.

End AppProperties.

(* ================================================================== *)
(** * Further properties of the labels and of the tables *)
(* ================================================================== *)

Lemma concat_app (before after : list string) :
  String.concat "" (before ++ after) = String.concat "" before +:+ String.concat "" after.
Proof.
  induction before as [|x before IH]; [reflexivity|].
  destruct before as [|y before].
  - cbn [app]. destruct after as [|z after].
    + cbn [String.concat]. now rewrite append_empty.
    + reflexivity.
  - change (String.concat "" ((x :: y :: before) ++ after))
      with (x +:+ "" +:+ String.concat "" ((y :: before) ++ after)).
    change (String.concat "" (x :: y :: before))
      with (x +:+ "" +:+ String.concat "" (y :: before)).
    rewrite IH. change ("" +:+ ?s) with s. now rewrite append_assoc.
Qed.

Lemma nodesToElements_raises (before after : list JS) (message : string) :
  nodesToElements before = Throw message -> nodesToElements (before ++ after) = Throw message.
Proof.
  induction before as [|node rest IH]; [discriminate|].
  cbn [app nodesToElements]. destruct (nodeToElement node) as [e|]; [|now intros [= ->]].
  cbn [bind]. destruct (nodesToElements rest) as [es|] eqn:E; [discriminate|].
  cbn [bind]. intros [= ->]. now rewrite (IH eq_refl).
Qed.

(** X27.  The label of two lists of nodes is the label of the first followed
    by the label of the second; and when the first cannot be converted,
    neither can the two together, for the same reason. *)
Theorem labels_concatenate (before after : list Obj) :
  (forall first second,
     unistToHtml before = Ok first -> unistToHtml after = Ok second ->
     unistToHtml (before ++ after) = Ok (first +:+ second)) /\
  (forall message,
     unistToHtml before = Throw message -> unistToHtml (before ++ after) = Throw message).
Proof.
  unfold unistToHtml. rewrite map_app. split.
  - intros first second Hb Ha.
    destruct (nodesToElements (map JObj before)) as [eb|] eqn:Eb; [|discriminate].
    destruct (nodesToElements (map JObj after)) as [ea|] eqn:Ea; [|discriminate].
    cbn [bind] in Hb, Ha. injection Hb as <-. injection Ha as <-.
    rewrite (nodesToElements_app _ _ _ Eb), Ea. cbn [bind].
    unfold innerHTML. now rewrite map_app, concat_app.
  - intros message Hb.
    destruct (nodesToElements (map JObj before)) as [eb|m] eqn:Eb; [discriminate|].
    cbn [bind] in Hb. injection Hb as <-.
    now rewrite (nodesToElements_raises _ _ _ Eb).
Qed.

Section Labels.

Variable ext : Ext.

(** X28.  A tool invocation without parameters and without a result is its
    bare label, not a disclosure block: the wrench and the name of the
    tool, which is "unknown_tool" for a block without a name. *)
Theorem bare_tool_label (block : ContentBlock) :
  b_input block = None \/ b_input block = Some (JObj []) ->
  createToolUseNodes ext block None =
    Ok [u2 "html" (JStr ("🔧 <strong>" +:+ escapeHtml false (toolNameOf block)
                         +:+ "</strong>"))] /\
  (b_name block = None \/ b_name block = Some "" -> toolNameOf block = "unknown_tool").
Proof.
  intros Hinput. split.
  - assert (Hname : toolNameOf block <> "").
    { unfold toolNameOf. destruct (b_name block) as [n|]; [|discriminate].
      destruct (String.eqb_spec n ""); [discriminate | assumption]. }
    assert (Hd : describeTool ext (toolNameOf block) (b_input block) =
                 Ok (createToolSummary (toolNameOf block) None, [])).
    { unfold describeTool. destruct Hinput as [-> | ->]; cbn [optMember member getProp optTruthy];
        rewrite !andb_false_r; reflexivity. }
    unfold createToolUseNodes. rewrite Hd. cbn [bind fst snd].
    assert (Hp : parameterParts ext (b_input block) = []).
    { destruct Hinput as [-> | ->]; reflexivity. }
    rewrite Hp. cbn [length Nat.ltb Nat.leb].
    assert (Hl : unistToHtml (createToolSummary (toolNameOf block) None) =
                 Ok ("🔧 <strong>" +:+ escapeHtml false (toolNameOf block) +:+ "</strong>")).
    { pose proof (literal_text (toolNameOf block) Hname) as Htext.
      unfold unistToHtml, createToolSummary. cbn [map nodesToElements].
      assert (Hs : nodeToElement (JObj (u2 "strong" (nodeArray [u2 "text" (JStr (toolNameOf block))]))) =
                   Ok (Some (DElement "strong" [] [DText (valueText (JStr (toolNameOf block)))])))
        by reflexivity.
      rewrite Hs. unfold valueText. cbn [truthy].
      apply String.eqb_neq in Hname. rewrite Hname. cbn [negb ToString].
      generalize (toolNameOf block) as n. intros n. vm_compute. reflexivity. }
    rewrite Hl. reflexivity.
  - unfold toolNameOf. intros [-> | ->]; reflexivity.
Qed.

(** X29.  Only the two times of the metadata are formatted: the keys and
    their order stay, a row of another key stays as it is, and so does a
    time that is empty. *)
Theorem only_the_times_are_formatted (metadata : list (string * string)) :
  let formatted := formatField ext "End Time" (formatField ext "Start Time" metadata) in
  map fst formatted = map fst metadata /\
  (forall key value,
     key <> "Start Time" -> key <> "End Time" ->
     (In (key, value) formatted <-> In (key, value) metadata)) /\
  (forall key, In (key, "") metadata -> In (key, "") formatted) /\
  (forall key value,
     key = "Start Time" \/ key = "End Time" -> value <> "" -> In (key, value) metadata ->
     In (key, formatTimestamp ext value) formatted).
Proof.
  cbv zeta. induction metadata as [|[k v] rest IH]; [cbn; intuition|].
  destruct IH as (Hkeys & Hother & Hempty & Htimes).
  assert (Hrow : formatField ext "End Time" (formatField ext "Start Time" ((k, v) :: rest)) =
                 (k, if (String.eqb k "Start Time" || String.eqb k "End Time")
                        && negb (String.eqb v "")
                     then formatTimestamp ext v else v)
                 :: formatField ext "End Time" (formatField ext "Start Time" rest)).
  { assert (Hcons : forall key row rows,
              formatField ext key (row :: rows) =
              (if String.eqb (fst row) key && negb (String.eqb (snd row) "")
               then (fst row, formatTimestamp ext (snd row)) else row)
              :: formatField ext key rows) by reflexivity.
    rewrite (Hcons "Start Time"). cbn [fst snd].
    destruct (String.eqb_spec k "Start Time") as [->|Hs];
      destruct (String.eqb v "") eqn:Ev; cbn [andb orb negb];
      rewrite (Hcons "End Time"); cbn [fst snd]; rewrite ?Ev; cbn [andb orb negb];
      try reflexivity.
    - rewrite andb_false_r. reflexivity.
    - destruct (String.eqb k "End Time"); reflexivity. }
  rewrite Hrow. clear Hrow. cbn [map fst In]. split; [now rewrite Hkeys|]. split; [|split].
  - intros key value Hs He. rewrite (Hother key value Hs He).
    apply String.eqb_neq in Hs, He.
    split; (intros [[= <- <-]|H]; [left | right; exact H]).
    + rewrite Hs in *. now rewrite He in *.
    + rewrite Hs, He. reflexivity.
  - intros key [[= -> ->]|H]; [left | right; now apply Hempty].
    rewrite andb_false_r. reflexivity.
  - intros key value Hkey Hne [[= -> ->]|H]; [left | right; now apply Htimes].
    apply String.eqb_neq in Hne. rewrite Hne.
    destruct Hkey as [-> | ->]; reflexivity.
Qed.

End Labels.

(* ================================================================== *)
(** * The further properties on the samples *)
(* ================================================================== *)

Lemma user_text_witness :
  exists children,
    createChatEntryNodes sampleExt (Chat twoLines) sampleOptions =
      Ok [heading 3 "2025-01-01T10:01:05.000Z";
          u2 "blockquote" (nodeArray [u2 "paragraph" (nodeArray children)])] /\
    Forall (fun node => hasType node "text" = true \/ hasType node "break" = true) children /\
    join nl (textValues children) = "first" +:+ nl +:+ "second".
Proof.
  apply (user_text_is_quoted sampleExt sampleOptions twoLines ("first" +:+ nl +:+ "second")
           eq_refl eq_refl).
  discriminate.
Defined.

Lemma todo_counts_witness :
  describeTool sampleExt "TodoWrite" (b_input todoBlock) =
    Ok (createToolSummary "TodoWrite"
          (Some (DescString "Updated todo list (1 completed, 1 in progress, 1 pending)")),
        parseMarkdown sampleExt
          ("**Tasks:**" +:+ backslashBreak +:+ "✅ Task 1" +:+ backslashBreak
           +:+ "🔄 Task 2" +:+ backslashBreak +:+ "⏳ Task 3")).
Proof.
  exact (proj1 (todo_counts sampleExt (b_input todoBlock) _ eq_refl eq_refl)).
Defined.

Lemma bash_label_witness :
  exists summary,
    describeTool sampleExt "Bash" (Some (JObj [("command", JStr "ls -la")])) = Ok (summary, []) /\
    unistToHtml summary = Ok "🔧 <strong>Bash</strong>: <code>ls -la</code>".
Proof.
  apply (bash_label sampleExt (Some (JObj [("command", JStr "ls -la")])) "ls -la" eq_refl).
  discriminate.
Defined.

Lemma file_label_witness :
  describeTool sampleExt "Read" (b_input readBlock) =
    Ok (createToolSummary "Read"
          (Some (DescNodes [u2 "text" (JStr "Read file "); u2 "inlineCode" (JStr "main.ts")])), []).
Proof.
  exact (proj1 (file_label_shows_the_file_name sampleExt (b_input readBlock) "/src" "main.ts"
                  eq_refl eq_refl)).
Defined.

Lemma first_timestamp_witness :
  getChatStartTime sampleExt "b.jsonl" = None.
Proof.
  exact (first_timestamp_wins sampleExt "b.jsonl" "B1" [] [] "B1" (System undatedNotice)
           "not a date" eq_refl eq_refl (List.Forall_nil _) eq_refl eq_refl).
Defined.

Lemma rendering_witness :
  returns (createChatEntryNodes sampleExt (Chat readAssistant) sampleOptions) /\
  exists pushed,
    tryChat sampleExt sampleOptions "a.jsonl" [] = (pushed, None) /\
    chatSection sampleExt sampleOptions "a.jsonl" =
      heading 2 "Chat: a" :: pushed ++ [u1 "thematicBreak"].
Proof.
  destruct (rendering_fails_on_tool_parameters_only sampleExt sampleOptions) as [Hentry Hchat].
  split.
  - apply Hentry. repeat constructor.
  - apply (Hchat "a.jsonl" ("A1" +:+ nl +:+ "A2") eq_refl). repeat constructor.
Defined.

Lemma parse_witness :
  exists entries warnings,
    parseJsonlFile sampleDecode sampleReadText "lines.jsonl" = Ok (entries, warnings) /\
    entries = ["{}"; "[1]"] /\
    (length entries + length warnings)%nat = 3%nat.
Proof.
  exact (every_line_is_decoded_or_reported sampleDecode sampleReadText "lines.jsonl" _ eq_refl).
Defined.

Lemma round_trip_witness :
  parseJsonlFile sampleDecode sampleReadText "written.jsonl" = Ok (["{}"; "[1]"], []).
Proof.
  apply (jsonl_round_trip sampleDecode sampleStringify sampleReadText "written.jsonl"
           ("{}" +:+ nl +:+ "[1]") ["{}"; "[1]"]); try reflexivity; repeat constructor.
Defined.

Lemma models_witness :
  exists models,
    List.NoDup models /\
    (forall m, In m models <-> namesModel sampleChat m) /\
    In ("Models Used", match models with [] => "Unknown" | _ => join ", " models end)
       (ClaudeProject.extractChatMetadata sampleNumberToString sampleChat).
Proof.
  apply (models_used sampleNumberToString sampleChat). discriminate.
Defined.

(** Three counters whose sum, 2^53 + 1, is rounded to 2^53. *)
Lemma token_totals_witness :
  tokensOf ClaudeProject.input_tokens largeChat = twoTo53 /\
  In ("Total Input Tokens", "9007199254740992")
     (ClaudeProject.extractChatMetadata sampleNumberToString largeChat).
Proof.
  split; [reflexivity|].
  apply (proj1 (token_totals sampleNumberToString largeChat)). discriminate.
Defined.

Lemma project_name_witness : exportProjectName "chat1.jsonl" = "Chat".
Proof. apply (project_name_is_chat "chat1.jsonl"). reflexivity. Defined.

Lemma missing_project_witness :
  entryPoint sampleExt samplePlatform (cliOptions (Some "/nonexistent/path") false) =
    (inr "Error: Project directory not found: /nonexistent/path", 1%Z).
Proof.
  apply (missing_project_is_an_error sampleExt samplePlatform
           (cliOptions (Some "/nonexistent/path") false) "/nonexistent/path");
    try reflexivity. discriminate.
Defined.

Lemma exported_chats_witness :
  In ("Total Chat Files", "1")
     (createExportMetadata sampleExt "Chat" ["/data/project/chat1.jsonl"]
        {| opt_output := None; opt_chats := Some ["chat1"; "chat9"] |}) /\
  In ("Exported Chats", "2")
     (createExportMetadata sampleExt "Chat" ["/data/project/chat1.jsonl"]
        {| opt_output := None; opt_chats := Some ["chat1"; "chat9"] |}).
Proof.
  destruct (exported_chats_are_the_requested sampleExt samplePlatform "/data/project"
              ["chat1"; "chat9"] ["/data/project/chat1.jsonl"]
              {| opt_output := None; opt_chats := Some ["chat1"; "chat9"] |}
              eq_refl eq_refl) as (Htotal & Hexported & _).
  split; [exact Htotal | exact Hexported].
Defined.

Lemma hidden_blocks_witness :
  createChatEntryNodes sampleExt
    (Chat (chatMessage T_assistant "2025-01-01T10:01:00.000Z" (ContentBlocks [thinkingBlock])))
    sampleOptions = Ok [].
Proof.
  apply (proj2 (hidden_blocks_are_skipped sampleExt sampleOptions [thinkingBlock]));
    reflexivity.
Defined.

Lemma detection_witness :
  detectCurrentProject samplePlatform = Some "/home/user/.claude/projects/-work-my-app" /\
  pathExists samplePlatform "/home/user/.claude/projects/-work-my-app" = true.
Proof.
  split; [reflexivity|].
  destruct (proj1 (detected_project_exists samplePlatform)
              "/home/user/.claude/projects/-work-my-app" eq_refl)
    as (homeDir & entry & _ & _ & _ & _ & Hexists).
  exact Hexists.
Defined.

Lemma found_files_witness :
  findChatFiles samplePlatform "/data/project" None =
    Ok ["/data/project/chat1.jsonl"; "/data/project/chat2.jsonl"] /\
  findChatFiles samplePlatform "/data/project" (Some ["chat2"; "chat9"; "chat1"]) =
    Ok ["/data/project/chat2.jsonl"; "/data/project/chat1.jsonl"] /\
  exists message, findChatFiles samplePlatform "/data/project" (Some []) = Throw message.
Proof.
  split; [reflexivity|]. split; [reflexivity|].
  apply (proj2 (found_chat_files samplePlatform "/data/project" (Some []))). reflexivity.
Defined.

Lemma metadata_witness :
  ClaudeProject.extractChatMetadata sampleNumberToString [ClaudeProject.SummaryEntry] = [] /\
  ClaudeProject.extractChatMetadata sampleNumberToString sampleChat =
    [("Session ID", "test-session-1"); ("Working Directory", "/test/project");
     ("Claude Code Version", "1.0.0"); ("Start Time", "2025-01-01T10:00:00.000Z");
     ("End Time", "2025-01-01T10:01:00.000Z"); ("Total Messages", "4");
     ("User Messages", "1"); ("Assistant Messages", "2"); ("Models Used", "claude-3");
     ("Total Input Tokens", "20"); ("Total Output Tokens", "40"); ("Total Tokens", "60")].
Proof.
  split; [|reflexivity].
  apply (proj1 (metadata_rows sampleNumberToString [ClaudeProject.SummaryEntry])).
  repeat constructor.
Defined.

Lemma timestamp_witness :
  ClaudeFormatting.formatTimestamp (Some newYork) = "2025-01-01 05:00 -05:00" /\
  ClaudeFormatting.formatTimestamp (Some kolkata) = "2025-01-01 15:30 +05:30" /\
  matches timestampPattern (ClaudeFormatting.formatTimestamp (Some kolkata)) = true.
Proof.
  split; [reflexivity|]. split; [reflexivity|].
  apply (proj1 timestamp_pattern). unfold calendarTime. cbn. lia.
Defined.

Lemma single_chat_witness :
  chatDocument sampleExt sampleOptions "missing.jsonl" =
    stringifyMarkdown sampleExt
      [heading 1 "missing - Claude Code Chat Export"; heading 2 "Chat: missing";
       errorParagraph "No such file or directory (os error 2)"; u1 "thematicBreak"] /\
  entryPoint sampleExt samplePlatform (cliOptions (Some "missing.jsonl") false) =
    (inl (Exported (ConsoleLog (chatDocument sampleExt sampleOptions "missing.jsonl"))), 0%Z) /\
  entryPoint sampleExt samplePlatform (cliOutput "missing.jsonl" "export.md") =
    (inl (Exported (WriteTextFile "export.md"
                      (chatDocument sampleExt (appOptions (cliOutput "missing.jsonl" "export.md"))
                                    "missing.jsonl"))), 0%Z) /\
  entryPoint sampleExt samplePlatform (cliOutput "missing.jsonl" "/proc/export.md") =
    (inr "Error: Permission denied (os error 13)", 1%Z).
Proof.
  destruct (single_chat_export sampleExt samplePlatform "missing.jsonl") as (_ & Hmissing & Hrun).
  split; [|split; [|split]].
  - exact (Hmissing sampleOptions "No such file or directory (os error 2)" eq_refl).
  - exact (proj1 (Hrun (cliOptions (Some "missing.jsonl") false) eq_refl eq_refl eq_refl)
             eq_refl).
  - apply (proj1 (proj2 (Hrun (cliOutput "missing.jsonl" "export.md")
                           eq_refl eq_refl eq_refl)) "export.md");
      [reflexivity | discriminate | reflexivity].
  - apply (proj2 (proj2 (Hrun (cliOutput "missing.jsonl" "/proc/export.md")
                           eq_refl eq_refl eq_refl))
             "/proc/export.md" "Permission denied (os error 13)");
      [reflexivity | discriminate | reflexivity].
Defined.

Lemma input_witness :
  resolveInputPath samplePlatform (cliOptions (Some "/data/project/chat1.jsonl") true) =
    Ok (chat, "/data/project/chat1.jsonl") /\
  resolveInputPath samplePlatform (cliOptions None true) =
    Ok (project, "/home/user/.claude/projects/-work-my-app") /\
  main sampleExt samplePlatform (cliOptions None false) = Ok ShowHelp.
Proof.
  split; [|split; [reflexivity|]].
  - apply (proj2 (proj2 (input_decides_the_export sampleExt samplePlatform
                           (cliOptions (Some "/data/project/chat1.jsonl") true)))
             "/data/project/chat1.jsonl" eq_refl).
    discriminate.
  - apply (proj1 (input_decides_the_export sampleExt samplePlatform (cliOptions None false))).
    right. split; reflexivity.
Defined.

Lemma bare_label_witness :
  createToolUseNodes sampleExt namelessBlock None =
    Ok [u2 "html" (JStr "🔧 <strong>unknown_tool</strong>")].
Proof.
  apply (proj1 (bare_tool_label sampleExt namelessBlock (or_introl eq_refl))).
Defined.
